(** * Ledger and synchronisation layer of the investor back office

    A shallow embedding of [FirestoreService] (src/unnamed/part_003) and
    [MessageService] (src/src/services/messageService.ts).

    - JavaScript numbers are IEEE binary64 values: Rocq's primitive floats.
    - A stored document is a record whose entries are [field]s: a property can
      be missing, hold [null], or hold a value of the type the services write.
    - The document store is one finite map per collection, keyed by document
      id.  Every call to the store client is a request that the store may
      reject; the outcomes of the coming requests are part of the [World].
    - An [async] method is a function in the state-and-error monad [M]. *)

From Stdlib Require Import Floats ZArith Ascii.
From stdpp Require Import gmap strings list fin_maps sorting.

Set Warnings "-inexact-float".

(** ** JavaScript values *)

(** A property of a stored document or of an object literal. *)
Inductive field (A : Type) : Type :=
| Absent
| Null
| Has (a : A).
Arguments Absent {A}.
Arguments Null {A}.
Arguments Has {A} a.

(** ToBoolean on the primitive types the documents hold. *)
Class Truthy (A : Type) := truthy : A → bool.

#[global] Instance truthy_number : Truthy float :=
  λ x, negb ((x =? 0)%float || is_nan x).
#[global] Instance truthy_string : Truthy string :=
  λ s, negb (String.eqb s "").
#[global] Instance truthy_boolean : Truthy bool :=
  λ b, b.

(** [data.f || d] for a primitive property. *)
Definition orElse {A} `{Truthy A} (f : field A) (d : A) : A :=
  match f with
  | Has a => if truthy a then a else d
  | _ => d
  end.

(** [data.f || d] when [f] holds an object, an array or a Date: these are
    always truthy. *)
Definition orObject {A} (f : field A) (d : A) : A :=
  match f with
  | Has a => a
  | _ => d
  end.

(** [data.f?.g]: the property [g] of the object under [f], if there is one. *)
Definition chain {A B} (f : field A) (g : A → field B) : field B :=
  match f with
  | Has a => g a
  | _ => Absent
  end.

(** [x || null] on an optional string argument. *)
Definition orNull (x : option string) : field string :=
  match x with
  | Some s => if truthy s then Has s else Null
  | None => Null
  end.

(** An optional string argument used as a condition: [if (x)]. *)
Definition given (x : option string) : option string :=
  match x with
  | Some s => if truthy s then Some s else None
  | None => None
  end.

(** ToNumber of a property in an arithmetic expression: [undefined] is NaN,
    [null] is 0. *)
Definition toNumber (f : field float) : float :=
  match f with
  | Absent => nan
  | Null => 0%float
  | Has x => x
  end.

(** A property that is not [undefined]. *)
Definition defined {A} (f : field A) : bool :=
  match f with
  | Absent => false
  | _ => true
  end.

(** [s.includes(pat)]. *)
Definition includes (pat s : string) : bool :=
  match String.index 0 pat s with
  | Some _ => true
  | None => false
  end.

(** Strings are held in UTF-8, the encoding whose byte order is the order of
    the store. JavaScript counts a string in UTF-16 code units: a character
    encoded on one, two or three bytes is one unit, and a character encoded
    on four bytes is two units, a surrogate pair. *)

(** The code units of the character that starts with this byte. *)
Definition codeUnits (lead : ascii) : nat :=
  if 240 <=? nat_of_ascii lead then 2 else 1.

(** The bytes that follow the first byte of that character. *)
Definition trailing (lead : ascii) : nat :=
  let b := nat_of_ascii lead in
  if b <? 192 then 0 else if b <? 224 then 1 else if b <? 240 then 2 else 3.

(** The code units of a string, [pending] bytes of which belong to a
    character already counted. *)
Fixpoint unitsFrom (pending : nat) (s : string) : nat :=
  match s with
  | EmptyString => 0
  | String c s' =>
      match pending with
      | S p => unitsFrom p s'
      | 0 => codeUnits c + unitsFrom (trailing c) s'
      end
  end.

(** [s.length]. *)
Definition jsLength (s : string) : nat := unitsFrom 0 s.

(** The first half of the surrogate pair of the character whose encoding
    starts with [b0 b1 b2], held by itself in three bytes: what is left of
    the character when a string is cut between the two halves. *)
Definition highSurrogate (b0 b1 b2 : ascii) : string :=
  let top := (nat_of_ascii b0 mod 8) * 256 + (nat_of_ascii b1 mod 64) * 4
             + (nat_of_ascii b2 mod 64) / 16 in
  let v := top - 64 in
  String (ascii_of_nat 237)
    (String (ascii_of_nat (160 + v / 64))
       (String (ascii_of_nat (128 + v mod 64)) EmptyString)).

(** The first [n] code units of a string, [pending] bytes of which belong to
    a character already taken. *)
Fixpoint prefix16 (n pending : nat) (s : string) : string :=
  match s with
  | EmptyString => EmptyString
  | String c s' =>
      match pending with
      | S p => String c (prefix16 n p s')
      | 0 =>
          if codeUnits c <=? n
          then String c (prefix16 (n - codeUnits c) (trailing c) s')
          else match n, s' with
               | 1, String c1 (String c2 _) => highSurrogate c c1 c2
               | _, _ => EmptyString
               end
      end
  end.

(** [s.substring(0, n)]. *)
Definition substring0 (n : nat) (s : string) : string := prefix16 n 0 s.

(** Firestore timestamps and JavaScript dates: milliseconds on one time line. *)
Definition Timestamp := Z.

(** [data.f?.toDate() || d]. *)
Definition toDateOr (f : field Timestamp) (d : Z) : Z := orObject f d.

(** [data.f?.toDate() || null]. *)
Definition toDateOrNull (f : field Timestamp) : option Z :=
  match f with
  | Has t => Some t
  | _ => None
  end.

(** Nested objects the ledger never looks into (bank details, verification). *)
Definition Obj := list (string * string).

(** ** Errors *)

(** A thrown value: a store error carries a [code], [new Error(msg)] none. *)
Record Error := { code : option string; message : string }.

Definition newError (msg : string) : Error :=
  {| code := None; message := msg |}.

Inductive result (A : Type) : Type :=
| Ok (a : A)
| Throw (e : Error).
Arguments Ok {A} a.
Arguments Throw {A} e.

(** ** Documents, one module per collection *)

Module User.
Record Flags := {
  policyViolation : field bool;
  policyViolationMessage : field string;
  pendingKyc : field bool;
  kycMessage : field string;
  withdrawalDisabled : field bool;
  withdrawalMessage : field string;
  pendingProfileChanges : field bool;
  profileChangeMessage : field string
}.
Record Trading := {
  positionsPerDay : field float;
  pairs : field (list string);
  platform : field string;
  leverage : field float;
  currency : field string
}.
Record doc := {
  name : field string;
  email : field string;
  phone : field string;
  country : field string;
  location : field string;
  joinDate : field string;
  initialDeposit : field float;
  currentBalance : field float;
  role : field string;
  isActive : field bool;
  accountType : field string;
  accountStatus : field string;
  accountFlags : field Flags;
  tradingData : field Trading;
  bankDetails : field Obj;
  verification : field Obj;
  bankAccounts : field (list Obj);
  createdAt : field Timestamp;
  updatedAt : field Timestamp
}.
End User.

Module Tx.
Record doc := {
  investorId : field string;
  type : field string;
  amount : field float;
  date : field string;
  status : field string;
  description : field string;
  createdAt : field Timestamp;
  updatedAt : field Timestamp
}.
End Tx.

Module Wd.
Record doc := {
  investorId : field string;
  investorName : field string;
  amount : field float;
  date : field string;
  status : field string;
  approvalDate : field Timestamp;
  processedBy : field string;
  processedAt : field Timestamp;
  reason : field string;
  w8benStatus : field string;
  w8benSubmittedAt : field Timestamp;
  w8benApprovedAt : field Timestamp;
  w8benRejectionReason : field string;
  createdAt : field Timestamp;
  updatedAt : field Timestamp
}.
End Wd.

Module Com.
Record doc := {
  investorId : field string;
  investorName : field string;
  withdrawalId : field string;
  withdrawalAmount : field float;
  commissionRate : field float;
  commissionAmount : field float;
  date : field string;
  status : field string;
  createdAt : field Timestamp
}.
End Com.

Module Conv.
Record doc := {
  participants : field (list string);
  participantNames : field (list string);
  participantRoles : field (list string);
  lastMessage : field string;
  lastMessageTime : field Timestamp;
  adminId : field string;
  affiliateId : field string;
  createdAt : field Timestamp;
  updatedAt : field Timestamp
}.
End Conv.

Module Msg.
Record doc := {
  senderId : field string;
  senderName : field string;
  senderRole : field string;
  content : field string;
  timestamp : field Timestamp;
  conversationId : field string;
  replyTo : field string;
  priority : field string;
  status : field string;
  createdAt : field Timestamp
}.
End Msg.

(** ** The world: store, clocks and the outcomes of the coming requests *)

Record Store := {
  users : gmap string User.doc;
  transactions : gmap string Tx.doc;
  withdrawalRequests : gmap string Wd.doc;
  commissions : gmap string Com.doc;
  conversations : gmap string Conv.doc;
  affiliateMessages : gmap string Msg.doc
}.

Record World := {
  store : Store;
  (** commit time of the last write the server accepted *)
  serverTime : Z;
  (** [new Date()] on the client *)
  clientNow : Z;
  (** [new Date().toISOString().split('T')[0]] on the client *)
  today : string;
  (** what the store answers to the coming requests: [Some e] rejects the
      request with [e], [None] serves it; past the end every request is
      served *)
  script : list (option Error)
}.

Definition setUsers (m : gmap string User.doc) (s : Store) : Store :=
  {| users := m; transactions := transactions s;
     withdrawalRequests := withdrawalRequests s; commissions := commissions s;
     conversations := conversations s; affiliateMessages := affiliateMessages s |}.

Definition setTransactions (m : gmap string Tx.doc) (s : Store) : Store :=
  {| users := users s; transactions := m;
     withdrawalRequests := withdrawalRequests s; commissions := commissions s;
     conversations := conversations s; affiliateMessages := affiliateMessages s |}.

Definition setWithdrawalRequests (m : gmap string Wd.doc) (s : Store) : Store :=
  {| users := users s; transactions := transactions s;
     withdrawalRequests := m; commissions := commissions s;
     conversations := conversations s; affiliateMessages := affiliateMessages s |}.

Definition setCommissions (m : gmap string Com.doc) (s : Store) : Store :=
  {| users := users s; transactions := transactions s;
     withdrawalRequests := withdrawalRequests s; commissions := m;
     conversations := conversations s; affiliateMessages := affiliateMessages s |}.

Definition setConversations (m : gmap string Conv.doc) (s : Store) : Store :=
  {| users := users s; transactions := transactions s;
     withdrawalRequests := withdrawalRequests s; commissions := commissions s;
     conversations := m; affiliateMessages := affiliateMessages s |}.

Definition setAffiliateMessages (m : gmap string Msg.doc) (s : Store) : Store :=
  {| users := users s; transactions := transactions s;
     withdrawalRequests := withdrawalRequests s; commissions := commissions s;
     conversations := conversations s; affiliateMessages := m |}.

(** [collection(db, name)]: where the documents of a collection live. *)
Record Collection (D : Type) := {
  path : string;
  docs : Store → gmap string D;
  setDocs : gmap string D → Store → Store
}.
Arguments path {D} _.
Arguments docs {D} _ _.
Arguments setDocs {D} _ _ _.

Definition usersC : Collection User.doc :=
  {| path := "users"; docs := users; setDocs := setUsers |}.
Definition transactionsC : Collection Tx.doc :=
  {| path := "transactions"; docs := transactions; setDocs := setTransactions |}.
Definition withdrawalRequestsC : Collection Wd.doc :=
  {| path := "withdrawalRequests"; docs := withdrawalRequests;
     setDocs := setWithdrawalRequests |}.
Definition commissionsC : Collection Com.doc :=
  {| path := "commissions"; docs := commissions; setDocs := setCommissions |}.
Definition conversationsC : Collection Conv.doc :=
  {| path := "conversations"; docs := conversations;
     setDocs := setConversations |}.
Definition affiliateMessagesC : Collection Msg.doc :=
  {| path := "affiliateMessages"; docs := affiliateMessages;
     setDocs := setAffiliateMessages |}.

(** ** The monad of [async] methods *)

Definition M (A : Type) : Type := World → result A * World.

Definition ret {A} (a : A) : M A := λ w, (Ok a, w).

Definition throw {A} (e : Error) : M A := λ w, (Throw e, w).

Definition bind {A B} (m : M A) (k : A → M B) : M B :=
  λ w, match m w with
       | (Ok a, w') => k a w'
       | (Throw e, w') => (Throw e, w')
       end.

Notation "'let*' x ':=' m 'in' k" := (bind m (fun x => k))
  (at level 10, x name, m at level 100, k at level 200).
Notation "m ';;' k" := (bind m (fun _ => k))
  (at level 100, k at level 200, right associativity).

(** [try { m } catch (error) { h error }]. *)
Definition tryCatch {A} (m : M A) (h : Error → M A) : M A :=
  λ w, match m w with
       | (Ok a, w') => (Ok a, w')
       | (Throw e, w') => h e w'
       end.

(** The catch block of every one-shot method:
    [throw new Error(`${prefix}: ${error instanceof Error ? error.message : 'Unknown error'}`)];
    every value thrown in this model is an [Error]. *)
Definition wrapped (prefix : string) (e : Error) : Error :=
  newError (prefix +:+ ": " +:+ message e).

Definition rethrowAs {A} (prefix : string) (m : M A) : M A :=
  tryCatch m (λ e, throw (wrapped prefix e)).

Definition getToday : M string := λ w, (Ok (today w), w).
Definition getNow : M Z := λ w, (Ok (clientNow w), w).

(** ** The store client *)

(** [Array.prototype.sort(cmp)]: a stable sort; [cmp a b > 0] puts [b]
    before [a], any other answer (negative, zero, NaN) leaves [a] first.
    Insertion from the right end is one such sort. *)
Fixpoint insertSorted {A} (cmp : A → A → Z) (x : A) (l : list A) : list A :=
  match l with
  | [] => [x]
  | y :: l' => if (0 <? cmp x y)%Z then y :: insertSorted cmp x l' else x :: l
  end.

Definition arraySort {A} (cmp : A → A → Z) (l : list A) : list A :=
  foldr (insertSorted cmp) [] l.

(** Strings in the store are ordered by their bytes. *)
Definition compareString (a b : string) : Z :=
  match String.compare a b with
  | Lt => (-1)%Z
  | Eq => 0%Z
  | Gt => 1%Z
  end.

(** The store's value order on a string property: [null] sorts before every
    string. *)
Definition compareValue (a b : field string) : Z :=
  match a, b with
  | Has x, Has y => compareString x y
  | Has _, _ => 1%Z
  | _, Has _ => (-1)%Z
  | _, _ => 0%Z
  end.

(** A snapshot: the documents of a query result, [(doc.id, doc.data())]. *)
Definition Snapshot (D : Type) : Type := list (string * D).

(** Without [orderBy] the store returns documents by ascending id. *)
Definition listing {D} (m : gmap string D) : Snapshot D :=
  arraySort (λ a b, compareString a.1 b.1) (map_to_list m).

(** [orderBy(key, 'desc')]: only documents that have the property are in the
    index; they come by descending value, and documents with equal values
    by descending id (the implicit last sort key follows the direction of
    the last explicit one). *)
Definition inIndex {A} (f : field A) : bool := defined f.

Definition descending {D} (key : D → field string) (a b : string * D) : Z :=
  let c := compareValue (key b.2) (key a.2) in
  if (c =? 0)%Z then compareString b.1 a.1 else c.

Definition orderByDesc {D} (key : D → field string) (s : Snapshot D) : Snapshot D :=
  arraySort (descending key) (List.filter (λ p, inIndex (key p.2)) s).

(** [where(key, '==', v)]. *)
Definition whereEq {D} (key : D → field string) (v : string) (s : Snapshot D) : Snapshot D :=
  List.filter (λ p, match key p.2 with Has x => String.eqb x v | _ => false end) s.

(** [where(key, 'array-contains', v)]. *)
Definition whereContains {D} (key : D → field (list string)) (v : string)
    (s : Snapshot D) : Snapshot D :=
  List.filter (λ p, match key p.2 with
                   | Has l => existsb (String.eqb v) l
                   | _ => false
                   end) s.

(** The store's answer to the next request: [Some e] rejects it. *)
Definition answer (w : World) : option Error :=
  match script w with
  | Some e :: _ => Some e
  | _ => None
  end.

(** The world once that answer has been given. *)
Definition pop (w : World) : World :=
  {| store := store w; serverTime := serverTime w; clientNow := clientNow w;
     today := today w; script := tail (script w) |}.

(** One request to the store: it is rejected if the script says so, and
    served otherwise. *)
Definition request {A} (serve : M A) : M A :=
  λ w, match answer w with
       | Some e => (Throw e, pop w)
       | None => serve (pop w)
       end.

(** An accepted write is committed at a server time later than every
    earlier commit; [serverTimestamp()] properties receive that time. *)
Definition commitTime (w : World) : Z := (serverTime w + 1)%Z.

Definition commit {D} (c : Collection D) (m : gmap string D) (w : World) : World :=
  {| store := setDocs c m (store w); serverTime := commitTime w;
     clientNow := clientNow w; today := today w; script := script w |}.

(** [getDoc(doc(db, c, id))]: [Some data] when the snapshot [exists()]. *)
Definition getDoc {D} (c : Collection D) (id : string) : M (option D) :=
  request (λ w, (Ok (docs c (store w) !! id), w)).

(** [getDocs(query(collection(db, c), ...q))]. *)
Definition getDocs {D} (c : Collection D) (q : Snapshot D → Snapshot D) : M (Snapshot D) :=
  request (λ w, (Ok (q (listing (docs c (store w)))), w)).

(** [addDoc(collection(db, c), data)]: the client picks an id that is not in
    use; [data] is given as a function of the commit time. *)
Definition addDoc {D} (c : Collection D) (data : Timestamp → D) : M string :=
  request (λ w, let id := fresh (dom (docs c (store w))) in
                (Ok id, commit c (<[id := data (commitTime w)]> (docs c (store w))) w)).

(** [setDoc(doc(db, c, id), data)]: replaces the whole document. *)
Definition setDoc {D} (c : Collection D) (id : string) (data : Timestamp → D) : M unit :=
  request (λ w, (Ok tt, commit c (<[id := data (commitTime w)]> (docs c (store w))) w)).

Definition notFound (p id : string) : Error :=
  {| code := Some "not-found";
     message := "No document to update: " +:+ p +:+ "/" +:+ id |}.

(** [updateDoc(doc(db, c, id), data)]: merges the named properties into an
    existing document and fails when there is none. *)
Definition updateDoc {D} (c : Collection D) (id : string) (merge : Timestamp → D → D) : M unit :=
  request (λ w, match docs c (store w) !! id with
                | Some d =>
                    (Ok tt, commit c (<[id := merge (commitTime w) d]> (docs c (store w))) w)
                | None => (Throw (notFound (path c) id), w)
                end).

(** [deleteDoc(doc(db, c, id))]. *)
Definition deleteDoc {D} (c : Collection D) (id : string) : M unit :=
  request (λ w, (Ok tt, commit c (delete id (docs c (store w))) w)).

(** The client refuses a document with an [undefined] property value. *)
Definition undefinedValue : Error :=
  {| code := Some "invalid-argument";
     message := "Function addDoc() called with invalid data. Unsupported field value: undefined" |}.

(** [new Date(s).getTime()] is the host's date parser: [None] stands for NaN.
    The services are given for any such parser. *)
Definition DateParser := string → option Z.

(** [new Date(b.date).getTime() - new Date(a.date).getTime()] as the comparator
    of a sort: times are integers of magnitude at most 8.64e15, so the sign of
    the floating-point difference is the sign of the exact one; NaN counts
    as zero. *)
Definition byDateDesc {R} (getTime : DateParser) (date : R → string) (a b : R) : Z :=
  match getTime (date b), getTime (date a) with
  | Some tb, Some ta => (tb - ta)%Z
  | _, _ => 0%Z
  end.

(** ** FirestoreService: investors *)

(** What the service hands to its callers for one investor. *)
Module Investor.
Record t := {
  id : string;
  name : string;
  email : string;
  phone : string;
  country : string;
  location : string;
  joinDate : string;
  initialDeposit : float;
  currentBalance : float;
  role : string;
  isActive : bool;
  accountType : option string;
  accountStatus : string;
  accountFlags : User.Flags;
  tradingData : User.Trading;
  bankDetails : Obj;
  verification : Obj;
  bankAccounts : option (list Obj);
  createdAt : Z;
  updatedAt : Z
}.
End Investor.

(** [data.role === r]. *)
Definition roleIs (r : string) (data : User.doc) : bool :=
  match User.role data with
  | Has s => String.eqb s r
  | _ => false
  end.

(** [data.isActive !== false]. *)
Definition notFalse (f : field bool) : bool :=
  match f with
  | Has false => false
  | _ => true
  end.

Definition noFlags : User.Flags :=
  {| User.policyViolation := Absent; User.policyViolationMessage := Absent;
     User.pendingKyc := Absent; User.kycMessage := Absent;
     User.withdrawalDisabled := Absent; User.withdrawalMessage := Absent;
     User.pendingProfileChanges := Absent; User.profileChangeMessage := Absent |}.

(** The [tradingData] literal shared by every investor mapping. *)
Definition tradingOf (data : User.doc) : User.Trading :=
  let td := User.tradingData data in
  {| User.positionsPerDay := Has (orElse (chain td User.positionsPerDay) 0%float);
     User.pairs := Has (orObject (chain td User.pairs) []);
     User.platform := Has (orElse (chain td User.platform) "IBKR");
     User.leverage := Has (orElse (chain td User.leverage) 100%float);
     User.currency := Has (orElse (chain td User.currency) "USD") |}.

(** The [accountFlags] literal of [processUserDocsAsInvestors]; the
    single-investor listener adds the two profile-change properties. *)
Definition flagsOf (profileChanges : bool) (data : User.doc) : User.Flags :=
  let af := User.accountFlags data in
  {| User.policyViolation := Has (orElse (chain af User.policyViolation) false);
     User.policyViolationMessage := Has (orElse (chain af User.policyViolationMessage) "");
     User.pendingKyc := Has (orElse (chain af User.pendingKyc) false);
     User.kycMessage := Has (orElse (chain af User.kycMessage) "");
     User.withdrawalDisabled := Has (orElse (chain af User.withdrawalDisabled) false);
     User.withdrawalMessage := Has (orElse (chain af User.withdrawalMessage) "");
     User.pendingProfileChanges :=
       if profileChanges then Has (orElse (chain af User.pendingProfileChanges) false)
       else Absent;
     User.profileChangeMessage :=
       if profileChanges then Has (orElse (chain af User.profileChangeMessage) "")
       else Absent |}.

Definition processUserDocAsInvestor (today : string) (now : Z)
    (d : string * User.doc) : Investor.t :=
  let data := d.2 in
  {| Investor.id := d.1;
     Investor.name := orElse (User.name data) "Unknown Investor";
     Investor.email := orElse (User.email data) "";
     Investor.phone := orElse (User.phone data) "";
     Investor.country := orElse (User.country data) "Unknown";
     Investor.location := orElse (User.location data) "";
     Investor.joinDate := orElse (User.joinDate data) today;
     Investor.initialDeposit := orElse (User.initialDeposit data) 0%float;
     Investor.currentBalance := orElse (User.currentBalance data) 0%float;
     Investor.role := "investor";
     Investor.isActive := notFalse (User.isActive data);
     Investor.accountType := Some (orElse (User.accountType data) "Standard");
     Investor.accountStatus := orElse (User.accountStatus data) "Active";
     Investor.accountFlags := flagsOf false data;
     Investor.tradingData := tradingOf data;
     Investor.bankDetails := orObject (User.bankDetails data) [];
     Investor.verification := orObject (User.verification data) [];
     Investor.bankAccounts := None;
     Investor.createdAt := toDateOr (User.createdAt data) now;
     Investor.updatedAt := toDateOr (User.updatedAt data) now |}.

Definition processUserDocsAsInvestors (today : string) (now : Z)
    (usersSnapshot : Snapshot User.doc) : list Investor.t :=
  map (processUserDocAsInvestor today now) usersSnapshot.

(** The object literal of [getInvestorById]: no [accountType], and
    [accountFlags] copied as stored. *)
Definition investorById (today : string) (now : Z) (id : string)
    (data : User.doc) : Investor.t :=
  {| Investor.id := id;
     Investor.name := orElse (User.name data) "Unknown Investor";
     Investor.email := orElse (User.email data) "";
     Investor.phone := orElse (User.phone data) "";
     Investor.country := orElse (User.country data) "Unknown";
     Investor.location := orElse (User.location data) "";
     Investor.joinDate := orElse (User.joinDate data) today;
     Investor.initialDeposit := orElse (User.initialDeposit data) 0%float;
     Investor.currentBalance := orElse (User.currentBalance data) 0%float;
     Investor.role := "investor";
     Investor.isActive := notFalse (User.isActive data);
     Investor.accountType := None;
     Investor.accountStatus := orElse (User.accountStatus data) "Active";
     Investor.accountFlags := orObject (User.accountFlags data) noFlags;
     Investor.tradingData := tradingOf data;
     Investor.bankDetails := orObject (User.bankDetails data) [];
     Investor.verification := orObject (User.verification data) [];
     Investor.bankAccounts := None;
     Investor.createdAt := toDateOr (User.createdAt data) now;
     Investor.updatedAt := toDateOr (User.updatedAt data) now |}.

Definition getInvestorById (id : string) : M (option Investor.t) :=
  rethrowAs "Failed to retrieve investor profile"
    (let* docSnap := getDoc usersC id in
     let* today := getToday in
     let* now := getNow in
     match docSnap with
     | Some data =>
         if roleIs "investor" data
         then ret (Some (investorById today now id data))
         else ret None
     | None => ret None
     end).

(** [{ currentBalance: newBalance, updatedAt: serverTimestamp() }] merged
    into a user document. *)
Definition mergeBalance (newBalance : float) (t : Timestamp) (d : User.doc) : User.doc :=
  {| User.name := User.name d; User.email := User.email d;
     User.phone := User.phone d; User.country := User.country d;
     User.location := User.location d; User.joinDate := User.joinDate d;
     User.initialDeposit := User.initialDeposit d;
     User.currentBalance := Has newBalance;
     User.role := User.role d; User.isActive := User.isActive d;
     User.accountType := User.accountType d;
     User.accountStatus := User.accountStatus d;
     User.accountFlags := User.accountFlags d;
     User.tradingData := User.tradingData d;
     User.bankDetails := User.bankDetails d;
     User.verification := User.verification d;
     User.bankAccounts := User.bankAccounts d;
     User.createdAt := User.createdAt d;
     User.updatedAt := Has t |}.

Definition updateInvestorBalance (id : string) (newBalance : float) : M unit :=
  rethrowAs "Failed to update account balance"
    (updateDoc usersC id (mergeBalance newBalance)).

(** [{ accountStatus: 'Deletion Request Under Review', isActive: false,
    updatedAt: serverTimestamp() }] merged into a user document. *)
Definition mergeClosure (t : Timestamp) (d : User.doc) : User.doc :=
  {| User.name := User.name d; User.email := User.email d;
     User.phone := User.phone d; User.country := User.country d;
     User.location := User.location d; User.joinDate := User.joinDate d;
     User.initialDeposit := User.initialDeposit d;
     User.currentBalance := User.currentBalance d;
     User.role := User.role d; User.isActive := Has false;
     User.accountType := User.accountType d;
     User.accountStatus := Has "Deletion Request Under Review";
     User.accountFlags := User.accountFlags d;
     User.tradingData := User.tradingData d;
     User.bankDetails := User.bankDetails d;
     User.verification := User.verification d;
     User.bankAccounts := User.bankAccounts d;
     User.createdAt := User.createdAt d;
     User.updatedAt := Has t |}.

Definition deleteInvestor (id reason adminId : string) : M unit :=
  rethrowAs "Failed to create closure request"
    (let* investorDoc := getDoc usersC id in
     match investorDoc with
     | None => throw (newError "Investor not found")
     | Some _ => updateDoc usersC id mergeClosure
     end).

(** ** FirestoreService: transactions *)

(** [Omit<Transaction, 'id'>], the argument of [addTransaction]. The
    interface is declared in types/user, which is not among the sources; its
    properties are those the call sites pass and the store schema lists. *)
Module NewTransaction.
Record t := {
  investorId : string;
  type : string;
  amount : float;
  date : string;
  status : string;
  description : string
}.
End NewTransaction.

(** [{ ...transaction, createdAt: serverTimestamp() }]. *)
Definition transactionDoc (tx : NewTransaction.t) (t : Timestamp) : Tx.doc :=
  {| Tx.investorId := Has (NewTransaction.investorId tx);
     Tx.type := Has (NewTransaction.type tx);
     Tx.amount := Has (NewTransaction.amount tx);
     Tx.date := Has (NewTransaction.date tx);
     Tx.status := Has (NewTransaction.status tx);
     Tx.description := Has (NewTransaction.description tx);
     Tx.createdAt := Has t;
     Tx.updatedAt := Absent |}.

Definition addTransaction (transaction : NewTransaction.t) : M unit :=
  rethrowAs "Failed to record transaction"
    (addDoc transactionsC (transactionDoc transaction) ;; ret tt).

(** A property of an update object replaces the stored one when it is named. *)
Definition override {A} (new old : field A) : field A :=
  match new with
  | Absent => old
  | _ => new
  end.

(** [{ ...updates, updatedAt: serverTimestamp() }] merged into a transaction;
    [updates] names any of the transaction's properties. *)
Definition mergeTransaction (updates : Tx.doc) (t : Timestamp) (d : Tx.doc) : Tx.doc :=
  {| Tx.investorId := override (Tx.investorId updates) (Tx.investorId d);
     Tx.type := override (Tx.type updates) (Tx.type d);
     Tx.amount := override (Tx.amount updates) (Tx.amount d);
     Tx.date := override (Tx.date updates) (Tx.date d);
     Tx.status := override (Tx.status updates) (Tx.status d);
     Tx.description := override (Tx.description updates) (Tx.description d);
     Tx.createdAt := override (Tx.createdAt updates) (Tx.createdAt d);
     Tx.updatedAt := Has t |}.

Definition updateTransaction (id : string) (updates : Tx.doc) : M unit :=
  rethrowAs "Failed to update transaction"
    (updateDoc transactionsC id (mergeTransaction updates)).

Definition addCreditToInvestor (investorId : string) (amount : float)
    (adminId : string) : M unit :=
  rethrowAs "Failed to add credit"
    (let* investor := getInvestorById investorId in
     match investor with
     | None => throw (newError "Investor profile not found")
     | Some investor =>
         let newBalance := (Investor.currentBalance investor + amount)%float in
         updateInvestorBalance investorId newBalance ;;
         let* today := getToday in
         addTransaction
           {| NewTransaction.investorId := investorId;
              NewTransaction.type := "Credit";
              NewTransaction.amount := amount;
              NewTransaction.date := today;
              NewTransaction.status := "Completed";
              NewTransaction.description := "Credit added by admin " +:+ adminId |}
     end).

(** A row of [getTransactions]. *)
Module Transaction.
Record t := {
  id : string;
  investorId : field string;
  type : string;
  amount : float;
  date : string;
  status : string;
  description : string;
  createdAt : Z;
  updatedAt : field Timestamp
}.
End Transaction.

Definition processTransactionDoc (today : string) (now : Z)
    (d : string * Tx.doc) : Transaction.t :=
  let data := d.2 in
  {| Transaction.id := d.1;
     Transaction.investorId := Tx.investorId data;
     Transaction.updatedAt := Tx.updatedAt data;
     Transaction.createdAt := toDateOr (Tx.createdAt data) now;
     Transaction.type := orElse (Tx.type data) "Deposit";
     Transaction.amount := orElse (Tx.amount data) 0%float;
     Transaction.status := orElse (Tx.status data) "Completed";
     Transaction.date := orElse (Tx.date data) today;
     Transaction.description := orElse (Tx.description data) "" |}.

Definition processTransactionDocs (today : string) (now : Z)
    (querySnapshot : Snapshot Tx.doc) : list Transaction.t :=
  map (processTransactionDoc today now) querySnapshot.

(** [indexError.message?.includes('index') || indexError.code === 'failed-precondition']. *)
Definition isIndexError (e : Error) : bool :=
  includes "index" (message e) ||
  match code e with
  | Some c => String.eqb c "failed-precondition"
  | None => false
  end.

Definition getTransactions (getTime : DateParser) (investorId : option string)
    : M (list Transaction.t) :=
  rethrowAs "Failed to load transaction history"
    (let* today := getToday in
     let* now := getNow in
     match given investorId with
     | Some investorId =>
         tryCatch
           (let* querySnapshot :=
              getDocs transactionsC
                (λ s, orderByDesc Tx.date (whereEq Tx.investorId investorId s)) in
            ret (processTransactionDocs today now querySnapshot))
           (λ indexError,
              if isIndexError indexError then
                let* querySnapshot :=
                  getDocs transactionsC (whereEq Tx.investorId investorId) in
                ret (arraySort (byDateDesc getTime Transaction.date)
                       (processTransactionDocs today now querySnapshot))
              else throw indexError)
     | None =>
         tryCatch
           (let* querySnapshot := getDocs transactionsC (orderByDesc Tx.date) in
            ret (processTransactionDocs today now querySnapshot))
           (λ indexError,
              let* querySnapshot := getDocs transactionsC (λ s, s) in
              ret (arraySort (byDateDesc getTime Transaction.date)
                     (processTransactionDocs today now querySnapshot)))
     end).

(** ** FirestoreService: withdrawal requests and commissions *)

(** A row of [getWithdrawalRequests]. *)
Module WithdrawalRequest.
Record t := {
  id : string;
  investorId : field string;
  processedBy : field string;
  reason : field string;
  w8benRejectionReason : field string;
  updatedAt : field Timestamp;
  createdAt : Z;
  processedAt : option Z;
  approvalDate : option Z;
  w8benSubmittedAt : option Z;
  w8benApprovedAt : option Z;
  status : string;
  amount : float;
  date : string;
  investorName : string;
  w8benStatus : string
}.
End WithdrawalRequest.

Definition processWithdrawalDoc (today : string) (now : Z)
    (d : string * Wd.doc) : WithdrawalRequest.t :=
  let data := d.2 in
  {| WithdrawalRequest.id := d.1;
     WithdrawalRequest.investorId := Wd.investorId data;
     WithdrawalRequest.processedBy := Wd.processedBy data;
     WithdrawalRequest.reason := Wd.reason data;
     WithdrawalRequest.w8benRejectionReason := Wd.w8benRejectionReason data;
     WithdrawalRequest.updatedAt := Wd.updatedAt data;
     WithdrawalRequest.createdAt := toDateOr (Wd.createdAt data) now;
     WithdrawalRequest.processedAt := toDateOrNull (Wd.processedAt data);
     WithdrawalRequest.approvalDate := toDateOrNull (Wd.approvalDate data);
     WithdrawalRequest.w8benSubmittedAt := toDateOrNull (Wd.w8benSubmittedAt data);
     WithdrawalRequest.w8benApprovedAt := toDateOrNull (Wd.w8benApprovedAt data);
     WithdrawalRequest.status := orElse (Wd.status data) "Pending";
     WithdrawalRequest.amount := orElse (Wd.amount data) 0%float;
     WithdrawalRequest.date := orElse (Wd.date data) today;
     WithdrawalRequest.investorName := orElse (Wd.investorName data) "Unknown Investor";
     WithdrawalRequest.w8benStatus := orElse (Wd.w8benStatus data) "not_required" |}.

Definition processWithdrawalDocs (today : string) (now : Z)
    (querySnapshot : Snapshot Wd.doc) : list WithdrawalRequest.t :=
  map (processWithdrawalDoc today now) querySnapshot.

Definition getWithdrawalRequests (getTime : DateParser) (investorId : option string)
    : M (list WithdrawalRequest.t) :=
  rethrowAs "Failed to load withdrawal requests"
    (let* today := getToday in
     let* now := getNow in
     tryCatch
       (let* querySnapshot :=
          getDocs withdrawalRequestsC
            (match given investorId with
             | Some investorId =>
                 λ s, orderByDesc Wd.date (whereEq Wd.investorId investorId s)
             | None => orderByDesc Wd.date
             end) in
        ret (processWithdrawalDocs today now querySnapshot))
       (λ indexError,
          let* querySnapshot :=
            getDocs withdrawalRequestsC
              (match given investorId with
               | Some investorId => whereEq Wd.investorId investorId
               | None => λ s, s
               end) in
          ret (arraySort (byDateDesc getTime WithdrawalRequest.date)
                 (processWithdrawalDocs today now querySnapshot)))).

(** The [docData] literal of [addWithdrawalRequest]. *)
Definition withdrawalDocData (investorId investorName : string) (amount : float)
    (today : string) (t : Timestamp) : Wd.doc :=
  {| Wd.investorId := Has investorId;
     Wd.investorName := Has investorName;
     Wd.amount := Has amount;
     Wd.date := Has today;
     Wd.status := Has "Pending";
     Wd.approvalDate := Null;
     Wd.createdAt := Has t;
     Wd.processedBy := Absent; Wd.processedAt := Absent; Wd.reason := Absent;
     Wd.w8benStatus := Absent; Wd.w8benSubmittedAt := Absent;
     Wd.w8benApprovedAt := Absent; Wd.w8benRejectionReason := Absent;
     Wd.updatedAt := Absent |}.

Definition addWithdrawalRequest (investorId investorName : string) (amount : float)
    (withdrawalId : option string) : M unit :=
  rethrowAs "Failed to submit withdrawal request"
    (let* today := getToday in
     let docData := withdrawalDocData investorId investorName amount today in
     match given withdrawalId with
     | Some withdrawalId => setDoc withdrawalRequestsC withdrawalId docData
     | None => addDoc withdrawalRequestsC docData ;; ret tt
     end).

(** The commission literal built by [updateWithdrawalRequest]: three of its
    properties are read from the stored request, where a missing one is
    [undefined]. *)
Module NewCommission.
Record t := {
  investorId : field string;
  investorName : field string;
  withdrawalAmount : field float;
  commissionRate : float;
  commissionAmount : float;
  date : string;
  status : string;
  withdrawalId : string
}.
End NewCommission.

Definition hasUndefined (c : NewCommission.t) : bool :=
  negb (defined (NewCommission.investorId c) &&
        defined (NewCommission.investorName c) &&
        defined (NewCommission.withdrawalAmount c)).

(** [{ ...commission, createdAt: serverTimestamp() }]. *)
Definition commissionDoc (c : NewCommission.t) (t : Timestamp) : Com.doc :=
  {| Com.investorId := NewCommission.investorId c;
     Com.investorName := NewCommission.investorName c;
     Com.withdrawalId := Has (NewCommission.withdrawalId c);
     Com.withdrawalAmount := NewCommission.withdrawalAmount c;
     Com.commissionRate := Has (NewCommission.commissionRate c);
     Com.commissionAmount := Has (NewCommission.commissionAmount c);
     Com.date := Has (NewCommission.date c);
     Com.status := Has (NewCommission.status c);
     Com.createdAt := Has t |}.

Definition addCommission (commission : NewCommission.t) : M unit :=
  rethrowAs "Failed to record commission"
    (if hasUndefined commission then throw undefinedValue
     else addDoc commissionsC (commissionDoc commission) ;; ret tt).

(** [status === 'Approved']. *)
Definition isApproved (status : string) : bool := String.eqb status "Approved".

(** [updateData] merged into a withdrawal request. *)
Definition mergeProcessed (status processedBy : string) (reason : option string)
    (t : Timestamp) (d : Wd.doc) : Wd.doc :=
  {| Wd.investorId := Wd.investorId d;
     Wd.investorName := Wd.investorName d;
     Wd.amount := Wd.amount d;
     Wd.date := Wd.date d;
     Wd.status := Has status;
     Wd.approvalDate := if isApproved status then Has t else Wd.approvalDate d;
     Wd.processedBy := Has processedBy;
     Wd.processedAt := Has t;
     Wd.reason := orNull reason;
     Wd.w8benStatus := Wd.w8benStatus d;
     Wd.w8benSubmittedAt := Wd.w8benSubmittedAt d;
     Wd.w8benApprovedAt := Wd.w8benApprovedAt d;
     Wd.w8benRejectionReason := Wd.w8benRejectionReason d;
     Wd.createdAt := Wd.createdAt d;
     Wd.updatedAt := Has t |}.

(** The commission of one approved request. *)
Definition commissionOf (id : string) (requestData : Wd.doc) (today : string)
    : NewCommission.t :=
  {| NewCommission.investorId := Wd.investorId requestData;
     NewCommission.investorName := Wd.investorName requestData;
     NewCommission.withdrawalAmount := Wd.amount requestData;
     NewCommission.commissionRate := 15%float;
     NewCommission.commissionAmount := (toNumber (Wd.amount requestData) * 0.15)%float;
     NewCommission.date := today;
     NewCommission.status := "Earned";
     NewCommission.withdrawalId := id |}.

Definition updateWithdrawalRequest (id status processedBy : string)
    (reason : option string) : M unit :=
  rethrowAs "Failed to process withdrawal request"
    (updateDoc withdrawalRequestsC id (mergeProcessed status processedBy reason) ;;
     if isApproved status then
       let* requestDoc := getDoc withdrawalRequestsC id in
       match requestDoc with
       | Some requestData =>
           let* today := getToday in
           addCommission (commissionOf id requestData today)
       | None => ret tt
       end
     else ret tt).

(** The [status] argument of [updateW8BenStatus]: ['approved' | 'rejected']. *)
Inductive W8BenDecision := W8Approved | W8Rejected.

Definition w8benName (s : W8BenDecision) : string :=
  match s with
  | W8Approved => "approved"
  | W8Rejected => "rejected"
  end.

(** [reason || 'Form rejected by compliance team']. *)
Definition orDefault (x : option string) (d : string) : string :=
  match given x with
  | Some s => s
  | None => d
  end.

Definition mergeW8Ben (status : W8BenDecision) (reason : option string)
    (t : Timestamp) (d : Wd.doc) : Wd.doc :=
  {| Wd.investorId := Wd.investorId d;
     Wd.investorName := Wd.investorName d;
     Wd.amount := Wd.amount d;
     Wd.date := Wd.date d;
     Wd.status := Wd.status d;
     Wd.approvalDate := Wd.approvalDate d;
     Wd.processedBy := Wd.processedBy d;
     Wd.processedAt := Wd.processedAt d;
     Wd.reason := Wd.reason d;
     Wd.w8benStatus := Has (w8benName status);
     Wd.w8benSubmittedAt := Wd.w8benSubmittedAt d;
     Wd.w8benApprovedAt :=
       match status with
       | W8Approved => Has t
       | W8Rejected => Wd.w8benApprovedAt d
       end;
     Wd.w8benRejectionReason :=
       match status with
       | W8Approved => Wd.w8benRejectionReason d
       | W8Rejected => Has (orDefault reason "Form rejected by compliance team")
       end;
     Wd.createdAt := Wd.createdAt d;
     Wd.updatedAt := Has t |}.

Definition updateW8BenStatus (withdrawalId : string) (status : W8BenDecision)
    (processedBy : string) (reason : option string) : M unit :=
  rethrowAs "Failed to update W-8 BEN status"
    (updateDoc withdrawalRequestsC withdrawalId (mergeW8Ben status reason)).

(** [deleteDocument]: the collection is chosen by name; a name outside the
    collections of this model reaches the store all the same, and leaves the
    six collections as they are. *)
Definition deleteDocument (collectionName id : string) : M unit :=
  rethrowAs "Failed to delete record"
    (if String.eqb collectionName "users" then deleteDoc usersC id
     else if String.eqb collectionName "transactions" then deleteDoc transactionsC id
     else if String.eqb collectionName "withdrawalRequests"
       then deleteDoc withdrawalRequestsC id
     else if String.eqb collectionName "commissions" then deleteDoc commissionsC id
     else if String.eqb collectionName "conversations" then deleteDoc conversationsC id
     else if String.eqb collectionName "affiliateMessages"
       then deleteDoc affiliateMessagesC id
     else request (ret tt)).

(** ** MessageService *)

(** [userRole] and [senderRole]: ['admin' | 'affiliate']. *)
Inductive Role := admin | affiliate.

Definition roleName (r : Role) : string :=
  match r with
  | admin => "admin"
  | affiliate => "affiliate"
  end.

(** The conversation literal of [getOrCreateConversation]. *)
Definition conversationData (userId userName : string) (userRole : Role)
    (adminId adminName : string) (t : Timestamp) : Conv.doc :=
  {| Conv.participants :=
       Has (match userRole with
            | admin => [userId; adminId]
            | affiliate => [adminId; userId]
            end);
     Conv.participantNames :=
       Has (match userRole with
            | admin => [userName; adminName]
            | affiliate => [adminName; userName]
            end);
     Conv.participantRoles :=
       Has (match userRole with
            | admin => ["admin"; "admin"]
            | affiliate => ["admin"; "investor"]
            end);
     Conv.lastMessage := Has "";
     Conv.lastMessageTime := Has t;
     Conv.adminId := Has adminId;
     Conv.affiliateId := Has (match userRole with admin => userId | affiliate => userId end);
     Conv.createdAt := Has t;
     Conv.updatedAt := Has t |}.

(** The designated admin account: first match of the admin query, or the
    fallback identity. *)
Definition adminOf (adminSnapshot : Snapshot User.doc) : string * string :=
  match adminSnapshot with
  | adminDoc :: _ => (adminDoc.1, orElse (User.name adminDoc.2) "Cristian Dorao")
  | [] => ("admin_fallback", "Cristian Dorao")
  end.

Definition getOrCreateConversation (userId userName : string) (userRole : Role)
    : M string :=
  rethrowAs "Failed to create conversation"
    (let* conversationsSnapshot :=
       getDocs conversationsC (whereContains Conv.participants userId) in
     match conversationsSnapshot with
     | existingConversation :: _ => ret existingConversation.1
     | [] =>
         let* adminSnapshot :=
           getDocs usersC
             (λ s, whereEq User.email "crisdoraodxb@gmail.com"
                     (whereEq User.role "admin" s)) in
         let '(adminId, adminName) := adminOf adminSnapshot in
         addDoc conversationsC
           (conversationData userId userName userRole adminId adminName)
     end).

(** [{ lastMessage: lastMessage.substring(0, 100), lastMessageTime:
    serverTimestamp(), updatedAt: serverTimestamp() }] merged into a
    conversation. *)
Definition mergeLastMessage (lastMessage : string) (t : Timestamp) (d : Conv.doc)
    : Conv.doc :=
  {| Conv.participants := Conv.participants d;
     Conv.participantNames := Conv.participantNames d;
     Conv.participantRoles := Conv.participantRoles d;
     Conv.lastMessage := Has (substring0 100 lastMessage);
     Conv.lastMessageTime := Has t;
     Conv.adminId := Conv.adminId d;
     Conv.affiliateId := Conv.affiliateId d;
     Conv.createdAt := Conv.createdAt d;
     Conv.updatedAt := Has t |}.

(** The catch block only logs: a failed update is not reported. *)
Definition updateConversationLastMessage (conversationId lastMessage : string)
    : M unit :=
  tryCatch
    (updateDoc conversationsC conversationId (mergeLastMessage lastMessage))
    (λ _, ret tt).

(** [priority]: ['low' | 'medium' | 'high'], ['medium'] when not given. *)
Inductive Priority := low | medium | high.

Definition priorityName (p : Priority) : string :=
  match p with
  | low => "low"
  | medium => "medium"
  | high => "high"
  end.

Definition messageData (senderId senderName : string) (senderRole : Role)
    (content finalConversationId : string) (replyTo : option string)
    (priority : Priority) (t : Timestamp) : Msg.doc :=
  {| Msg.senderId := Has senderId;
     Msg.senderName := Has senderName;
     Msg.senderRole := Has (roleName senderRole);
     Msg.content := Has content;
     Msg.timestamp := Has t;
     Msg.conversationId := Has finalConversationId;
     Msg.replyTo := orNull replyTo;
     Msg.priority := Has (priorityName priority);
     Msg.status := Has "sent";
     Msg.createdAt := Has t |}.

Definition sendMessage (senderId senderName : string) (senderRole : Role)
    (content : string) (conversationId replyTo : option string)
    (priority : Priority) : M string :=
  rethrowAs "Failed to send message"
    (let* finalConversationId :=
       match given conversationId with
       | Some conversationId => ret conversationId
       | None => getOrCreateConversation senderId senderName senderRole
       end in
     let* docRef :=
       addDoc affiliateMessagesC
         (messageData senderId senderName senderRole content finalConversationId
            replyTo priority) in
     updateConversationLastMessage finalConversationId content ;;
     ret docRef).

(** ** Live subscriptions *)

(** [onSnapshot(source, onNext, onError)]: what a subscribe method registers.
    A handler is given by the arguments it calls [callback] with, in order;
    no handler throws. *)
Record Listener (Q S P : Type) := {
  source : Q;
  onNext : S → list P;
  onError : Error → list P
}.
Arguments source {Q S P} _.
Arguments onNext {Q S P} _ _.
Arguments onError {Q S P} _ _.

Definition subscribeToInvestors (today : string) (now : Z)
    : Listener (Snapshot User.doc → Snapshot User.doc) (Snapshot User.doc)
        (list Investor.t) :=
  {| source := whereEq User.role "investor";
     onNext := λ querySnapshot,
       [processUserDocsAsInvestors today now querySnapshot];
     onError := λ error, [] |}.

(** The investor literal of the single-investor listener. *)
Definition investorLive (today : string) (now : Z) (id : string)
    (data : User.doc) : Investor.t :=
  {| Investor.id := id;
     Investor.name := orElse (User.name data) "Unknown Investor";
     Investor.email := orElse (User.email data) "";
     Investor.phone := orElse (User.phone data) "";
     Investor.country := orElse (User.country data) "Unknown";
     Investor.location := orElse (User.location data) "";
     Investor.joinDate := orElse (User.joinDate data) today;
     Investor.initialDeposit := orElse (User.initialDeposit data) 0%float;
     Investor.currentBalance := orElse (User.currentBalance data) 0%float;
     Investor.role := "investor";
     Investor.isActive := notFalse (User.isActive data);
     Investor.accountType := Some (orElse (User.accountType data) "Standard");
     Investor.accountStatus := orElse (User.accountStatus data) "Active";
     Investor.accountFlags := flagsOf true data;
     Investor.tradingData := tradingOf data;
     Investor.bankDetails := orObject (User.bankDetails data) [];
     Investor.verification := orObject (User.verification data) [];
     Investor.bankAccounts := Some (orObject (User.bankAccounts data) []);
     Investor.createdAt := toDateOr (User.createdAt data) now;
     Investor.updatedAt := toDateOr (User.updatedAt data) now |}.

(** Listens to one document: the snapshot is [Some data] when it [exists()]. *)
Definition subscribeToInvestor (today : string) (now : Z) (id : string)
    : Listener string (option User.doc) (option Investor.t) :=
  {| source := id;
     onNext := λ docSnapshot,
       match docSnapshot with
       | Some data =>
           if roleIs "investor" data
           then [Some (investorLive today now id data)]
           else [None]
       | None => [None]
       end;
     onError := λ error, [None] |}.

Definition subscribeToWithdrawalRequests (getTime : DateParser) (today : string)
    (now : Z) (investorId : option string)
    : Listener (Snapshot Wd.doc → Snapshot Wd.doc) (Snapshot Wd.doc)
        (list WithdrawalRequest.t) :=
  {| source := match given investorId with
               | Some investorId => whereEq Wd.investorId investorId
               | None => λ s, s
               end;
     onNext := λ querySnapshot,
       [arraySort (byDateDesc getTime WithdrawalRequest.date)
          (processWithdrawalDocs today now querySnapshot)];
     onError := λ error, [[]] |}.

Definition subscribeToTransactions (getTime : DateParser) (today : string)
    (now : Z) (investorId : option string)
    : Listener (Snapshot Tx.doc → Snapshot Tx.doc) (Snapshot Tx.doc)
        (list Transaction.t) :=
  {| source := match given investorId with
               | Some investorId => whereEq Tx.investorId investorId
               | None => λ s, s
               end;
     onNext := λ querySnapshot,
       [arraySort (byDateDesc getTime Transaction.date)
          (processTransactionDocs today now querySnapshot)];
     onError := λ error, [[]] |}.

(** A row of the message listener: [{ id, ...data, timestamp, createdAt }]. *)
Module AffiliateMessage.
Record t := {
  id : string;
  data : Msg.doc;
  timestamp : Z;
  createdAt : Z
}.
End AffiliateMessage.

(** A row of the conversation listener. *)
Module Conversation.
Record t := {
  id : string;
  data : Conv.doc;
  lastMessageTime : Z;
  createdAt : Z;
  updatedAt : Z
}.
End Conversation.

(** [orderBy(key, 'asc')] on a timestamp property: documents that have the
    property, by ascending value and then ascending id. *)
Definition compareTime (a b : field Timestamp) : Z :=
  match a, b with
  | Has x, Has y => (x - y)%Z
  | Has _, _ => 1%Z
  | _, Has _ => (-1)%Z
  | _, _ => 0%Z
  end.

Definition orderByTime {D} (desc : bool) (key : D → field Timestamp)
    (s : Snapshot D) : Snapshot D :=
  arraySort
    (λ a b, let '(a, b) := if desc then (b, a) else (a, b) in
            let c := compareTime (key a.2) (key b.2) in
            if (c =? 0)%Z then compareString a.1 b.1 else c)
    (List.filter (λ p, inIndex (key p.2)) s).

Definition subscribeToMessages (now : Z) (conversationId : string)
    : Listener (Snapshot Msg.doc → Snapshot Msg.doc) (Snapshot Msg.doc)
        (list AffiliateMessage.t) :=
  {| source := λ s, orderByTime false Msg.timestamp
                      (whereEq Msg.conversationId conversationId s);
     onNext := λ querySnapshot,
       [map (λ d, {| AffiliateMessage.id := d.1;
                     AffiliateMessage.data := d.2;
                     AffiliateMessage.timestamp := toDateOr (Msg.timestamp d.2) now;
                     AffiliateMessage.createdAt := toDateOr (Msg.createdAt d.2) now |})
          querySnapshot];
     onError := λ error, [[]] |}.

Definition subscribeToConversations (now : Z) (userId : string)
    : Listener (Snapshot Conv.doc → Snapshot Conv.doc) (Snapshot Conv.doc)
        (list Conversation.t) :=
  {| source := λ s, orderByTime true Conv.lastMessageTime
                      (whereContains Conv.participants userId s);
     onNext := λ querySnapshot,
       [map (λ d, {| Conversation.id := d.1;
                     Conversation.data := d.2;
                     Conversation.lastMessageTime :=
                       toDateOr (Conv.lastMessageTime d.2) now;
                     Conversation.createdAt := toDateOr (Conv.createdAt d.2) now;
                     Conversation.updatedAt := toDateOr (Conv.updatedAt d.2) now |})
          querySnapshot];
     onError := λ error, [[]] |}.

(** ** A date parser: the ECMAScript date-only form [YYYY-MM-DD] *)

Definition digit (c : ascii) : option Z :=
  let n := Z.of_nat (nat_of_ascii c) in
  if ((48 <=? n) && (n <=? 57))%Z then Some (n - 48)%Z else None.

Definition isLeap (y : Z) : bool :=
  ((y mod 4 =? 0) && negb (y mod 100 =? 0) || (y mod 400 =? 0))%Z.

Definition daysInMonth (y m : Z) : Z :=
  if (m =? 2)%Z then (if isLeap y then 29 else 28)%Z
  else if ((m =? 4) || (m =? 6) || (m =? 9) || (m =? 11))%Z then 30%Z
  else 31%Z.

(** Days from 1970-01-01 to the given day of the proleptic Gregorian
    calendar. *)
Definition daysFromCivil (y m d : Z) : Z :=
  let y' := (if (m <=? 2)%Z then y - 1 else y)%Z in
  let era := (y' / 400)%Z in
  let yoe := (y' - era * 400)%Z in
  let mp := ((m + 9) mod 12)%Z in
  let doy := ((153 * mp + 2) / 5 + d - 1)%Z in
  let doe := (yoe * 365 + yoe / 4 - yoe / 100 + doy)%Z in
  (era * 146097 + doe - 719468)%Z.

Definition msPerDay : Z := 86400000%Z.

(** [new Date(s).getTime()] for a date-only string, which every host reads
    as midnight UTC of that day; any other string is taken as an invalid
    date here. *)
Definition isoGetTime : DateParser :=
  λ s, match s with
       | String y1 (String y2 (String y3 (String y4 (String c1
           (String m1 (String m2 (String c2 (String d1 (String d2 EmptyString))))))))) =>
           match digit y1, digit y2, digit y3, digit y4,
                 digit m1, digit m2, digit d1, digit d2 with
           | Some a, Some b, Some c, Some d, Some e, Some f, Some g, Some h =>
               let y := (a * 1000 + b * 100 + c * 10 + d)%Z in
               let m := (e * 10 + f)%Z in
               let dd := (g * 10 + h)%Z in
               if (Ascii.eqb c1 "-" && Ascii.eqb c2 "-" &&
                   (1 <=? m) && (m <=? 12) && (1 <=? dd) && (dd <=? daysInMonth y m))%Z
               then Some (daysFromCivil y m dd * msPerDay)%Z
               else None
           | _, _, _, _, _, _, _, _ => None
           end
       | _ => None
       end.

(** A day of the calendar, in the years the four digits can write. *)
Definition validDate (y m d : Z) : Prop :=
  (0 ≤ y ≤ 9999 ∧ 1 ≤ m ≤ 12 ∧ 1 ≤ d ≤ daysInMonth y m)%Z.

(** The first day is earlier than the second. *)
Definition before (y1 m1 d1 y2 m2 d2 : Z) : Prop :=
  (y1 < y2 ∨ (y1 = y2 ∧ (m1 < m2 ∨ (m1 = m2 ∧ d1 < d2))))%Z.

(** ** FirestoreService: the directory of investors *)

Definition getInvestors : M (list Investor.t) :=
  rethrowAs "Database connection failed"
    (let* usersSnapshot := getDocs usersC (whereEq User.role "investor") in
     let* today := getToday in
     let* now := getNow in
     match usersSnapshot with
     | [] => ret []
     | _ => ret (processUserDocsAsInvestors today now usersSnapshot)
     end).

(** The default [tradingData] of [createInvestor]. *)
Definition defaultTrading : User.Trading :=
  {| User.positionsPerDay := Has 0%float;
     User.pairs := Has [];
     User.platform := Has "IBKR";
     User.leverage := Has 100%float;
     User.currency := Has "USD" |}.

(** The [investorData] literal of [createInvestor]: [data] spread, then the
    properties the method sets. [data] names any of the properties of a user
    document. *)
Definition investorData (data : User.doc) (t : Timestamp) : User.doc :=
  {| User.name := User.name data;
     User.location := User.location data;
     User.joinDate := User.joinDate data;
     User.initialDeposit := User.initialDeposit data;
     User.currentBalance := User.currentBalance data;
     User.bankAccounts := User.bankAccounts data;
     User.role := Has "investor";
     User.accountType := Has (orElse (User.accountType data) "Standard");
     User.isActive := Has true;
     User.accountStatus := Has (orElse (User.accountStatus data) "Active");
     User.email := Has (orElse (User.email data) "");
     User.phone := Has (orElse (User.phone data) "");
     User.country := Has (orElse (User.country data) "Unknown");
     User.tradingData := Has (orObject (User.tradingData data) defaultTrading);
     User.bankDetails := Has (orObject (User.bankDetails data) []);
     User.verification := Has (orObject (User.verification data) []);
     User.accountFlags := Has (orObject (User.accountFlags data) noFlags);
     User.createdAt := Has t;
     User.updatedAt := Has t |}.

Definition createInvestor (id : string) (data : User.doc) : M unit :=
  rethrowAs "Failed to create investor profile"
    (setDoc usersC id (investorData data)).

(** [{ ...data, updatedAt: serverTimestamp() }] merged into a user document;
    [data] names any of the properties of an investor. *)
Definition mergeInvestor (data : User.doc) (t : Timestamp) (d : User.doc) : User.doc :=
  {| User.name := override (User.name data) (User.name d);
     User.email := override (User.email data) (User.email d);
     User.phone := override (User.phone data) (User.phone d);
     User.country := override (User.country data) (User.country d);
     User.location := override (User.location data) (User.location d);
     User.joinDate := override (User.joinDate data) (User.joinDate d);
     User.initialDeposit := override (User.initialDeposit data) (User.initialDeposit d);
     User.currentBalance := override (User.currentBalance data) (User.currentBalance d);
     User.role := override (User.role data) (User.role d);
     User.isActive := override (User.isActive data) (User.isActive d);
     User.accountType := override (User.accountType data) (User.accountType d);
     User.accountStatus := override (User.accountStatus data) (User.accountStatus d);
     User.accountFlags := override (User.accountFlags data) (User.accountFlags d);
     User.tradingData := override (User.tradingData data) (User.tradingData d);
     User.bankDetails := override (User.bankDetails data) (User.bankDetails d);
     User.verification := override (User.verification data) (User.verification d);
     User.bankAccounts := override (User.bankAccounts data) (User.bankAccounts d);
     User.createdAt := override (User.createdAt data) (User.createdAt d);
     User.updatedAt := Has t |}.

Definition updateInvestor (id : string) (data : User.doc) : M unit :=
  rethrowAs "Failed to update investor profile"
    (updateDoc usersC id (mergeInvestor data)).

(** [toLowerCase] is the host's: the search is given for any such function. *)
Definition searchInvestors (toLowerCase : string → string) (searchTerm : string)
    : M (list Investor.t) :=
  rethrowAs "Search failed"
    (let* investors := getInvestors in
     ret (List.filter
            (λ investor,
               includes (toLowerCase searchTerm) (toLowerCase (Investor.name investor)) ||
               includes (toLowerCase searchTerm) (toLowerCase (Investor.email investor)) ||
               includes (toLowerCase searchTerm) (toLowerCase (Investor.country investor)))
            investors)).

Definition getInvestorsByStatus (status : string) : M (list Investor.t) :=
  rethrowAs "Failed to filter by status"
    (let* querySnapshot :=
       getDocs usersC
         (λ s, whereEq User.accountStatus status (whereEq User.role "investor" s)) in
     let* today := getToday in
     let* now := getNow in
     ret (processUserDocsAsInvestors today now querySnapshot)).

(** [investors.reduce((total, investor) => total + investor.currentBalance, 0)]. *)
Definition getTotalInvestorBalance : M float :=
  rethrowAs "Failed to calculate total balance"
    (let* investors := getInvestors in
     ret (fold_left (λ total investor, (total + Investor.currentBalance investor)%float)
            investors 0%float)).

(** A row of [verifyUserByEmail]: [{ id, ...data, createdAt, updatedAt }]. *)
Module UserRecord.
Record t := {
  id : string;
  data : User.doc;
  createdAt : Z;
  updatedAt : Z
}.
End UserRecord.

Definition verifyUserByEmail (email : string) : M (option UserRecord.t) :=
  rethrowAs "Failed to verify user"
    (let* querySnapshot := getDocs usersC (whereEq User.email email) in
     let* now := getNow in
     match querySnapshot with
     | doc :: _ =>
         ret (Some {| UserRecord.id := doc.1;
                      UserRecord.data := doc.2;
                      UserRecord.createdAt := toDateOr (User.createdAt doc.2) now;
                      UserRecord.updatedAt := toDateOr (User.updatedAt doc.2) now |})
     | [] => ret None
     end).

(** ** FirestoreService: recent transactions, commissions, counts *)

(** [limit(n)]: the client refuses a count that is not positive, before any
    request is made. *)
Definition invalidLimit : Error :=
  {| code := Some "invalid-argument";
     message := "Function limit() requires a positive number." |}.

(** [array.slice(0, n)]: the first [n] elements, or all but the last [-n]
    when [n] is negative. *)
Definition slice0 {A} (n : Z) (l : list A) : list A :=
  if (0 <=? n)%Z then take (Z.to_nat n) l
  else take (length l - Z.to_nat (- n)) l.

(** [limitCount] is 10 when not given. *)
Definition getRecentTransactions (getTime : DateParser) (limitCount : option Z)
    : M (list Transaction.t) :=
  let limitCount := default 10%Z limitCount in
  rethrowAs "Failed to load recent transactions"
    (let* today := getToday in
     let* now := getNow in
     tryCatch
       (if (0 <? limitCount)%Z then
          let* querySnapshot :=
            getDocs transactionsC
              (λ s, take (Z.to_nat limitCount) (orderByDesc Tx.date s)) in
          ret (processTransactionDocs today now querySnapshot)
        else throw invalidLimit)
       (λ indexError,
          let* querySnapshot := getDocs transactionsC (λ s, s) in
          let transactions :=
            arraySort (byDateDesc getTime Transaction.date)
              (processTransactionDocs today now querySnapshot) in
          ret (slice0 limitCount transactions))).

(** A row of [getCommissions]. *)
Module Commission.
Record t := {
  id : string;
  investorId : field string;
  withdrawalId : field string;
  withdrawalAmount : field float;
  date : field string;
  createdAt : Z;
  commissionAmount : float;
  commissionRate : float;
  status : string;
  investorName : string
}.
End Commission.

Definition processCommissionDoc (now : Z) (d : string * Com.doc) : Commission.t :=
  let data := d.2 in
  {| Commission.id := d.1;
     Commission.investorId := Com.investorId data;
     Commission.withdrawalId := Com.withdrawalId data;
     Commission.withdrawalAmount := Com.withdrawalAmount data;
     Commission.date := Com.date data;
     Commission.createdAt := toDateOr (Com.createdAt data) now;
     Commission.commissionAmount := orElse (Com.commissionAmount data) 0%float;
     Commission.commissionRate := orElse (Com.commissionRate data) 15%float;
     Commission.status := orElse (Com.status data) "Earned";
     Commission.investorName := orElse (Com.investorName data) "Unknown Investor" |}.

Definition processCommissionDocs (now : Z) (querySnapshot : Snapshot Com.doc)
    : list Commission.t :=
  map (processCommissionDoc now) querySnapshot.

(** [new Date(x).getTime()] for a property that may be missing:
    [new Date(undefined)] is an invalid date, [new Date(null)] the epoch. *)
Definition getTimeOf (getTime : DateParser) (x : field string) : option Z :=
  match x with
  | Absent => None
  | Null => Some 0%Z
  | Has s => getTime s
  end.

(** The comparator of the commission sort; a commission row keeps its date
    as stored. *)
Definition byStoredDateDesc (getTime : DateParser) (a b : Commission.t) : Z :=
  match getTimeOf getTime (Commission.date b), getTimeOf getTime (Commission.date a) with
  | Some tb, Some ta => (tb - ta)%Z
  | _, _ => 0%Z
  end.

Definition getCommissions (getTime : DateParser) : M (list Commission.t) :=
  rethrowAs "Failed to load commission data"
    (let* now := getNow in
     tryCatch
       (let* querySnapshot := getDocs commissionsC (orderByDesc Com.date) in
        ret (processCommissionDocs now querySnapshot))
       (λ indexError,
          let* querySnapshot := getDocs commissionsC (λ s, s) in
          ret (arraySort (byStoredDateDesc getTime)
                 (processCommissionDocs now querySnapshot)))).

(** [querySnapshot.size] of a whole collection. *)
Definition countDocs {D} (c : Collection D) : M nat :=
  let* querySnapshot := getDocs c (λ s, s) in
  ret (length querySnapshot).

(** [getDocumentCount]: the collection is chosen by name; [others] is the
    size of each collection that this model does not hold. *)
Definition getDocumentCount (others : string → nat) (collectionName : string)
    : M nat :=
  rethrowAs "Failed to count records"
    (if String.eqb collectionName "users" then countDocs usersC
     else if String.eqb collectionName "transactions" then countDocs transactionsC
     else if String.eqb collectionName "withdrawalRequests"
       then countDocs withdrawalRequestsC
     else if String.eqb collectionName "commissions" then countDocs commissionsC
     else if String.eqb collectionName "conversations" then countDocs conversationsC
     else if String.eqb collectionName "affiliateMessages"
       then countDocs affiliateMessagesC
     else request (ret (others collectionName))).

(** ** MessageService: the one-shot reads *)

Definition messageRow (now : Z) (d : string * Msg.doc) : AffiliateMessage.t :=
  {| AffiliateMessage.id := d.1;
     AffiliateMessage.data := d.2;
     AffiliateMessage.timestamp := toDateOr (Msg.timestamp d.2) now;
     AffiliateMessage.createdAt := toDateOr (Msg.createdAt d.2) now |}.

Definition getMessages (conversationId : string) : M (list AffiliateMessage.t) :=
  rethrowAs "Failed to load messages"
    (let* messagesSnapshot :=
       getDocs affiliateMessagesC
         (λ s, orderByTime false Msg.timestamp
                 (whereEq Msg.conversationId conversationId s)) in
     let* now := getNow in
     ret (map (messageRow now) messagesSnapshot)).

Definition conversationRow (now : Z) (d : string * Conv.doc) : Conversation.t :=
  {| Conversation.id := d.1;
     Conversation.data := d.2;
     Conversation.lastMessageTime := toDateOr (Conv.lastMessageTime d.2) now;
     Conversation.createdAt := toDateOr (Conv.createdAt d.2) now;
     Conversation.updatedAt := toDateOr (Conv.updatedAt d.2) now |}.

Definition getConversations (userId : string) : M (list Conversation.t) :=
  rethrowAs "Failed to load conversations"
    (let* conversationsSnapshot :=
       getDocs conversationsC
         (λ s, orderByTime true Conv.lastMessageTime
                 (whereContains Conv.participants userId s)) in
     let* now := getNow in
     ret (map (conversationRow now) conversationsSnapshot)).

(** ** The messages page (src/unnamed/part_002) *)

Module MessagesPage.
(** The signed-in user, as the page reads it. *)
Record User := {
  id : string;
  name : string;
  role : string
}.
(** The state of the component. *)
Record State := {
  selectedConversationId : option string;
  showNewMessageForm : bool;
  newMessageContent : string;
  isLoading : bool
}.
End MessagesPage.

(** [user.role === 'admin' ? 'admin' : 'affiliate']. *)
Definition pageRole (user : MessagesPage.User) : Role :=
  if String.eqb (MessagesPage.role user) "admin" then admin else affiliate.

(** The state of the page once the handler has run. *)
Definition handleNewConversation (user : option MessagesPage.User)
    (s : MessagesPage.State) : M MessagesPage.State :=
  match user with
  | None => ret s
  | Some user =>
      tryCatch
        (let* conversationId :=
           getOrCreateConversation (MessagesPage.id user) (MessagesPage.name user)
             (pageRole user) in
         ret {| MessagesPage.selectedConversationId := Some conversationId;
                MessagesPage.showNewMessageForm := false;
                MessagesPage.newMessageContent := MessagesPage.newMessageContent s;
                MessagesPage.isLoading := MessagesPage.isLoading s |})
        (λ error, ret s)
  end.

(** [trim] is the host's. *)
Definition handleSendNewMessage (trim : string → string)
    (user : option MessagesPage.User) (s : MessagesPage.State)
    : M MessagesPage.State :=
  match user with
  | Some user =>
      if truthy (trim (MessagesPage.newMessageContent s)) then
        tryCatch
          (let* conversationId :=
             sendMessage (MessagesPage.id user) (MessagesPage.name user)
               (pageRole user) (trim (MessagesPage.newMessageContent s))
               None None medium in
           ret {| MessagesPage.selectedConversationId := Some conversationId;
                  MessagesPage.showNewMessageForm := false;
                  MessagesPage.newMessageContent := "";
                  MessagesPage.isLoading := false |})
          (λ error,
             ret {| MessagesPage.selectedConversationId :=
                      MessagesPage.selectedConversationId s;
                    MessagesPage.showNewMessageForm := MessagesPage.showNewMessageForm s;
                    MessagesPage.newMessageContent := MessagesPage.newMessageContent s;
                    MessagesPage.isLoading := false |})
      else ret s
  | None => ret s
  end.

(** * Vocabulary of the properties *)

(** The commissions recorded for one withdrawal request. *)
Definition commissionsFor (id : string) (w : World) : Snapshot Com.doc :=
  whereEq Com.withdrawalId id (listing (commissions (store w))).

(** The requests a call of [getWithdrawalRequests] asks for. *)
Definition wanted (investorId : option string) (d : Wd.doc) : Prop :=
  ∀ inv, given investorId = Some inv → Wd.investorId d = Has inv.

(** The id under which [addWithdrawalRequest] writes: the one given, or the
    one [addDoc] picks. *)
Definition submittedId (withdrawalId : option string) (w : World) : string :=
  match given withdrawalId with
  | Some id => id
  | None => fresh (dom (withdrawalRequests (store w)))
  end.

(** What the listener of withdrawal requests delivers for the store of [w]. *)
Definition liveWithdrawalRequests (getTime : DateParser) (investorId : option string)
    (w : World) : list (list WithdrawalRequest.t) :=
  let l := subscribeToWithdrawalRequests getTime (today w) (clientNow w) investorId in
  onNext l (source l (listing (withdrawalRequests (store w)))).

(** The balance [getInvestorById] reports for a stored user document. *)
Definition balanceOf (data : User.doc) : float :=
  orElse (User.currentBalance data) 0%float.

(** [a === b] on numbers. *)
Definition strictEq (a b : float) : bool := (a =? b)%float.

(** The store serves the next [n] requests. *)
Definition serves (n : nat) (w : World) : bool :=
  forallb (λ a, match a with Some _ => false | None => true end)
    (take n (script w)).

(** The operations of the two services that reach the store. *)
Inductive Operation :=
| GetInvestorById (id : string)
| UpdateInvestorBalance (id : string) (newBalance : float)
| DeleteInvestor (id reason adminId : string)
| AddCreditToInvestor (investorId : string) (amount : float) (adminId : string)
| GetTransactions (getTime : DateParser) (investorId : option string)
| AddTransaction (transaction : NewTransaction.t)
| UpdateTransaction (id : string) (updates : Tx.doc)
| GetWithdrawalRequests (getTime : DateParser) (investorId : option string)
| AddWithdrawalRequest (investorId investorName : string) (amount : float)
    (withdrawalId : option string)
| UpdateWithdrawalRequest (id status processedBy : string) (reason : option string)
| UpdateW8BenStatus (withdrawalId : string) (status : W8BenDecision)
    (processedBy : string) (reason : option string)
| AddCommission (commission : NewCommission.t)
| DeleteDocument (collectionName id : string)
| SendMessage (senderId senderName : string) (senderRole : Role) (content : string)
    (conversationId replyTo : option string) (priority : Priority)
| GetOrCreateConversation (userId userName : string) (userRole : Role)
| UpdateConversationLastMessage (conversationId lastMessage : string).

(** The world an operation leaves behind, whether it returns or throws. *)
Definition perform (op : Operation) (w : World) : World :=
  match op with
  | GetInvestorById id => (getInvestorById id w).2
  | UpdateInvestorBalance id b => (updateInvestorBalance id b w).2
  | DeleteInvestor id reason adminId => (deleteInvestor id reason adminId w).2
  | AddCreditToInvestor i a adm => (addCreditToInvestor i a adm w).2
  | GetTransactions g i => (getTransactions g i w).2
  | AddTransaction tx => (addTransaction tx w).2
  | UpdateTransaction id u => (updateTransaction id u w).2
  | GetWithdrawalRequests g i => (getWithdrawalRequests g i w).2
  | AddWithdrawalRequest i n a wid => (addWithdrawalRequest i n a wid w).2
  | UpdateWithdrawalRequest id s p r => (updateWithdrawalRequest id s p r w).2
  | UpdateW8BenStatus id s p r => (updateW8BenStatus id s p r w).2
  | AddCommission c => (addCommission c w).2
  | DeleteDocument c id => (deleteDocument c id w).2
  | SendMessage i n r c cid rt p => (sendMessage i n r c cid rt p w).2
  | GetOrCreateConversation i n r => (getOrCreateConversation i n r w).2
  | UpdateConversationLastMessage cid m => (updateConversationLastMessage cid m w).2
  end.

(** The two operations that address a transaction document by its id. *)
Definition rewritesTransactions (op : Operation) : bool :=
  match op with
  | UpdateTransaction _ _ => true
  | DeleteDocument collectionName _ => String.eqb collectionName "transactions"
  | _ => false
  end.

(** Every transaction document of [w] is in [w'], unchanged. *)
Definition keepsTransactions (w w' : World) : Prop :=
  ∀ id d, transactions (store w) !! id = Some d →
          transactions (store w') !! id = Some d.

(** The conversations a user takes part in, as the directory query
    returns them. *)
Definition conversationsOf (userId : string) (w : World) : Snapshot Conv.doc :=
  whereContains Conv.participants userId (listing (conversations (store w))).

(** [participants] contains the user. *)
Definition takesPart (userId : string) (d : Conv.doc) : bool :=
  match Conv.participants d with
  | Has l => existsb (String.eqb userId) l
  | _ => false
  end.

(** A conversation of the pair [a], [b]: its participants are the two, in
    either order. *)
Definition between (a b : string) (d : Conv.doc) : bool :=
  match Conv.participants d with
  | Has [x; y] =>
      (x =? a)%string && (y =? b)%string || (x =? b)%string && (y =? a)%string
  | _ => false
  end.

Definition conversationsBetween (a b : string) (w : World) : Snapshot Conv.doc :=
  List.filter (λ p, between a b p.2) (listing (conversations (store w))).

(** The invariants of the data model: a conversation has exactly two
    participants, and there is at most one conversation per pair. *)
Definition twoParty (w : World) : Prop :=
  ∀ i d, conversations (store w) !! i = Some d → ∃ a b, between a b d = true.

Definition onePerPair (w : World) : Prop :=
  ∀ a b, length (conversationsBetween a b w) ≤ 1.

(** The account conversations are opened with: the user document with role
    admin and the office address that has the least id, and the fallback
    identity when there is no such document. *)
Definition adminAccount (u : User.doc) : Prop :=
  User.role u = Has "admin" ∧ User.email u = Has "crisdoraodxb@gmail.com".

Definition designatedAdmin (w : World) (adminId : string) : Prop :=
  (adminId = "admin_fallback" ∧
   ∀ i u, users (store w) !! i = Some u → ¬ adminAccount u) ∨
  (∃ u, users (store w) !! adminId = Some u ∧ adminAccount u ∧
        ∀ i u', users (store w) !! i = Some u' → adminAccount u' →
                (compareString adminId i ≤ 0)%Z).

(** The first two steps of [sendMessage]: the conversation is resolved and
    the message stored. It returns the id of the conversation and the id
    of the message. *)
Definition storeMessage (senderId senderName : string) (senderRole : Role)
    (content : string) (conversationId replyTo : option string)
    (priority : Priority) : M (string * string) :=
  let* finalConversationId :=
    match given conversationId with
    | Some conversationId => ret conversationId
    | None => getOrCreateConversation senderId senderName senderRole
    end in
  let* docRef :=
    addDoc affiliateMessagesC
      (messageData senderId senderName senderRole content finalConversationId
         replyTo priority) in
  ret (finalConversationId, docRef).

(** The documents a call of [getTransactions] asks for. *)
Definition matching (investorId : option string) (w : World) : Snapshot Tx.doc :=
  match given investorId with
  | Some inv => whereEq Tx.investorId inv (listing (transactions (store w)))
  | None => listing (transactions (store w))
  end.

(** The date a transaction document holds, when it holds a non-empty one. *)
Definition storedDate (d : Tx.doc) : option string :=
  match Tx.date d with
  | Has s => if truthy s then Some s else None
  | _ => None
  end.

(** The dates of the documents of a snapshot. *)
Definition storedDates (s : Snapshot Tx.doc) : list string :=
  omap (λ p, storedDate p.2) s.

(** Both dates parse, and their order as strings is their order in time. *)
Definition timeOrdered (getTime : DateParser) (s1 s2 : string) : Prop :=
  ∃ t1 t2, getTime s1 = Some t1 ∧ getTime s2 = Some t2 ∧
           (String.ltb s1 s2 = true ↔ (t1 < t2)%Z).

(** A checkable form of [timeOrdered]. *)
Definition timeOrderedb (getTime : DateParser) (s1 s2 : string) : bool :=
  match getTime s1, getTime s2 with
  | Some t1, Some t2 => Bool.eqb (String.ltb s1 s2) (t1 <? t2)%Z
  | _, _ => false
  end.

(** The rows of a read, by id and date. *)
Definition shownTransactions (getTime : DateParser) (investorId : option string)
    (w : World) : list (string * string) :=
  match (getTransactions getTime investorId w).1 with
  | Ok rows => map (λ r, (Transaction.id r, Transaction.date r)) rows
  | Throw _ => []
  end.

(** The one-shot reads of the two services. *)
Inductive Query :=
| GetInvestors
| GetInvestor (id : string)
| GetInvestorsByStatus (status : string)
| SearchInvestors (toLowerCase : string → string) (searchTerm : string)
| GetTotalInvestorBalance
| VerifyUserByEmail (email : string)
| GetAllTransactions (getTime : DateParser) (investorId : option string)
| GetRecentTransactions (getTime : DateParser) (limitCount : option Z)
| GetAllWithdrawalRequests (getTime : DateParser) (investorId : option string)
| GetCommissions (getTime : DateParser)
| GetDocumentCount (others : string → nat) (collectionName : string)
| GetMessages (conversationId : string)
| GetConversations (userId : string).

(** The world a read leaves behind, whether it returns or throws. *)
Definition ask (q : Query) (w : World) : World :=
  match q with
  | GetInvestors => (getInvestors w).2
  | GetInvestor id => (getInvestorById id w).2
  | GetInvestorsByStatus status => (getInvestorsByStatus status w).2
  | SearchInvestors toLowerCase searchTerm => (searchInvestors toLowerCase searchTerm w).2
  | GetTotalInvestorBalance => (getTotalInvestorBalance w).2
  | VerifyUserByEmail email => (verifyUserByEmail email w).2
  | GetAllTransactions getTime investorId => (getTransactions getTime investorId w).2
  | GetRecentTransactions getTime limitCount => (getRecentTransactions getTime limitCount w).2
  | GetAllWithdrawalRequests getTime investorId =>
      (getWithdrawalRequests getTime investorId w).2
  | GetCommissions getTime => (getCommissions getTime w).2
  | GetDocumentCount others collectionName =>
      (getDocumentCount others collectionName w).2
  | GetMessages conversationId => (getMessages conversationId w).2
  | GetConversations userId => (getConversations userId w).2
  end.

(** A call that throws and leaves the store as it was. *)
Definition refused {A} (w : World) (r : result A * World) : Prop :=
  (∃ e, r.1 = Throw e) ∧ store r.2 = store w.

(** The update [{ currentBalance: b }]. *)
Definition balanceUpdate (b : float) : User.doc :=
  {| User.name := Absent; User.email := Absent; User.phone := Absent;
     User.country := Absent; User.location := Absent; User.joinDate := Absent;
     User.initialDeposit := Absent; User.currentBalance := Has b;
     User.role := Absent; User.isActive := Absent; User.accountType := Absent;
     User.accountStatus := Absent; User.accountFlags := Absent;
     User.tradingData := Absent; User.bankDetails := Absent;
     User.verification := Absent; User.bankAccounts := Absent;
     User.createdAt := Absent; User.updatedAt := Absent |}.

(** Two calls end alike: in the same world, both returning, or both throwing
    the same error of the store under their own prefixes. *)
Definition alike {A B} (p1 p2 : string) (r1 : result A * World)
    (r2 : result B * World) : Prop :=
  r1.2 = r2.2 ∧
  match r1.1, r2.1 with
  | Ok _, Ok _ => True
  | Throw e1, Throw e2 => ∃ e, e1 = wrapped p1 e ∧ e2 = wrapped p2 e
  | _, _ => False
  end.

(** One stored time is no later than another, in the order of the store. *)
Definition noLater (a b : field Timestamp) : Prop := (compareTime a b ≤ 0)%Z.

(** The comparator of [orderBy(key, 'asc')] and [orderBy(key, 'desc')] on a
    timestamp property. *)
Definition byTime {D} (desc : bool) (key : D → field Timestamp) (a b : string * D) : Z :=
  let '(a, b) := if desc then (b, a) else (a, b) in
  let c := compareTime (key a.2) (key b.2) in
  if (c =? 0)%Z then compareString a.1 b.1 else c.

(** The methods of the two services that write to the store. *)
Inductive Write :=
| CreateInvestor (id : string) (data : User.doc)
| UpdateInvestor (id : string) (data : User.doc)
| SetInvestorBalance (id : string) (newBalance : float)
| CloseInvestor (id reason adminId : string)
| CreditInvestor (investorId : string) (amount : float) (adminId : string)
| RecordTransaction (transaction : NewTransaction.t)
| AmendTransaction (id : string) (updates : Tx.doc)
| SubmitWithdrawal (investorId investorName : string) (amount : float)
    (withdrawalId : option string)
| ProcessWithdrawal (id status processedBy : string) (reason : option string)
| DecideW8Ben (withdrawalId : string) (status : W8BenDecision) (processedBy : string)
    (reason : option string)
| RecordCommission (commission : NewCommission.t)
| DeleteFrom (collectionName id : string)
| Send (senderId senderName : string) (senderRole : Role) (content : string)
    (conversationId replyTo : option string) (priority : Priority)
| ResolveConversation (userId userName : string) (userRole : Role)
| ProjectLastMessage (conversationId lastMessage : string).

(** The world a write leaves behind, whether it returns or throws. *)
Definition effect (op : Write) (w : World) : World :=
  match op with
  | CreateInvestor id data => (createInvestor id data w).2
  | UpdateInvestor id data => (updateInvestor id data w).2
  | SetInvestorBalance id b => (updateInvestorBalance id b w).2
  | CloseInvestor id reason adminId => (deleteInvestor id reason adminId w).2
  | CreditInvestor i a adm => (addCreditToInvestor i a adm w).2
  | RecordTransaction tx => (addTransaction tx w).2
  | AmendTransaction id u => (updateTransaction id u w).2
  | SubmitWithdrawal i n a wid => (addWithdrawalRequest i n a wid w).2
  | ProcessWithdrawal id s p r => (updateWithdrawalRequest id s p r w).2
  | DecideW8Ben id s p r => (updateW8BenStatus id s p r w).2
  | RecordCommission c => (addCommission c w).2
  | DeleteFrom c id => (deleteDocument c id w).2
  | Send i n r c cid rt p => (sendMessage i n r c cid rt p w).2
  | ResolveConversation i n r => (getOrCreateConversation i n r w).2
  | ProjectLastMessage cid m => (updateConversationLastMessage cid m w).2
  end.

(** The collections a write addresses. *)
Definition addresses (op : Write) : list string :=
  match op with
  | CreateInvestor _ _ | UpdateInvestor _ _ | SetInvestorBalance _ _
  | CloseInvestor _ _ _ => ["users"]
  | CreditInvestor _ _ _ => ["users"; "transactions"]
  | RecordTransaction _ | AmendTransaction _ _ => ["transactions"]
  | SubmitWithdrawal _ _ _ _ | DecideW8Ben _ _ _ _ => ["withdrawalRequests"]
  | ProcessWithdrawal _ _ _ _ => ["withdrawalRequests"; "commissions"]
  | RecordCommission _ => ["commissions"]
  | DeleteFrom collectionName _ => [collectionName]
  | Send _ _ _ _ _ _ _ => ["affiliateMessages"; "conversations"]
  | ResolveConversation _ _ _ | ProjectLastMessage _ _ => ["conversations"]
  end.

(** A collection is left as it was. *)
Definition untouched {D} (c : Collection D) (w w' : World) : Prop :=
  docs c (store w') = docs c (store w).

(** * Worlds to run the services on *)

(** An investor with a balance of 5000. *)
Definition alice : User.doc :=
  {| User.name := Has "Alice"; User.email := Has "alice@example.com";
     User.phone := Absent; User.country := Has "AE"; User.location := Absent;
     User.joinDate := Has "2024-01-15"; User.initialDeposit := Has 5000%float;
     User.currentBalance := Has 5000%float; User.role := Has "investor";
     User.isActive := Has true; User.accountType := Absent;
     User.accountStatus := Has "Active"; User.accountFlags := Absent;
     User.tradingData := Absent; User.bankDetails := Absent;
     User.verification := Absent; User.bankAccounts := Absent;
     User.createdAt := Has 1%Z; User.updatedAt := Has 1%Z |}.

(** Alice's pending request to withdraw 1000. *)
Definition request1 : Wd.doc :=
  withdrawalDocData "alice" "Alice" 1000%float "2024-03-01" 2%Z.

(** Alice and her request, nothing else, and a store that serves every
    request. *)
Definition ledger : World :=
  {| store :=
       {| users := {[ "alice" := alice ]};
          transactions := ∅;
          withdrawalRequests := {[ "w1" := request1 ]};
          commissions := ∅;
          conversations := ∅;
          affiliateMessages := ∅ |};
     serverTime := 2%Z;
     clientNow := 1709300000000%Z;
     today := "2024-03-01";
     script := [] |}.

(** The same world with the answers to the coming requests fixed. *)
Definition scripted (s : list (option Error)) (w : World) : World :=
  {| store := store w; serverTime := serverTime w; clientNow := clientNow w;
     today := today w; script := s |}.

(** Two errors of the store: an outage, and a query without its index. *)
Definition unavailable : Error :=
  {| code := Some "unavailable"; message := "The service is currently unavailable." |}.

Definition missingIndex : Error :=
  {| code := Some "failed-precondition";
     message := "The query requires an index." |}.

(** The world after Alice's request of 1000 is approved. *)
Definition approvedOnce : World :=
  (updateWithdrawalRequest "w1" "Approved" "admin1" None ledger).2.

(** The world after Alice is credited 250. *)
Definition credited : World :=
  (addCreditToInvestor "alice" 250%float "admin1" ledger).2.

(** The [updates] of the counterexample: [{ amount: 999 }]. *)
Definition amount999 : Tx.doc :=
  {| Tx.investorId := Absent; Tx.type := Absent; Tx.amount := Has 999%float;
     Tx.date := Absent; Tx.status := Absent; Tx.description := Absent;
     Tx.createdAt := Absent; Tx.updatedAt := Absent |}.

(** A world where Alice has a conversation with the admin. *)
Definition chat : World :=
  {| store :=
       {| users := users (store ledger);
          transactions := ∅;
          withdrawalRequests := ∅;
          commissions := ∅;
          conversations :=
            {[ "c1" := mergeLastMessage "hello" 2%Z
                         (conversationData "alice" "Alice" affiliate "admin1"
                            "Cristian Dorao" 1%Z) ]};
          affiliateMessages := ∅ |};
     serverTime := 2%Z;
     clientNow := 1709300000000%Z;
     today := "2024-03-01";
     script := [] |}.

(** A completed deposit as [addTransaction] stores it. *)
Definition transaction (investorId date : string) (amount : float) : Tx.doc :=
  transactionDoc
    {| NewTransaction.investorId := investorId;
       NewTransaction.type := "Deposit";
       NewTransaction.amount := amount;
       NewTransaction.date := date;
       NewTransaction.status := "Completed";
       NewTransaction.description := "" |} 1%Z.

(** Alice's deposits of 1 January, 1 March and 1 February 2024. *)
Definition history : World :=
  {| store :=
       {| users := users (store ledger);
          transactions :=
            {[ "t1" := transaction "alice" "2024-01-01" 100%float;
               "t2" := transaction "alice" "2024-03-01" 300%float;
               "t3" := transaction "alice" "2024-02-01" 200%float ]};
          withdrawalRequests := ∅;
          commissions := ∅;
          conversations := ∅;
          affiliateMessages := ∅ |};
     serverTime := 3%Z;
     clientNow := 1709300000000%Z;
     today := "2024-03-02";
     script := [] |}.

(** Alice credited twice on the same day. *)
Definition sameDay : World :=
  (addCreditToInvestor "alice" 100%float "admin1" credited).2.

(** A transaction document without a date. *)
Definition undated : Tx.doc :=
  {| Tx.investorId := Has "alice"; Tx.type := Has "Deposit";
     Tx.amount := Has 50%float; Tx.date := Absent; Tx.status := Absent;
     Tx.description := Absent; Tx.createdAt := Has 1%Z; Tx.updatedAt := Absent |}.

(** Alice's history with that document added. *)
Definition withUndated : World :=
  {| store := setTransactions (<["t4" := undated]> (transactions (store history)))
                (store history);
     serverTime := 3%Z;
     clientNow := 1709300000000%Z;
     today := "2024-03-02";
     script := [] |}.

(** The designated admin account. *)
Definition cris : User.doc :=
  {| User.name := Has "Cristian Dorao"; User.email := Has "crisdoraodxb@gmail.com";
     User.phone := Absent; User.country := Absent; User.location := Absent;
     User.joinDate := Absent; User.initialDeposit := Absent;
     User.currentBalance := Absent; User.role := Has "admin";
     User.isActive := Has true; User.accountType := Absent;
     User.accountStatus := Absent; User.accountFlags := Absent;
     User.tradingData := Absent; User.bankDetails := Absent;
     User.verification := Absent; User.bankAccounts := Absent;
     User.createdAt := Has 1%Z; User.updatedAt := Has 1%Z |}.

(** A new investor as the admin enters it: [{ name: 'Bob', email: 'bob@example.com' }]. *)
Definition bobData : User.doc :=
  {| User.name := Has "Bob"; User.email := Has "bob@example.com";
     User.phone := Absent; User.country := Absent; User.location := Absent;
     User.joinDate := Absent; User.initialDeposit := Absent;
     User.currentBalance := Absent; User.role := Absent;
     User.isActive := Absent; User.accountType := Absent;
     User.accountStatus := Absent; User.accountFlags := Absent;
     User.tradingData := Absent; User.bankDetails := Absent;
     User.verification := Absent; User.bankAccounts := Absent;
     User.createdAt := Absent; User.updatedAt := Absent |}.

(** Alice's first message in her conversation with the admin. *)
Definition hello : Msg.doc :=
  messageData "alice" "Alice" affiliate "hello" "c1" None medium 2%Z.

(** Alice, the admin, their conversation and its first message. *)
Definition office : World :=
  {| store :=
       {| users := {[ "alice" := alice; "cris" := cris ]};
          transactions := ∅;
          withdrawalRequests := ∅;
          commissions := ∅;
          conversations := conversations (store chat);
          affiliateMessages := {[ "m1" := hello ]} |};
     serverTime := 2%Z;
     clientNow := 1709300000000%Z;
     today := "2024-03-01";
     script := [] |}.

(** The signed-in investor of the messages page, and a draft. *)
Definition aliceOnPage : MessagesPage.User :=
  {| MessagesPage.id := "alice"; MessagesPage.name := "Alice";
     MessagesPage.role := "investor" |}.

Definition draft : MessagesPage.State :=
  {| MessagesPage.selectedConversationId := None;
     MessagesPage.showNewMessageForm := true;
     MessagesPage.newMessageContent := "See you at noon";
     MessagesPage.isLoading := false |}.

(** A [trim] for the strings of the examples: it strips the white space of
    ASCII (space, tab, line feed, vertical tab, form feed, carriage return). *)
Definition isSpace (c : ascii) : bool :=
  let n := nat_of_ascii c in
  (n =? 32) || ((9 <=? n) && (n <=? 13)).

Fixpoint dropSpaces (l : list ascii) : list ascii :=
  match l with
  | c :: l' => if isSpace c then dropSpaces l' else l
  | [] => []
  end.

Definition trimAscii (s : string) : string :=
  String.string_of_list_ascii
    (rev (dropSpaces (rev (dropSpaces (String.list_ascii_of_string s))))).

(** * Properties *)

(** ** The date parser *)

Example isoGetTime_epoch : isoGetTime "1970-01-01" = Some 0%Z.
Proof. reflexivity. Qed.

Example isoGetTime_2024 : isoGetTime "2024-03-01" = Some 1709251200000%Z.
Proof. vm_compute. reflexivity. Qed.

Example isoGetTime_invalid : isoGetTime "2024-02-30" = None.
Proof. vm_compute. reflexivity. Qed.

(** ** Sorting, listings and queries *)

Section sorting.
Context {A : Type}.
Implicit Types (cmp : A → A → Z) (l : list A).

Lemma insertSorted_Permutation cmp x l : insertSorted cmp x l ≡ₚ x :: l.
Proof.
  induction l as [|y l IH]; simpl; [done|].
  destruct (0 <? cmp x y)%Z; [|done].
  rewrite IH. apply Permutation_swap.
Qed.

Lemma arraySort_Permutation cmp l : arraySort cmp l ≡ₚ l.
Proof.
  induction l as [|x l IH]; simpl; [done|].
  rewrite insertSorted_Permutation. by constructor.
Qed.

Lemma List_filter_Permutation (f : A → bool) l l' :
  l ≡ₚ l' → List.filter f l ≡ₚ List.filter f l'.
Proof.
  induction 1 as [|x l l' _ IH|x y l|l l' l'' _ IH1 _ IH2]; simpl.
  - done.
  - destruct (f x); [by constructor|done].
  - destruct (f x), (f y); try done. apply Permutation_swap.
  - by etrans.
Qed.
End sorting.

Lemma listing_Permutation {D} (m : gmap string D) : listing m ≡ₚ map_to_list m.
Proof. apply arraySort_Permutation. Qed.

Lemma elem_of_listing {D} (m : gmap string D) i d :
  (i, d) ∈ listing m ↔ m !! i = Some d.
Proof. rewrite listing_Permutation. apply elem_of_map_to_list. Qed.

Lemma listing_insert {D} (m : gmap string D) i d :
  m !! i = None → listing (<[i := d]> m) ≡ₚ (i, d) :: listing m.
Proof.
  intros Hi. rewrite !listing_Permutation. by apply map_to_list_insert.
Qed.

(** The id [addDoc] picks is not in use. *)
Lemma fresh_id_unused {D} (m : gmap string D) : m !! fresh (dom m) = None.
Proof. apply not_elem_of_dom. apply is_fresh. Qed.

Lemma whereEq_insert {D} (key : D → field string) v (m : gmap string D) i d :
  m !! i = None → key d = Has v →
  length (whereEq key v (listing (<[i := d]> m)))
  = S (length (whereEq key v (listing m))).
Proof.
  intros Hi Hk. unfold whereEq.
  rewrite (Permutation_length (List_filter_Permutation _ _ _ (listing_insert m i d Hi))).
  simpl. by rewrite Hk, String.eqb_refl.
Qed.

(** ** Running a method *)

(** Unfolds a method down to the requests it makes. *)
Ltac run :=
  unfold rethrowAs, tryCatch, bind, updateDoc, getDoc, getDocs, addDoc, setDoc,
    deleteDoc, request, answer, getToday, getNow, ret, throw;
  simpl.

(** One step of a run: the store's next answer, a lookup, or a test. *)
Ltac step :=
  match goal with
  | |- context [match ?sc with [] => _ | _ :: _ => _ end] =>
      is_var sc; destruct sc as [|[?|] ?]
  | |- context [match ?m !! ?i with Some _ => _ | None => _ end] =>
      destruct (m !! i) eqn:?
  | |- context [if hasUndefined ?c then _ else _] =>
      destruct (hasUndefined c) eqn:?
  end;
  simpl; rewrite ?lookup_insert_eq; simpl; try (by intros [=]).

(** ** Approval and commissions *)

(** C1, as the code has it: every successful call of
    [updateWithdrawalRequest id "Approved"] finds the request, leaves it
    stored with status Approved, and in the same call adds exactly one
    commission document under a new id: it names the request, has rate 15,
    the request's amount and that amount times 0.15. The number of
    commissions of the request grows by exactly one, so a request without a
    commission has exactly one after its first approval. *)
Theorem approve_adds_one_commission w id processedBy reason w' :
  updateWithdrawalRequest id "Approved" processedBy reason w = (Ok tt, w') →
  ∃ d cid c,
    withdrawalRequests (store w) !! id = Some d ∧
    Wd.status <$> withdrawalRequests (store w') !! id = Some (Has "Approved") ∧
    commissions (store w) !! cid = None ∧
    commissions (store w') = <[cid := c]> (commissions (store w)) ∧
    Com.withdrawalId c = Has id ∧
    Com.commissionRate c = Has 15%float ∧
    Com.withdrawalAmount c = Wd.amount d ∧
    Com.commissionAmount c = Has (toNumber (Wd.amount d) * 0.15)%float ∧
    length (commissionsFor id w') = S (length (commissionsFor id w)).
Proof.
  destruct w as [st t now td sc]. unfold updateWithdrawalRequest, addCommission.
  run. repeat step.
  all: intros [= <-]; simpl.
  all: eexists _, _, _; split_and!; try reflexivity.
  all: try (by rewrite lookup_insert_eq).
  all: try apply fresh_id_unused.
  all: unfold commissionsFor; simpl; apply whereEq_insert;
    [apply fresh_id_unused|done].
Qed.

Lemma approve_adds_one_commission_witness :
  ∃ d cid c,
    withdrawalRequests (store ledger) !! "w1" = Some d ∧
    Wd.status <$> withdrawalRequests (store approvedOnce) !! "w1"
      = Some (Has "Approved") ∧
    commissions (store ledger) !! cid = None ∧
    commissions (store approvedOnce) = <[cid := c]> (commissions (store ledger)) ∧
    Com.withdrawalId c = Has "w1" ∧
    Com.commissionRate c = Has 15%float ∧
    Com.withdrawalAmount c = Wd.amount d ∧
    Com.commissionAmount c = Has (toNumber (Wd.amount d) * 0.15)%float ∧
    length (commissionsFor "w1" approvedOnce)
      = S (length (commissionsFor "w1" ledger)).
Proof.
  apply (approve_adds_one_commission ledger "w1" "admin1" None approvedOnce).
  vm_compute. reflexivity.
Defined.

(** An amount of 1000 yields a commission of 150 at rate 15. *)
Example commission_of_1000 :
  map (λ p, (Com.withdrawalAmount p.2, Com.commissionRate p.2, Com.commissionAmount p.2))
    (commissionsFor "w1" approvedOnce)
  = [(Has 1000%float, Has 15%float, Has 150%float)].
Proof. vm_compute. reflexivity. Qed.

(** C1 as stated fails: nothing guards the terminal state, and approving
    the same request a second time succeeds and records a second commission. *)
Lemma approve_twice_two_commissions :
  let second := updateWithdrawalRequest "w1" "Approved" "admin1" None approvedOnce in
  second.1 = Ok tt ∧
  map (λ p, Com.commissionAmount p.2) (commissionsFor "w1" second.2)
  = [Has 150%float; Has 150%float].
Proof. vm_compute. split; reflexivity. Qed.

(** ** Rejection *)

(** A decision other than Approved touches one document only: the request. *)
Lemma process_other_frame w id status processedBy reason r w' :
  isApproved status = false →
  updateWithdrawalRequest id status processedBy reason w = (r, w') →
  users (store w') = users (store w) ∧
  transactions (store w') = transactions (store w) ∧
  commissions (store w') = commissions (store w) ∧
  conversations (store w') = conversations (store w) ∧
  affiliateMessages (store w') = affiliateMessages (store w) ∧
  (∀ j, j ≠ id →
     withdrawalRequests (store w') !! j = withdrawalRequests (store w) !! j) ∧
  match r with
  | Ok _ =>
      ∃ d, withdrawalRequests (store w) !! id = Some d ∧
           withdrawalRequests (store w') !! id
           = Some (mergeProcessed status processedBy reason (commitTime w) d)
  | Throw _ => store w' = store w
  end.
Proof.
  intros Hs. destruct w as [st t now td sc]. unfold updateWithdrawalRequest.
  rewrite Hs. run.
  destruct st as [us txs wds cs cvs ms]; simpl.
  destruct sc as [|[e|] sc]; simpl.
  2: { intros [= <- <-]; simpl. split_and!; done. }
  all: destruct (wds !! id) as [d|] eqn:Hd; simpl; intros [= <- <-]; simpl.
  all: split_and!; try done.
  all: try (intros j Hj; by rewrite lookup_insert_ne).
  all: exists d; by rewrite lookup_insert_eq.
Qed.

(** C8: processing a request with decision Rejected creates no commission
    and reverses no balance: users, transactions and commissions (and every
    other request) are as before, whatever the store answers. When the call
    succeeds, the request carries status Rejected, with its amount and
    approval date as they were: that is the only trace of the rejection. *)
Theorem reject_records_status_only w id processedBy reason r w' :
  updateWithdrawalRequest id "Rejected" processedBy reason w = (r, w') →
  commissions (store w') = commissions (store w) ∧
  users (store w') = users (store w) ∧
  transactions (store w') = transactions (store w) ∧
  (∀ j, j ≠ id →
     withdrawalRequests (store w') !! j = withdrawalRequests (store w) !! j) ∧
  (r = Ok tt →
   ∃ d d', withdrawalRequests (store w) !! id = Some d ∧
           withdrawalRequests (store w') !! id = Some d' ∧
           Wd.status d' = Has "Rejected" ∧
           Wd.amount d' = Wd.amount d ∧
           Wd.approvalDate d' = Wd.approvalDate d).
Proof.
  intros Hrun.
  destruct (process_other_frame w id "Rejected" processedBy reason r w' eq_refl Hrun)
    as (Hu & Ht & Hc & _ & _ & Hw & Hr).
  split_and!; try done.
  intros ->. destruct Hr as (d & Hd & Hd').
  exists d, (mergeProcessed "Rejected" processedBy reason (commitTime w) d).
  by split_and!.
Qed.

Lemma reject_records_status_only_witness :
  let run := updateWithdrawalRequest "w1" "Rejected" "admin1" (Some "limit") ledger in
  commissions (store run.2) = commissions (store ledger) ∧
  users (store run.2) = users (store ledger) ∧
  transactions (store run.2) = transactions (store ledger) ∧
  (∀ j, j ≠ "w1" →
     withdrawalRequests (store run.2) !! j
     = withdrawalRequests (store ledger) !! j) ∧
  (run.1 = Ok tt →
   ∃ d d', withdrawalRequests (store ledger) !! "w1" = Some d ∧
           withdrawalRequests (store run.2) !! "w1" = Some d' ∧
           Wd.status d' = Has "Rejected" ∧
           Wd.amount d' = Wd.amount d ∧
           Wd.approvalDate d' = Wd.approvalDate d).
Proof.
  apply (reject_records_status_only ledger "w1" "admin1" (Some "limit")).
  vm_compute. reflexivity.
Defined.

(** The rejection above does succeed, and leaves no commission. *)
Example reject_request1 :
  let run := updateWithdrawalRequest "w1" "Rejected" "admin1" (Some "limit") ledger in
  run.1 = Ok tt ∧ commissionsFor "w1" run.2 = [].
Proof. vm_compute. split; reflexivity. Qed.

(** ** Submission and the read paths of withdrawal requests *)

Lemma elem_of_List_filter {A} (f : A → bool) l x :
  x ∈ List.filter f l ↔ x ∈ l ∧ f x = true.
Proof. rewrite !list_elem_of_In. apply filter_In. Qed.

Lemma elem_of_arraySort {A} (cmp : A → A → Z) l x : x ∈ arraySort cmp l ↔ x ∈ l.
Proof. by rewrite arraySort_Permutation. Qed.

Lemma elem_of_whereEq {D} (key : D → field string) v (s : Snapshot D) p :
  p ∈ whereEq key v s ↔ p ∈ s ∧ key p.2 = Has v.
Proof.
  unfold whereEq. rewrite elem_of_List_filter.
  split; intros [Hp Hk]; (split; [done|]).
  - destruct (key p.2) as [| |x]; try done. by apply String.eqb_eq in Hk as ->.
  - by rewrite Hk, String.eqb_refl.
Qed.

Lemma elem_of_orderByDesc {D} (key : D → field string) (s : Snapshot D) p :
  p ∈ orderByDesc key s ↔ p ∈ s ∧ key p.2 ≠ Absent.
Proof.
  unfold orderByDesc. rewrite elem_of_arraySort, elem_of_List_filter.
  unfold inIndex, defined.
  split; intros [Hp Hk]; (split; [done|]); by destruct (key p.2).
Qed.

(** Both paths of [getWithdrawalRequests] return rows of stored requests,
    and every wanted request that has a date is among them. *)
Lemma getWithdrawalRequests_rows getTime investorId w rows w' :
  getWithdrawalRequests getTime investorId w = (Ok rows, w') →
  (∀ row, row ∈ rows →
     ∃ i d, withdrawalRequests (store w) !! i = Some d ∧
            row = processWithdrawalDoc (today w) (clientNow w) (i, d)) ∧
  (∀ i d, withdrawalRequests (store w) !! i = Some d →
          wanted investorId d → Wd.date d ≠ Absent →
          processWithdrawalDoc (today w) (clientNow w) (i, d) ∈ rows).
Proof.
  destruct w as [st t now td sc]. unfold getWithdrawalRequests, wanted. run.
  assert (∀ s : Snapshot Wd.doc,
    (∀ p, p ∈ s → p ∈ listing (withdrawalRequests st)) →
    ∀ row, row ∈ processWithdrawalDocs td now s →
      ∃ i d, withdrawalRequests st !! i = Some d ∧
             row = processWithdrawalDoc td now (i, d)) as Hsub.
  { intros s Hs row [[i d] [-> Hp]]%list_elem_of_fmap.
    exists i, d. split; [|done]. by apply elem_of_listing, Hs. }
  destruct (given investorId) as [inv|] eqn:Hg; simpl.
  all: repeat step.
  all: intros [= Hr Hw]; subst rows; clear Hw; split.
  all: try (intros row; rewrite ?elem_of_arraySort; apply Hsub; intros p;
            rewrite ?elem_of_orderByDesc, ?elem_of_whereEq; tauto).
  all: intros i d Hd Hw Hdate; rewrite ?elem_of_arraySort;
    apply (list_elem_of_fmap_2 (processWithdrawalDoc td now) _ (i, d));
    rewrite ?elem_of_orderByDesc, ?elem_of_whereEq, elem_of_listing; simpl; auto.
Qed.

Lemma submit_stores w investorId investorName amount withdrawalId w' :
  addWithdrawalRequest investorId investorName amount withdrawalId w = (Ok tt, w') →
  withdrawalRequests (store w') !! submittedId withdrawalId w
  = Some (withdrawalDocData investorId investorName amount (today w) (commitTime w)).
Proof.
  destruct w as [st t now td sc].
  unfold addWithdrawalRequest, submittedId. run.
  destruct (given withdrawalId) as [id|]; simpl.
  all: repeat step.
  all: intros [= <-]; simpl; by rewrite lookup_insert_eq.
Qed.

(** C10: [addWithdrawalRequest] writes a document without [w8benStatus]
    (and with status Pending); the row mapping shared by the two paths of
    [getWithdrawalRequests] and by the listener reads an absent
    [w8benStatus] as [not_required] and an absent [status] as [Pending]; so
    wherever the new request is reported, by either path of the one-shot
    read or by the listener, it is reported as Pending and not_required,
    and it is reported whenever the read asks for its investor. *)
Theorem submit_reports_defaults w investorId investorName amount withdrawalId w' :
  addWithdrawalRequest investorId investorName amount withdrawalId w = (Ok tt, w') →
  let id := submittedId withdrawalId w in
  let reported (row : WithdrawalRequest.t) :=
    WithdrawalRequest.status row = "Pending" ∧
    WithdrawalRequest.w8benStatus row = "not_required" in
  (∃ d, withdrawalRequests (store w') !! id = Some d ∧
        Wd.w8benStatus d = Absent ∧ Wd.status d = Has "Pending") ∧
  (∀ today now i d,
     (Wd.w8benStatus d = Absent →
      WithdrawalRequest.w8benStatus (processWithdrawalDoc today now (i, d))
      = "not_required") ∧
     (Wd.status d = Absent →
      WithdrawalRequest.status (processWithdrawalDoc today now (i, d)) = "Pending")) ∧
  (∀ getTime filter rows w'',
     getWithdrawalRequests getTime filter w' = (Ok rows, w'') →
     (∀ row, row ∈ rows → WithdrawalRequest.id row = id → reported row) ∧
     ((∀ inv, given filter = Some inv → inv = investorId) →
      ∃ row, row ∈ rows ∧ WithdrawalRequest.id row = id)) ∧
  (∀ getTime filter rows,
     rows ∈ liveWithdrawalRequests getTime filter w' →
     (∀ row, row ∈ rows → WithdrawalRequest.id row = id → reported row) ∧
     ((∀ inv, given filter = Some inv → inv = investorId) →
      ∃ row, row ∈ rows ∧ WithdrawalRequest.id row = id)).
Proof.
  intros Hd%submit_stores id reported. fold id in Hd.
  set (d := withdrawalDocData _ _ _ _ _) in Hd.
  split_and!.
  - by exists d.
  - intros today now i d0. unfold processWithdrawalDoc; simpl.
    split; by intros ->.
  - intros getTime filter rows w'' [Hsub Hsup]%getWithdrawalRequests_rows. split.
    + intros row (i & d0 & Hi & ->)%Hsub. simpl. intros ->.
      by rewrite Hd in Hi; injection Hi as <-.
    + intros Hf. eexists. split; [apply (Hsup id d Hd)|done]; [|done].
      intros inv ->%Hf. done.
  - intros getTime filter rows. unfold liveWithdrawalRequests. simpl.
    intros ->%list_elem_of_singleton. split.
    + intros row [[i d0] [-> Hp]]%elem_of_arraySort%list_elem_of_fmap.
      simpl. intros ->.
      assert ((id, d0) ∈ listing (withdrawalRequests (store w'))) as Hin.
      { destruct (given filter); [by apply elem_of_whereEq in Hp as [? _]|done]. }
      apply elem_of_listing in Hin. by rewrite Hd in Hin; injection Hin as <-.
    + intros Hf. exists (processWithdrawalDoc (today w') (clientNow w') (id, d)).
      split; [|done]. apply elem_of_arraySort.
      apply (list_elem_of_fmap_2 _ _ (id, d)).
      destruct (given filter) as [inv|] eqn:Hg.
      * apply elem_of_whereEq. split; [by apply elem_of_listing|].
        by rewrite (Hf inv).
      * by apply elem_of_listing.
Qed.

Lemma submit_reports_defaults_witness :
  let w' := (addWithdrawalRequest "alice" "Alice" 250%float None ledger).2 in
  ∃ d, withdrawalRequests (store w') !! submittedId None ledger = Some d ∧
       Wd.w8benStatus d = Absent ∧ Wd.status d = Has "Pending".
Proof.
  intros w'.
  assert (addWithdrawalRequest "alice" "Alice" 250%float None ledger = (Ok tt, w'))
    as Hrun by (vm_compute; reflexivity).
  destruct (submit_reports_defaults ledger "alice" "Alice" 250%float None w' Hrun)
    as [Hstored _].
  exact Hstored.
Defined.

(** The new request as the indexed read and as the fallback read report it. *)
Example submitted_request_rows :
  let w' := (addWithdrawalRequest "alice" "Alice" 250%float None ledger).2 in
  let shown (w : World) :=
    match (getWithdrawalRequests isoGetTime (Some "alice") w).1 with
    | Ok rows =>
        map (λ r, (WithdrawalRequest.id r, WithdrawalRequest.status r,
                   WithdrawalRequest.w8benStatus r)) rows
    | Throw _ => []
    end in
  shown w' = [("w1", "Pending", "not_required"); ("0", "Pending", "not_required")] ∧
  shown (scripted [Some missingIndex] w')
  = [("0", "Pending", "not_required"); ("w1", "Pending", "not_required")].
Proof. vm_compute. split; reflexivity. Qed.

(** ** Credit *)

(** [run], with the worlds written out. *)
Ltac run_worlds := run; unfold pop, commit, commitTime; simpl.

(** A number that is not NaN is read back as itself through [x || 0]: zero
    is read as zero. *)
Lemma orElse_strictEq (x : float) :
  is_nan x = false → strictEq x (orElse (Has x) 0%float) = true.
Proof.
  unfold orElse, truthy, truthy_number, strictEq, is_nan. intros Hn.
  rewrite Hn, orb_false_r.
  destruct (x =? 0)%float eqn:Hz; simpl; [done|].
  by apply negb_false_iff.
Qed.

Lemma getInvestorById_found w id data :
  answer w = None →
  users (store w) !! id = Some data →
  roleIs "investor" data = true →
  getInvestorById id w
  = (Ok (Some (investorById (today w) (clientNow w) id data)), pop w).
Proof.
  intros Ha Hd Hr. unfold getInvestorById, rethrowAs, tryCatch, bind, getDoc,
    request, getToday, getNow, ret.
  rewrite Ha. simpl. by rewrite Hd, Hr.
Qed.

(** NaN is falsy: [NaN || 0] is [0]. *)
Lemma orElse_nan (x : float) :
  is_nan x = true → orElse (Has x) 0%float = 0%float.
Proof.
  unfold orElse, truthy, truthy_number. intros ->. by rewrite orb_true_r.
Qed.

(** C5, as the code has it. For an investor whose balance reads [B], a
    credit of [amount] returns when the store serves its three requests (the
    read of the investor, the balance write, the transaction write). Whenever
    it returns it has written the balance [B + amount], then appended one
    transaction under a new id: of type Credit, Completed, for that amount
    and investor, dated today. Reading the investor afterwards (the store
    serving the read) gives a balance equal to [B + amount] under the
    language's [===] when that sum is a number; when the sum is NaN the
    balance read is [0]. *)
Theorem credit_then_balance w investorId amount adminId data :
  users (store w) !! investorId = Some data →
  roleIs "investor" data = true →
  let B := balanceOf data in
  (serves 3 w = true →
   ∃ w', addCreditToInvestor investorId amount adminId w = (Ok tt, w')) ∧
  ∀ w', addCreditToInvestor investorId amount adminId w = (Ok tt, w') →
    (∃ data', users (store w') !! investorId = Some data' ∧
              User.currentBalance data' = Has (B + amount)%float ∧
              User.updatedAt data' = Has (serverTime w + 1)%Z) ∧
    (∃ tid tx, transactions (store w) !! tid = None ∧
               transactions (store w') = <[tid := tx]> (transactions (store w)) ∧
               Tx.type tx = Has "Credit" ∧
               Tx.amount tx = Has amount ∧
               Tx.investorId tx = Has investorId ∧
               Tx.date tx = Has (today w) ∧
               Tx.status tx = Has "Completed" ∧
               Tx.description tx = Has ("Credit added by admin " +:+ adminId) ∧
               Tx.createdAt tx = Has (serverTime w + 2)%Z) ∧
    (answer w' = None →
     ∃ investor w'',
       getInvestorById investorId w' = (Ok (Some investor), w'') ∧
       (is_nan (B + amount)%float = false →
        strictEq (B + amount)%float (Investor.currentBalance investor) = true) ∧
       (is_nan (B + amount)%float = true →
        Investor.currentBalance investor = 0%float)).
Proof.
  intros Hdata Hrole B. split.
  { destruct w as [st t now td sc]. simpl in *.
    unfold serves, addCreditToInvestor, updateInvestorBalance, addTransaction,
      getInvestorById.
    destruct sc as [|[e1|] [|[e2|] [|[e3|] sc]]]; simpl; try done.
    all: intros _; run_worlds; rewrite Hdata; simpl; rewrite Hrole; simpl.
    all: rewrite ?Hdata; simpl; by eexists. }
  intros w' Hrun.
  assert (users (store w') !! investorId
          = Some (mergeBalance (B + amount)%float (serverTime w + 1)%Z data) ∧
          transactions (store w')
          = <[fresh (dom (transactions (store w))) :=
                transactionDoc
                  {| NewTransaction.investorId := investorId;
                     NewTransaction.type := "Credit";
                     NewTransaction.amount := amount;
                     NewTransaction.date := today w;
                     NewTransaction.status := "Completed";
                     NewTransaction.description := "Credit added by admin " +:+ adminId |}
                  (serverTime w + 2)%Z]> (transactions (store w))) as [Hu Ht].
  { revert Hrun. destruct w as [st t now td sc]. simpl in *.
    unfold addCreditToInvestor, updateInvestorBalance, addTransaction, getInvestorById.
    run_worlds.
    repeat (step; rewrite ?Hdata; simpl; rewrite ?Hrole; simpl;
            rewrite ?Hdata; simpl; try (by intros [=])).
    all: intros [= <-]; simpl; rewrite lookup_insert_eq.
    all: split; try done.
    all: by replace (t + 1 + 1)%Z with (t + 2)%Z by lia. }
  split_and!.
  - eexists. split; [exact Hu|done].
  - eexists _, _. split; [apply fresh_id_unused|]. split; [exact Ht|done].
  - intros Ha. eexists _, _. split.
    + apply getInvestorById_found; [done|exact Hu|done].
    + simpl. split; [apply orElse_strictEq|apply orElse_nan].
Qed.

Lemma credit_then_balance_witness :
  addCreditToInvestor "alice" 250%float "admin1" ledger = (Ok tt, credited) ∧
  ∃ investor w'',
    getInvestorById "alice" credited = (Ok (Some investor), w'') ∧
    strictEq (balanceOf alice + 250)%float (Investor.currentBalance investor) = true.
Proof.
  destruct (credit_then_balance ledger "alice" 250%float "admin1" alice
              eq_refl eq_refl) as [Hreturns Hafter].
  destruct (Hreturns eq_refl) as [w' Hrun].
  assert (w' = credited) as -> by (vm_compute in Hrun; by injection Hrun as <-).
  split; [exact Hrun|].
  destruct (Hafter credited Hrun) as (_ & _ & Hread).
  destruct (Hread eq_refl) as (investor & w'' & Hget & Hnum & _).
  exists investor, w''. split; [exact Hget|]. by apply Hnum.
Defined.

(** C5 as stated fails for an amount that is not a number: the credit
    returns, the balance stored is NaN, and the balance read afterwards is
    [0], which is not [B + amount]. *)
Lemma credit_nan_reads_zero :
  let run := addCreditToInvestor "alice" nan "admin1" ledger in
  let read := getInvestorById "alice" run.2 in
  run.1 = Ok tt ∧
  User.currentBalance <$> users (store run.2) !! "alice" = Some (Has nan) ∧
  Investor.currentBalance <$> match read.1 with Ok r => r | Throw _ => None end
  = Some 0%float ∧
  (balanceOf alice + nan)%float = nan ∧
  strictEq (balanceOf alice + nan)%float 0%float = false.
Proof. vm_compute. split_and!; reflexivity. Qed.

(** 5000 credited with 250 reads 5250, with one Credit transaction. *)
Example credit_alice :
  match (getInvestorById "alice" credited).1 with
  | Ok (Some investor) => Investor.currentBalance investor
  | _ => nan
  end = 5250%float ∧
  map (λ p, (Tx.type p.2, Tx.amount p.2)) (listing (transactions (store credited)))
  = [(Has "Credit", Has 250%float)].
Proof. vm_compute. split; reflexivity. Qed.

(** C9: a credit is not atomic. When the store serves the read of the
    investor and the balance write and then rejects the write of the
    transaction, the call throws (the store's message wrapped twice), yet
    the investor keeps the credited balance and no transaction has been
    recorded. *)
Theorem credit_not_atomic w investorId amount adminId data e rest :
  users (store w) !! investorId = Some data →
  roleIs "investor" data = true →
  script w = None :: None :: Some e :: rest →
  ∃ w',
    addCreditToInvestor investorId amount adminId w
    = (Throw (wrapped "Failed to add credit"
                (wrapped "Failed to record transaction" e)), w') ∧
    User.currentBalance <$> users (store w') !! investorId
    = Some (Has (balanceOf data + amount)%float) ∧
    transactions (store w') = transactions (store w) ∧
    script w' = rest.
Proof.
  destruct w as [st t now td sc]. simpl. intros Hdata Hrole ->.
  unfold addCreditToInvestor, updateInvestorBalance, addTransaction, getInvestorById.
  run_worlds. rewrite Hdata. simpl. rewrite Hrole. simpl. rewrite Hdata. simpl.
  eexists. split; [reflexivity|]. simpl.
  by rewrite lookup_insert_eq.
Qed.

Lemma credit_not_atomic_witness :
  ∃ w',
    addCreditToInvestor "alice" 250%float "admin1"
      (scripted [None; None; Some unavailable] ledger)
    = (Throw (wrapped "Failed to add credit"
                (wrapped "Failed to record transaction" unavailable)), w') ∧
    User.currentBalance <$> users (store w') !! "alice"
    = Some (Has (balanceOf alice + 250)%float) ∧
    transactions (store w') = transactions (store ledger) ∧
    script w' = [].
Proof.
  apply (credit_not_atomic (scripted [None; None; Some unavailable] ledger)
           "alice" 250%float "admin1" alice unavailable []); reflexivity.
Defined.

(** The message the caller sees, and the balance left behind. *)
Example credit_interrupted :
  let run := addCreditToInvestor "alice" 250%float "admin1"
               (scripted [None; None; Some unavailable] ledger) in
  run.1 = Throw (newError "Failed to add credit: Failed to record transaction: The service is currently unavailable.") ∧
  User.currentBalance <$> users (store run.2) !! "alice" = Some (Has 5250%float) ∧
  listing (transactions (store run.2)) = [].
Proof. vm_compute. split_and!; reflexivity. Qed.

(** ** Transactions once written *)

(** One case split of a run, on whatever the run tests next. *)
Ltac split_run :=
  match goal with
  | |- context [adminOf ?s] => destruct (adminOf s) as [? ?]
  | |- context [match ?x with [] => _ | _ :: _ => _ end] => destruct x as [|[?|] ?] eqn:?
  | |- context [match ?x with [] => _ | _ :: _ => _ end] => destruct x eqn:?
  | |- context [match ?x with Some _ => _ | None => _ end] => destruct x eqn:?
  | |- context [if ?b then _ else _] => destruct b eqn:?
  | |- context [let (_, _) := ?p in _] => destruct p eqn:?
  end; simpl.

Lemma keeps_fresh (m : gmap string Tx.doc) d' id d :
  m !! id = Some d → <[fresh (dom m) := d']> m !! id = Some d.
Proof.
  intros Hd. rewrite lookup_insert_ne; [done|].
  intros <-. by rewrite fresh_id_unused in Hd.
Qed.

(** C2, as the code has it: a transaction document, once written, is left
    as it is by every operation of the two services except the two that
    address it by id: [updateTransaction], which merges its [updates] into
    the document, and [deleteDocument] on the transactions collection. *)
Theorem others_keep_transactions op w :
  rewritesTransactions op = false → keepsTransactions w (perform op w).
Proof.
  intros Hop id d. destruct w as [st t now td sc].
  destruct op; simpl in *; try discriminate.
  all: unfold getInvestorById, updateInvestorBalance, deleteInvestor,
    addCreditToInvestor, getTransactions, addTransaction,
    getWithdrawalRequests, addWithdrawalRequest, updateWithdrawalRequest,
    updateW8BenStatus, addCommission, deleteDocument, sendMessage,
    getOrCreateConversation, updateConversationLastMessage,
    updateInvestorBalance, addTransaction, getInvestorById, addCommission,
    getOrCreateConversation, updateConversationLastMessage.
  all: run_worlds.
  all: repeat split_run.
  all: try done.
  all: apply keeps_fresh.
Qed.

Lemma others_keep_transactions_witness :
  let w' := perform (AddCreditToInvestor "alice" 100%float "admin1") credited in
  Tx.amount <$> transactions (store credited) !! "0" = Some (Has 250%float) ∧
  transactions (store w') !! "0" = transactions (store credited) !! "0".
Proof.
  intros w'. split; [reflexivity|].
  destruct (transactions (store credited) !! "0") as [d|] eqn:Hd; [|discriminate].
  exact (others_keep_transactions (AddCreditToInvestor "alice" 100%float "admin1")
           credited eq_refl "0" d Hd).
Defined.

(** C2 as stated fails: [updateTransaction] rewrites the amount of the
    credit recorded for Alice, and stamps the document. *)
Lemma updateTransaction_rewrites :
  let run := updateTransaction "0" amount999 credited in
  let shown (w : World) :=
    (λ d, (Tx.amount d, Tx.updatedAt d)) <$> transactions (store w) !! "0" in
  run.1 = Ok tt ∧
  shown credited = Some (Has 250%float, Absent) ∧
  shown run.2 = Some (Has 999%float, Has 5%Z).
Proof. vm_compute. split_and!; reflexivity. Qed.

(** ** Listener errors *)

(** C3, as the code has it: on a listener error the four listeners of
    lists (withdrawal requests, transactions, messages, conversations) call
    their callback once, with the empty list, and the listener of a single
    investor calls it once with [null]. No handler throws: each is a total
    function to the calls it makes. *)
Theorem listeners_fail_soft getTime today now error :
  (∀ investorId,
     onError (subscribeToWithdrawalRequests getTime today now investorId) error
     = [[]]) ∧
  (∀ investorId,
     onError (subscribeToTransactions getTime today now investorId) error = [[]]) ∧
  (∀ conversationId, onError (subscribeToMessages now conversationId) error = [[]]) ∧
  (∀ userId, onError (subscribeToConversations now userId) error = [[]]) ∧
  (∀ id, onError (subscribeToInvestor today now id) error = [None]).
Proof. by split_and!; intros. Qed.

(** C3 as stated fails at two entry points: the listener of one investor
    delivers [null], not an empty sequence, and the listener of all
    investors only logs the error and never calls its callback. *)
Lemma listeners_without_empty_list :
  onError (subscribeToInvestor "2024-03-01" 0%Z "alice") unavailable = [None] ∧
  onError (subscribeToInvestors "2024-03-01" 0%Z) unavailable = [].
Proof. split; reflexivity. Qed.

(** ** The conversation directory *)

(** A new conversation lists the user it is created for. *)
Lemma conversationData_contains userId userName userRole adminId adminName t :
  match Conv.participants
          (conversationData userId userName userRole adminId adminName t) with
  | Has l => existsb (String.eqb userId) l
  | _ => false
  end = true.
Proof.
  destruct userRole; simpl; rewrite String.eqb_refl; simpl; [done|].
  by rewrite orb_true_r.
Qed.

Lemma whereContains_insert (m : gmap string Conv.doc) userId i d :
  m !! i = None →
  whereContains Conv.participants userId (listing m) = [] →
  match Conv.participants d with
  | Has l => existsb (String.eqb userId) l
  | _ => false
  end = true →
  whereContains Conv.participants userId (listing (<[i := d]> m)) = [(i, d)].
Proof.
  intros Hi Hnone Hd. apply Permutation_singleton_r.
  unfold whereContains in *.
  rewrite (List_filter_Permutation _ _ _ (listing_insert m i d Hi)).
  simpl. by rewrite Hd, Hnone.
Qed.

(** *** The order of ids *)

Lemma compareString_refl a : compareString a a = 0%Z.
Proof.
  unfold compareString.
  destruct (String.compare a a) eqn:Hc; [done| |].
  - pose proof (String.compare_antisym a a) as H. rewrite Hc in H. done.
  - pose proof (String.compare_antisym a a) as H. rewrite Hc in H. done.
Qed.

Lemma Ascii_compare_refl a : Ascii.compare a a = Eq.
Proof. unfold Ascii.compare. apply N.compare_refl. Qed.

Lemma Ascii_compare_trans a b c :
  Ascii.compare a b = Lt → Ascii.compare b c = Lt → Ascii.compare a c = Lt.
Proof. unfold Ascii.compare. rewrite !N.compare_lt_iff. lia. Qed.

Lemma String_compare_trans s1 s2 s3 :
  String.compare s1 s2 = Lt → String.compare s2 s3 = Lt → String.compare s1 s3 = Lt.
Proof.
  revert s2 s3. induction s1 as [|c1 s1 IH]; intros [|c2 s2] [|c3 s3]; simpl; try done.
  destruct (Ascii.compare c1 c2) eqn:H12; try done;
    destruct (Ascii.compare c2 c3) eqn:H23; try done.
  - apply Ascii.compare_eq_iff in H12 as ->. apply Ascii.compare_eq_iff in H23 as ->.
    rewrite Ascii_compare_refl. apply IH.
  - apply Ascii.compare_eq_iff in H12 as ->. by rewrite H23.
  - apply Ascii.compare_eq_iff in H23 as <-. by rewrite H12.
  - by rewrite (Ascii_compare_trans _ _ _ H12 H23).
Qed.

(** One id comes no later than another in the order of the store. *)
Lemma compareString_le_trans a b c :
  (compareString a b ≤ 0)%Z → (compareString b c ≤ 0)%Z → (compareString a c ≤ 0)%Z.
Proof.
  unfold compareString.
  destruct (String.compare a b) eqn:Hab; try lia;
    destruct (String.compare b c) eqn:Hbc; try lia; intros _ _.
  - apply String.compare_eq_iff in Hab as ->. by rewrite Hbc.
  - apply String.compare_eq_iff in Hab as ->. by rewrite Hbc.
  - apply String.compare_eq_iff in Hbc as <-. by rewrite Hab.
  - by rewrite (String_compare_trans _ _ _ Hab Hbc).
Qed.

Lemma compareString_total a b :
  (0 <? compareString a b)%Z = true → (compareString b a ≤ 0)%Z.
Proof.
  unfold compareString. rewrite (String.compare_antisym a b).
  destruct (String.compare b a); simpl; lia.
Qed.

Section sorted.
Context {A : Type} (cmp : A → A → Z) (R : relation A).
Hypothesis R_trans : Transitive R.
Hypothesis after : ∀ x y, (0 <? cmp x y)%Z = true → R y x.
Hypothesis stays : ∀ x y, (0 <? cmp x y)%Z = false → R x y.

Lemma insertSorted_StronglySorted x l :
  StronglySorted R l → StronglySorted R (insertSorted cmp x l).
Proof.
  induction 1 as [|y l Hl IH Hy]; simpl; [by repeat constructor|].
  destruct (0 <? cmp x y)%Z eqn:Hxy.
  - constructor; [done|].
    apply Forall_forall. intros z Hz.
    rewrite insertSorted_Permutation in Hz.
    apply elem_of_cons in Hz as [->|Hz]; [by apply after|].
    by eapply Forall_forall in Hy.
  - constructor; [by constructor|].
    constructor; [by apply stays|].
    eapply Forall_impl; [exact Hy|]. intros z Hz. trans y; [by apply stays|done].
Qed.

Lemma arraySort_StronglySorted l : StronglySorted R (arraySort cmp l).
Proof.
  induction l as [|x l IH]; simpl; [constructor|].
  by apply insertSorted_StronglySorted.
Qed.
End sorted.

Lemma StronglySorted_List_filter {A} (R : relation A) (f : A → bool) l :
  StronglySorted R l → StronglySorted R (List.filter f l).
Proof.
  induction 1 as [|x l Hl IH Hx]; simpl; [constructor|].
  destruct (f x); [|done]. constructor; [done|].
  apply Forall_forall. intros y [Hy _]%elem_of_List_filter.
  by eapply Forall_forall in Hx.
Qed.

(** A listing comes by ascending id. *)
Lemma listing_StronglySorted {D} (m : gmap string D) :
  StronglySorted (λ a b, (compareString a.1 b.1 ≤ 0)%Z) (listing m).
Proof.
  apply arraySort_StronglySorted.
  - intros a b c. apply compareString_le_trans.
  - intros a b. apply compareString_total.
  - intros a b. lia.
Qed.

(** The first document of a filtered listing has the least id among the
    documents that pass the filter. *)
Lemma first_of_listing {D} (m : gmap string D) (f : string * D → bool) p rest :
  List.filter f (listing m) = p :: rest →
  m !! p.1 = Some p.2 ∧ f p = true ∧
  ∀ i d, m !! i = Some d → f (i, d) = true → (compareString p.1 i ≤ 0)%Z.
Proof.
  intros Hq.
  assert (p ∈ List.filter f (listing m)) as [Hp Hf]%elem_of_List_filter
    by (rewrite Hq; left).
  destruct p as [j dj]. apply elem_of_listing in Hp. split_and!; try done.
  intros i d Hi Hfi.
  assert ((i, d) ∈ List.filter f (listing m)) as Hin.
  { apply elem_of_List_filter. split; [by apply elem_of_listing|done]. }
  pose proof (StronglySorted_List_filter _ f _ (listing_StronglySorted m)) as Hs.
  rewrite Hq in Hs, Hin. apply StronglySorted_inv in Hs as [_ Hall].
  apply elem_of_cons in Hin as [[= -> ->]|Hin].
  - simpl. rewrite compareString_refl. lia.
  - rewrite Forall_forall in Hall. apply (Hall (i, d) Hin).
Qed.

(** *** The admin of a new conversation *)

Lemma List_filter_filter {A} (f g : A → bool) l :
  List.filter g (List.filter f l) = List.filter (λ x, f x && g x) l.
Proof.
  induction l as [|x l IH]; simpl; [done|].
  destruct (f x) eqn:Hf; simpl; [|done]. destruct (g x); by rewrite IH.
Qed.

(** The admin query of [getOrCreateConversation] finds the designated
    admin. *)
Lemma adminOf_designated w :
  designatedAdmin w
    (adminOf (whereEq User.email "crisdoraodxb@gmail.com"
                (whereEq User.role "admin" (listing (users (store w)))))).1.
Proof.
  unfold whereEq. rewrite List_filter_filter.
  set (f := λ p : string * User.doc,
         match User.role p.2 with Has x => (x =? "admin")%string | _ => false end &&
         match User.email p.2 with
         | Has x => (x =? "crisdoraodxb@gmail.com")%string
         | _ => false
         end).
  assert (∀ i u, f (i, u) = true ↔ adminAccount u) as Hf.
  { intros i u. unfold f, adminAccount. simpl. rewrite andb_true_iff.
    destruct (User.role u) as [| |r], (User.email u) as [| |m];
      try (by intuition).
    rewrite !String.eqb_eq. split; [by intros [-> ->]|by intros [[= ->] [= ->]]]. }
  destruct (List.filter f (listing (users (store w)))) as [|p rest] eqn:Hq; simpl.
  - left. split; [done|]. intros i u Hu Hadmin.
    assert ((i, u) ∈ List.filter f (listing (users (store w)))) as Hin
      by (apply elem_of_List_filter; split; [by apply elem_of_listing|by apply Hf]).
    rewrite Hq in Hin. by apply elem_of_nil in Hin.
  - right. destruct (first_of_listing _ _ _ _ Hq) as (Hp & Hfp & Hmin).
    destruct p as [a u]. apply Hf in Hfp.
    exists u. split_and!; try done.
    intros i u' Hu' Hadmin. apply (Hmin i u' Hu'). by apply Hf.
Qed.

(** *** Pairs *)

Lemma between_takesPart a b d :
  between a b d = true → takesPart a d = true ∧ takesPart b d = true.
Proof.
  unfold between, takesPart.
  destruct (Conv.participants d) as [| |[|x [|y [|z l]]]]; try done. simpl.
  rewrite !orb_false_r, !orb_true_iff, !andb_true_iff, !String.eqb_eq.
  intros [[-> ->]|[-> ->]]; auto.
Qed.

Lemma takesPart_between a b d u :
  between a b d = true → takesPart u d = true → u = a ∨ u = b.
Proof.
  unfold between, takesPart.
  destruct (Conv.participants d) as [| |[|x [|y [|z l]]]]; try done. simpl.
  rewrite !orb_false_r, !orb_true_iff, !andb_true_iff, !String.eqb_eq.
  intros [[-> ->]|[-> ->]] [->| ->]; auto.
Qed.

Lemma between_sym a b d : between a b d = between b a d.
Proof.
  unfold between.
  destruct (Conv.participants d) as [| |[|x [|y [|z l]]]]; try done.
  apply orb_comm.
Qed.

(** A new conversation is one of the pair admin, user. *)
Lemma conversationData_between userId userName userRole adminId adminName t :
  between adminId userId
    (conversationData userId userName userRole adminId adminName t) = true.
Proof.
  unfold between. destruct userRole; simpl; rewrite !String.eqb_refl; simpl; [|done].
  by rewrite orb_true_r.
Qed.

Lemma length_between_insert (m : gmap string Conv.doc) a b i d :
  m !! i = None →
  length (List.filter (λ p, between a b p.2) (listing (<[i := d]> m)))
  = (if between a b d then 1 else 0)
    + length (List.filter (λ p, between a b p.2) (listing m)).
Proof.
  intros Hi.
  rewrite (Permutation_length (List_filter_Permutation _ _ _ (listing_insert m i d Hi))).
  simpl. by destruct (between a b d).
Qed.

(** A user no conversation lists has no conversation with anyone. *)
Lemma none_between (m : gmap string Conv.doc) userId a b :
  whereContains Conv.participants userId (listing m) = [] →
  userId = a ∨ userId = b →
  List.filter (λ p, between a b p.2) (listing m) = [].
Proof.
  intros Hnone Hu.
  destruct (List.filter (λ p, between a b p.2) (listing m)) as [|p l] eqn:Hq; [done|].
  assert (p ∈ List.filter (λ p, between a b p.2) (listing m))
    as [Hp Hb]%elem_of_List_filter by (rewrite Hq; left).
  apply between_takesPart in Hb as [Ha Hb].
  assert (p ∈ whereContains Conv.participants userId (listing m)) as Hin.
  { unfold whereContains. apply elem_of_List_filter. split; [done|].
    by destruct Hu as [-> | ->]. }
  rewrite Hnone in Hin. by apply elem_of_nil in Hin.
Qed.

(** One call: either the first conversation that lists the user is
    returned and nothing written, or none lists the user and one is created
    with the admin the query finds. *)
Lemma getOrCreateConversation_outcome w userId userName userRole id w' :
  getOrCreateConversation userId userName userRole w = (Ok id, w') →
  (∃ d l, conversationsOf userId w = (id, d) :: l ∧
          conversations (store w') = conversations (store w)) ∨
  (conversationsOf userId w = [] ∧
   conversations (store w) !! id = None ∧
   ∃ adminName t,
     conversations (store w')
     = <[id := conversationData userId userName userRole
                 (adminOf (whereEq User.email "crisdoraodxb@gmail.com"
                             (whereEq User.role "admin"
                                (listing (users (store w)))))).1
                 adminName t]> (conversations (store w))).
Proof.
  destruct w as [st t now td sc].
  unfold getOrCreateConversation, conversationsOf. run_worlds.
  destruct (whereContains Conv.participants userId (listing (conversations st)))
    as [|[i d] l] eqn:Hq; simpl.
  - repeat first
      [ step
      | match goal with
        | |- context [adminOf ?s] => destruct (adminOf s) as [adminId adminName]
        end; simpl ].
    all: intros [= <- <-]; simpl; right.
    all: split; [done|]; split; [apply fresh_id_unused|].
    all: by eexists _, _.
  - repeat step.
    all: intros [= <- <-]; simpl; left.
    all: by exists d, l.
Qed.

(** C6, as the code has it. Two calls of [getOrCreateConversation] for the
    same user, one after the other, that both return, return the same
    conversation id, and the second call writes nothing. The conversation
    returned lists the user. Either it was the first one listing the user
    before the calls, and no conversation has been written; or none listed
    the user, and it is new: a conversation of the user and the designated
    admin, and the only one of that pair. Under the data model's invariant
    of at most one conversation per pair, the invariant holds afterwards
    too and the conversation returned is the one conversation of its pair;
    under the invariant of two participants per conversation, that one holds
    afterwards too and the pair is the user and one other party. *)
Theorem resolve_twice w userId userName userRole id1 w1 id2 w2 :
  getOrCreateConversation userId userName userRole w = (Ok id1, w1) →
  getOrCreateConversation userId userName userRole w1 = (Ok id2, w2) →
  id1 = id2 ∧
  conversations (store w2) = conversations (store w1) ∧
  length (conversationsOf userId w2)
  = Nat.max 1 (length (conversationsOf userId w)) ∧
  ∃ d,
    conversations (store w2) !! id1 = Some d ∧
    takesPart userId d = true ∧
    ((∃ l, conversationsOf userId w = (id1, d) :: l ∧
           conversations (store w2) = conversations (store w)) ∨
     (conversationsOf userId w = [] ∧
      conversations (store w) !! id1 = None ∧
      conversations (store w2) = <[id1 := d]> (conversations (store w)) ∧
      ∃ adminId,
        designatedAdmin w adminId ∧
        Conv.adminId d = Has adminId ∧
        Conv.affiliateId d = Has userId ∧
        between adminId userId d = true ∧
        length (conversationsBetween adminId userId w2) = 1)) ∧
    (onePerPair w →
     onePerPair w2 ∧
     ∀ a b, between a b d = true → length (conversationsBetween a b w2) = 1) ∧
    (twoParty w → twoParty w2 ∧ ∃ other, between other userId d = true).
Proof.
  intros H1 H2.
  assert (∀ a b d, conversations (store w2) !! id1 = Some d →
                   between a b d = true →
                   1 ≤ length (conversationsBetween a b w2)) as Hsome.
  { intros a b d Hd Hb.
    assert ((id1, d) ∈ conversationsBetween a b w2) as Hin.
    { unfold conversationsBetween. apply elem_of_List_filter.
      split; [by apply elem_of_listing|done]. }
    destruct (conversationsBetween a b w2); [by apply elem_of_nil in Hin|simpl; lia]. }
  destruct (getOrCreateConversation_outcome _ _ _ _ _ _ H1)
    as [(d & l & Hq & Hc1)|(Hq & Hfresh & adminName & t & Hc1)].
  - (* the conversation was there *)
    assert (conversationsOf userId w1 = (id1, d) :: l) as Hq1
      by (unfold conversationsOf in *; by rewrite Hc1).
    destruct (getOrCreateConversation_outcome _ _ _ _ _ _ H2)
      as [(d2 & l2 & Hq2 & Hc2)|(Hq2 & _)]; [|by rewrite Hq2 in Hq1].
    rewrite Hq1 in Hq2. injection Hq2 as <- <- <-.
    assert ((id1, d) ∈ conversationsOf userId w) as Hin by (rewrite Hq; left).
    unfold conversationsOf, whereContains in Hin.
    apply elem_of_List_filter in Hin as [Hd Hp]. apply elem_of_listing in Hd.
    assert (conversations (store w2) = conversations (store w)) as Hc
      by (by rewrite Hc2).
    split_and!; try done.
    { unfold conversationsOf. rewrite Hc. fold (conversationsOf userId w).
      rewrite Hq. simpl. lia. }
    exists d. split_and!.
    + by rewrite Hc.
    + done.
    + left. by exists l.
    + intros Hone.
      assert (onePerPair w2) as Hone2.
      { intros a b. unfold conversationsBetween. rewrite Hc. apply Hone. }
      split; [done|]. intros a b Hb.
      pose proof (Hone2 a b). pose proof (Hsome a b d) as Hge.
      rewrite Hc in Hge. specialize (Hge Hd Hb). lia.
    + intros Htwo. split; [intros i di; rewrite Hc; apply Htwo|].
      destruct (Htwo id1 d Hd) as (a & b & Hb).
      destruct (takesPart_between a b d userId Hb Hp) as [-> | ->].
      * exists b. by rewrite between_sym.
      * by exists a.
  - (* it is created by the first call *)
    set (adminId := (adminOf (whereEq User.email "crisdoraodxb@gmail.com"
                                (whereEq User.role "admin"
                                   (listing (users (store w)))))).1) in *.
    set (d := conversationData userId userName userRole adminId adminName t) in *.
    assert (conversationsOf userId w1 = [(id1, d)]) as Hq1.
    { unfold conversationsOf. rewrite Hc1.
      apply whereContains_insert; [done|done|apply conversationData_contains]. }
    destruct (getOrCreateConversation_outcome _ _ _ _ _ _ H2)
      as [(d2 & l2 & Hq2 & Hc2)|(Hq2 & _)]; [|by rewrite Hq2 in Hq1].
    rewrite Hq1 in Hq2. injection Hq2 as <- <- <-.
    assert (conversations (store w2) = <[id1 := d]> (conversations (store w)))
      as Hc by (by rewrite Hc2).
    assert (∀ a b, between a b d = true →
                   length (conversationsBetween a b w2) = 1) as Hpair.
    { intros a b Hb. unfold conversationsBetween. rewrite Hc.
      rewrite length_between_insert by done. rewrite Hb.
      rewrite (none_between _ userId); [done|done|].
      apply (takesPart_between a b d); [done|].
      unfold takesPart. apply conversationData_contains. }
    split_and!; try done.
    { unfold conversationsOf at 1. rewrite Hc2. fold (conversationsOf userId w1).
      by rewrite Hq1, Hq. }
    exists d. split_and!.
    + by rewrite Hc, lookup_insert_eq.
    + unfold takesPart. apply conversationData_contains.
    + right. split_and!; try done.
      exists adminId. split_and!.
      * apply adminOf_designated.
      * done.
      * by destruct userRole.
      * apply conversationData_between.
      * apply Hpair, conversationData_between.
    + intros Hone. split; [|done].
      intros a b. unfold conversationsBetween. rewrite Hc.
      rewrite length_between_insert by done.
      destruct (between a b d) eqn:Hb.
      * rewrite (none_between _ userId); [done|done|].
        apply (takesPart_between a b d); [done|].
        unfold takesPart. apply conversationData_contains.
      * apply Hone.
    + intros Htwo. split; [|exists adminId; apply conversationData_between].
      intros i di. rewrite Hc. destruct (decide (i = id1)) as [->|Hne].
      * rewrite lookup_insert_eq. intros [= <-].
        exists adminId, userId. apply conversationData_between.
      * rewrite lookup_insert_ne by done. apply Htwo.
Qed.

(** The world of Alice's conversation meets the data model. *)
Lemma chat_dataModel : onePerPair chat ∧ twoParty chat.
Proof.
  split.
  - intros a b. unfold conversationsBetween.
    etrans; [apply List.filter_length_le|].
    by vm_compute.
  - intros i d. unfold chat. simpl.
    intros [<- <-]%lookup_singleton_Some. by exists "admin1", "alice".
Qed.

Lemma resolve_twice_witness :
  let first := getOrCreateConversation "bob" "Bob" affiliate chat in
  let second := getOrCreateConversation "bob" "Bob" affiliate first.2 in
  first.1 = Ok "0" ∧ second.1 = Ok "0" ∧
  conversations (store second.2) = conversations (store first.2) ∧
  length (conversationsOf "bob" second.2) = 1 ∧
  length (conversationsBetween "admin_fallback" "bob" second.2) = 1 ∧
  onePerPair second.2 ∧ twoParty second.2.
Proof.
  intros first second.
  assert (getOrCreateConversation "bob" "Bob" affiliate chat = (Ok "0", first.2))
    as H1 by (vm_compute; reflexivity).
  assert (getOrCreateConversation "bob" "Bob" affiliate first.2 = (Ok "0", second.2))
    as H2 by (vm_compute; reflexivity).
  destruct (resolve_twice chat "bob" "Bob" affiliate "0" first.2 "0" second.2 H1 H2)
    as (_ & Hsame & Hcount & d & Hd & _ & Hcase & Hone & Htwo).
  destruct chat_dataModel as [Hone0 Htwo0].
  split_and!; [by vm_compute|by vm_compute|exact Hsame|exact Hcount| |
               apply (Hone Hone0)|apply (Htwo Htwo0)].
  destruct Hcase as [(l & Hq & _)|(_ & _ & _ & adminId & _ & Hadmin & _ & _ & Hpair)];
    [by vm_compute in Hq|].
  assert (adminId = "admin_fallback") as <-; [|exact Hpair].
  assert (Conv.adminId <$> conversations (store second.2) !! "0"
          = Some (Has "admin_fallback")) as Hstored by (vm_compute; reflexivity).
  rewrite Hd in Hstored. simpl in Hstored. rewrite Hadmin in Hstored.
  by injection Hstored.
Defined.

(** Before Bob's first call the office has one conversation, Alice's; after
    his two calls it has two, one for each pair. *)
Example resolve_for_bob :
  let first := getOrCreateConversation "bob" "Bob" affiliate chat in
  let second := getOrCreateConversation "bob" "Bob" affiliate first.2 in
  map (λ p, (p.1, Conv.participants p.2)) (listing (conversations (store second.2)))
  = [("0", Has ["admin_fallback"; "bob"]); ("c1", Has ["admin1"; "alice"])].
Proof. vm_compute. reflexivity. Qed.

(** ** The message log *)

Lemma prefix16_all n p s : unitsFrom p s ≤ n → prefix16 n p s = s.
Proof.
  revert n p. induction s as [|c s IH]; intros n [|p]; simpl; try done.
  - intros Hn. assert ((codeUnits c <=? n) = true) as -> by (apply Nat.leb_le; lia).
    f_equal. apply IH. lia.
  - intros Hn. f_equal. by apply IH.
Qed.

(** A string of at most [n] code units is its own prefix. *)
Lemma substring0_short (s : string) (n : nat) :
  jsLength s ≤ n → substring0 n s = s.
Proof. apply prefix16_all. Qed.

(** On ASCII, code units are bytes. *)
Lemma substring0_ascii (s : string) (n : nat) :
  Forall (λ c, nat_of_ascii c < 128) (String.list_ascii_of_string s) →
  substring0 n s = String.substring 0 n s.
Proof.
  unfold substring0. revert n. induction s as [|c s IH]; intros n Hs; simpl.
  - by destruct n.
  - apply Forall_cons in Hs as [Hc Hs].
    assert (codeUnits c = 1) as Hw.
    { unfold codeUnits. destruct (240 <=? nat_of_ascii c) eqn:H; [|done].
      apply Nat.leb_le in H. lia. }
    assert (trailing c = 0) as Ht.
    { unfold trailing. assert ((nat_of_ascii c <? 192) = true) as ->; [|done].
      apply Nat.ltb_lt. lia. }
    rewrite Hw, Ht. destruct n as [|n]; simpl; [done|].
    rewrite Nat.sub_0_r. f_equal. by apply IH.
Qed.

(** Sixty accented letters are sixty code units on 120 bytes, and a preview
    of 100 code units keeps them all. A preview can end on half a pair: of a
    character of two units that follows 99 letters it keeps the first. *)
Example preview_of_accents :
  let e := String "195" (String "169" EmptyString) in
  let text := String.concat "" (replicate 60 e) in
  String.length text = 120 ∧ jsLength text = 60 ∧ substring0 100 text = text.
Proof. vm_compute. split_and!; reflexivity. Qed.

Example preview_cuts_a_pair :
  let grin := String "240" (String "159" (String "152" (String "128" EmptyString))) in
  let text := String.concat "" (replicate 99 "a") +:+ grin in
  jsLength text = 101 ∧
  substring0 100 text
  = String.concat "" (replicate 99 "a")
    +:+ String "237" (String "160" (String "189" EmptyString)).
Proof. vm_compute. split; reflexivity. Qed.

Lemma updateConversationLastMessage_run conversationId lastMessage w :
  ∃ w', updateConversationLastMessage conversationId lastMessage w = (Ok tt, w').
Proof.
  destruct w as [st t now td sc]. unfold updateConversationLastMessage.
  run_worlds. destruct sc as [|[e|] sc]; simpl; try by eexists.
  all: destruct (conversations st !! conversationId); by eexists.
Qed.

(** The update of the conversation never throws, whatever the store
    answers. *)
Lemma updateConversationLastMessage_returns conversationId lastMessage w :
  (updateConversationLastMessage conversationId lastMessage w).1 = Ok tt.
Proof.
  destruct w as [st t now td sc]. unfold updateConversationLastMessage.
  run_worlds. destruct sc as [|[e|] sc]; simpl; try done.
  all: by destruct (conversations st !! conversationId).
Qed.

(** [sendMessage] is [storeMessage] followed by the update of the
    conversation, whose outcome it does not look at. *)
Lemma sendMessage_storeMessage w senderId senderName senderRole content
    conversationId replyTo priority :
  sendMessage senderId senderName senderRole content conversationId replyTo
    priority w
  = match storeMessage senderId senderName senderRole content conversationId
            replyTo priority w with
    | (Ok (cid, messageId), w1) =>
        (Ok messageId, (updateConversationLastMessage cid content w1).2)
    | (Throw e, w1) => (Throw (wrapped "Failed to send message" e), w1)
    end.
Proof.
  assert (∀ (resolve : M string),
    rethrowAs "Failed to send message"
      (let* finalConversationId := resolve in
       let* docRef :=
         addDoc affiliateMessagesC
           (messageData senderId senderName senderRole content finalConversationId
              replyTo priority) in
       updateConversationLastMessage finalConversationId content ;;
       ret docRef) w
    = match (let* finalConversationId := resolve in
             let* docRef :=
               addDoc affiliateMessagesC
                 (messageData senderId senderName senderRole content
                    finalConversationId replyTo priority) in
             ret (finalConversationId, docRef)) w with
      | (Ok (cid, messageId), w1) =>
          (Ok messageId, (updateConversationLastMessage cid content w1).2)
      | (Throw e, w1) => (Throw (wrapped "Failed to send message" e), w1)
      end) as Hany; [|apply Hany].
  intros resolve. unfold rethrowAs, tryCatch, bind, ret, throw.
  destruct (resolve w) as [[cid|e] w0]; [|done].
  destruct (addDoc affiliateMessagesC _ w0) as [[messageId|e] w1]; [|done].
  by destruct (updateConversationLastMessage_run cid content w1) as [w' ->].
Qed.

(** What [storeMessage] leaves behind when it returns. *)
Lemma storeMessage_stores w senderId senderName senderRole content conversationId
    replyTo priority cid messageId w1 :
  storeMessage senderId senderName senderRole content conversationId replyTo
    priority w = (Ok (cid, messageId), w1) →
  ∃ m, affiliateMessages (store w) !! messageId = None ∧
       affiliateMessages (store w1) = <[messageId := m]> (affiliateMessages (store w)) ∧
       Msg.conversationId m = Has cid ∧
       Msg.content m = Has content ∧
       Msg.senderId m = Has senderId ∧
       Msg.timestamp m = Has (serverTime w1) ∧
       (serverTime w < serverTime w1)%Z ∧
       (∀ c, given conversationId = Some c → cid = c) ∧
       (given conversationId = None → is_Some (conversations (store w1) !! cid)) ∧
       (∀ j d, conversations (store w) !! j = Some d →
               conversations (store w1) !! j = Some d).
Proof.
  destruct w as [st t now td sc].
  unfold storeMessage, getOrCreateConversation. run_worlds.
  destruct (given conversationId) as [c|] eqn:Hg; simpl.
  - repeat step.
    all: intros [= <- <- <-]; simpl.
    all: eexists; split; [apply fresh_id_unused|].
    all: split; [reflexivity|]; simpl.
    all: split_and!; try done; try lia.
    all: by intros ? [= ->].
  - destruct (whereContains Conv.participants senderId (listing (conversations st)))
      as [|[i d] l] eqn:Hq; simpl.
    + repeat first
        [ step
        | match goal with
          | |- context [adminOf ?s] => destruct (adminOf s) as [adminId adminName]
          end; simpl ].
      all: intros [= <- <- <-]; simpl.
      all: eexists; split; [apply fresh_id_unused|].
      all: split; [reflexivity|]; simpl.
      all: split_and!; try done; try lia.
      all: try (intros _; rewrite lookup_insert_eq; by eexists).
      all: intros j d Hj; rewrite lookup_insert_ne; [done|].
      all: intros <-; by rewrite fresh_id_unused in Hj.
    + assert (conversations st !! i = Some d) as Hi.
      { apply elem_of_listing.
        assert ((i, d) ∈ whereContains Conv.participants senderId
                  (listing (conversations st))) as Hin by (rewrite Hq; left).
        unfold whereContains in Hin. by apply elem_of_List_filter in Hin as [? _]. }
      repeat step.
      all: intros [= <- <- <-]; simpl.
      all: eexists; split; [apply fresh_id_unused|].
      all: split; [reflexivity|]; simpl.
      all: split_and!; try done; try lia.
      all: intros _; by eexists.
Qed.

(** The update of the conversation, by what the store answers to it. *)
Lemma updateConversationLastMessage_effect cid content w :
  let w' := (updateConversationLastMessage cid content w).2 in
  affiliateMessages (store w') = affiliateMessages (store w) ∧
  (∀ j, j ≠ cid → conversations (store w') !! j = conversations (store w) !! j) ∧
  (∀ e, answer w = Some e → store w' = store w) ∧
  (conversations (store w) !! cid = None → store w' = store w) ∧
  (answer w = None → ∀ d, conversations (store w) !! cid = Some d →
     conversations (store w') !! cid
     = Some (mergeLastMessage content (serverTime w + 1)%Z d)).
Proof.
  destruct w as [st t now td sc]. unfold updateConversationLastMessage.
  run_worlds.
  destruct sc as [|[e|] sc]; simpl.
  all: destruct (conversations st !! cid) as [d|] eqn:Hd; simpl.
  all: split_and!; try done.
  all: try (intros j Hj; by rewrite lookup_insert_ne).
  all: intros _ d' [= <-]; by rewrite lookup_insert_eq.
Qed.

(** C7, as the code has it. A message append returns exactly when the
    conversation is resolved and the message stored, whatever becomes of the
    follow-up update of the conversation. When the store serves that update
    and the conversation exists, its [lastMessage] afterwards is the first
    100 code units of the content (the content itself when it has no more
    than 100) and its [lastMessageTime] is the time of the update, later than
    the server time before the append. When the store rejects the update, or
    there is no such conversation, the append returns the message id all the
    same and every conversation is as it was before the update. *)
Theorem append_updates_conversation w senderId senderName senderRole content
    conversationId replyTo priority :
  match storeMessage senderId senderName senderRole content conversationId
          replyTo priority w with
  | (Throw e, w1) =>
      sendMessage senderId senderName senderRole content conversationId replyTo
        priority w = (Throw (wrapped "Failed to send message" e), w1)
  | (Ok (cid, messageId), w1) =>
      ∃ w' m,
        sendMessage senderId senderName senderRole content conversationId replyTo
          priority w = (Ok messageId, w') ∧
        affiliateMessages (store w') !! messageId = Some m ∧
        Msg.conversationId m = Has cid ∧
        Msg.content m = Has content ∧
        (∀ c, given conversationId = Some c → cid = c) ∧
        (given conversationId = None → is_Some (conversations (store w1) !! cid)) ∧
        (serverTime w < serverTime w1)%Z ∧
        (answer w1 = None → ∀ d, conversations (store w1) !! cid = Some d →
           ∃ d', conversations (store w') !! cid = Some d' ∧
                 Conv.lastMessage d' = Has (substring0 100 content) ∧
                 (jsLength content ≤ 100 → Conv.lastMessage d' = Has content) ∧
                 Conv.lastMessageTime d' = Has (serverTime w1 + 1)%Z ∧
                 Conv.participants d' = Conv.participants d ∧
                 ∀ t, Conv.lastMessageTime d = Has t → (t ≤ serverTime w1)%Z →
                      (t < serverTime w1 + 1)%Z) ∧
        ((∃ e, answer w1 = Some e) ∨ conversations (store w1) !! cid = None →
         conversations (store w') = conversations (store w1))
  end.
Proof.
  rewrite sendMessage_storeMessage.
  destruct (storeMessage _ _ _ _ _ _ _ w) as [[[cid messageId]|e] w1] eqn:Hstore;
    [|done].
  destruct (storeMessage_stores _ _ _ _ _ _ _ _ _ _ _ Hstore)
    as (m & Hfresh & Hms & Hcid & Hcontent & _ & _ & Ht & Hgiven & Hres & _).
  destruct (updateConversationLastMessage_effect cid content w1)
    as (Hmsgs & _ & Hrej & Hnone & Hserved).
  eexists _, m. split; [reflexivity|].
  split; [by rewrite Hmsgs, Hms, lookup_insert_eq|].
  split_and!; try done.
  - intros Ha d Hd. eexists. split; [by apply Hserved|]. simpl.
    split_and!; try done.
    + intros Hlen. by rewrite substring0_short.
    + intros; lia.
  - intros [[e He]|Hmissing].
    + by rewrite (Hrej e He).
    + by rewrite (Hnone Hmissing).
Qed.

(** In Alice's conversation, with the store serving every request. *)
Lemma append_updates_conversation_witness :
  let w' := (sendMessage "alice" "Alice" affiliate "See you at noon" (Some "c1")
               None medium chat).2 in
  ∃ m d',
    sendMessage "alice" "Alice" affiliate "See you at noon" (Some "c1") None
      medium chat = (Ok "0", w') ∧
    affiliateMessages (store w') !! "0" = Some m ∧
    Msg.conversationId m = Has "c1" ∧
    conversations (store w') !! "c1" = Some d' ∧
    Conv.lastMessage d' = Has "See you at noon" ∧
    Conv.lastMessageTime d' = Has 4%Z.
Proof.
  intros w'.
  pose proof (append_updates_conversation chat "alice" "Alice" affiliate
                "See you at noon" (Some "c1") None medium) as H.
  destruct (storeMessage "alice" "Alice" affiliate "See you at noon" (Some "c1")
              None medium chat) as [[[cid messageId]|e] w1] eqn:Hstore;
    [|by vm_compute in Hstore].
  assert (cid = "c1" ∧ messageId = "0" ∧ serverTime w1 = 3%Z ∧ answer w1 = None ∧
          ∃ d, conversations (store w1) !! "c1" = Some d)
    as (-> & -> & Ht & Ha & d & Hd).
  { vm_compute in Hstore. injection Hstore as <- <- <-.
    split_and!; try reflexivity. by eexists. }
  destruct H as (w2 & m & Hrun & Hm & Hcid & _ & _ & _ & _ & Hserved & _).
  destruct (Hserved Ha d Hd) as (d' & Hd' & _ & Hlast & Htime & _).
  assert (w2 = w') as -> by (unfold w'; by rewrite Hrun).
  exists m, d'. split_and!; try done.
  - by apply Hlast; vm_compute; lia.
  - by rewrite Htime, Ht.
Defined.

(** The conversation after the message: preview and time have changed. *)
Example append_to_chat :
  let w' := (sendMessage "alice" "Alice" affiliate "See you at noon" (Some "c1")
               None medium chat).2 in
  (λ d, (Conv.lastMessage d, Conv.lastMessageTime d)) <$> conversations (store w') !! "c1"
  = Some (Has "See you at noon", Has 4%Z).
Proof. vm_compute. reflexivity. Qed.

(** C7 as stated fails: when the store accepts the message and rejects the
    update of the conversation, [sendMessage] still returns the id of the
    message, and the conversation keeps its old preview and time. *)
Lemma append_without_projection :
  let run := sendMessage "alice" "Alice" affiliate "See you at noon" (Some "c1")
               None medium (scripted [None; Some unavailable] chat) in
  run.1 = Ok "0" ∧
  Msg.content <$> affiliateMessages (store run.2) !! "0" = Some (Has "See you at noon") ∧
  (λ d, (Conv.lastMessage d, Conv.lastMessageTime d)) <$> conversations (store run.2) !! "c1"
  = Some (Has "hello", Has 2%Z).
Proof. vm_compute. split_and!; reflexivity. Qed.

(** ** The fallback of the ordered transaction query *)

Section sort_facts.
Context {A B : Type}.

(** Sorting the images is sorting by the comparator on the images. *)
Lemma insertSorted_map (f : A → B) (cmp : B → B → Z) x l :
  insertSorted cmp (f x) (map f l) = map f (insertSorted (λ a b, cmp (f a) (f b)) x l).
Proof.
  induction l as [|y l IH]; simpl; [done|].
  destruct (0 <? cmp (f x) (f y))%Z; simpl; [by rewrite IH|done].
Qed.

Lemma arraySort_map (f : A → B) (cmp : B → B → Z) l :
  arraySort cmp (map f l) = map f (arraySort (λ a b, cmp (f a) (f b)) l).
Proof.
  induction l as [|x l IH]; simpl; [done|].
  by rewrite IH, insertSorted_map.
Qed.

(** A sort only looks at the sign of the comparator, on the elements of the
    list. *)
Lemma insertSorted_ext (c1 c2 : A → A → Z) x l :
  (∀ y, y ∈ l → (0 <? c1 x y)%Z = (0 <? c2 x y)%Z) →
  insertSorted c1 x l = insertSorted c2 x l.
Proof.
  induction l as [|y l IH]; simpl; intros Hc; [done|].
  rewrite (Hc y) by left.
  destruct (0 <? c2 x y)%Z; [|done].
  f_equal. apply IH. intros z Hz. apply Hc. by right.
Qed.

Lemma arraySort_ext (c1 c2 : A → A → Z) l :
  (∀ x y, x ∈ l → y ∈ l → (0 <? c1 x y)%Z = (0 <? c2 x y)%Z) →
  arraySort c1 l = arraySort c2 l.
Proof.
  induction l as [|x l IH]; simpl; intros Hc; [done|].
  rewrite IH by (intros y z Hy Hz; apply Hc; by right).
  apply insertSorted_ext. intros y Hy%elem_of_arraySort.
  apply Hc; [left|by right].
Qed.

Lemma List_filter_all (f : A → bool) l :
  Forall (λ x, f x = true) l → List.filter f l = l.
Proof. induction 1 as [|x l Hx _ IH]; simpl; [done|]. by rewrite Hx, IH. Qed.
End sort_facts.

Lemma compareString_pos a b : (0 <? compareString a b)%Z = String.ltb b a.
Proof.
  unfold compareString, String.ltb. rewrite (String.compare_antisym a b).
  by destruct (String.compare b a).
Qed.

Lemma compareString_zero a b : compareString a b = 0%Z → a = b.
Proof.
  unfold compareString. destruct (String.compare a b) eqn:Hc; try done.
  intros _. by apply String.compare_eq_iff.
Qed.

Lemma storedDate_date today now p s :
  storedDate p.2 = Some s →
  Tx.date p.2 = Has s ∧ Transaction.date (processTransactionDoc today now p) = s.
Proof.
  unfold storedDate, processTransactionDoc. simpl.
  destruct (Tx.date p.2) as [| |s']; try done. simpl.
  destruct (truthy s') eqn:Ht; [|done]. by intros [= ->].
Qed.

Lemma storedDates_inj (l : Snapshot Tx.doc) p q s :
  NoDup (storedDates l) → p ∈ l → q ∈ l →
  storedDate p.2 = Some s → storedDate q.2 = Some s → p = q.
Proof.
  unfold storedDates.
  induction l as [|x l IH]; simpl; intros Hnd Hp Hq Hsp Hsq; [by inversion Hp|].
  assert (∀ r, r ∈ l → storedDate r.2 = Some s → s ∈ omap (λ p, storedDate p.2) l) as Hin.
  { intros r Hr Hs. apply list_elem_of_omap. by exists r. }
  apply elem_of_cons in Hp as [->|Hp]; apply elem_of_cons in Hq as [->|Hq]; try done.
  - rewrite Hsp in Hnd. apply NoDup_cons in Hnd as [Hn _]. destruct Hn. by eapply Hin.
  - rewrite Hsq in Hnd. apply NoDup_cons in Hnd as [Hn _]. destruct Hn. by eapply Hin.
  - destruct (storedDate x.2); [apply NoDup_cons in Hnd as [_ Hnd]|]; by apply IH.
Qed.

(** On documents with pairwise distinct dates whose string order is their
    time order, the comparator of the in-memory sort and the order of the
    index make the same decisions. *)
Lemma comparators_agree getTime today now (l : Snapshot Tx.doc) p q :
  Forall (λ p, is_Some (storedDate p.2)) l →
  NoDup (storedDates l) →
  (∀ s1 s2, s1 ∈ storedDates l → s2 ∈ storedDates l → timeOrdered getTime s1 s2) →
  p ∈ l → q ∈ l →
  (0 <? byDateDesc getTime Transaction.date
          (processTransactionDoc today now p) (processTransactionDoc today now q))%Z
  = (0 <? descending Tx.date p q)%Z.
Proof.
  intros Hall Hnd Hord Hp Hq.
  rewrite Forall_forall in Hall.
  destruct (Hall p Hp) as [sp Hsp]. destruct (Hall q Hq) as [sq Hsq].
  destruct (storedDate_date today now p sp Hsp) as [Hdp Hrp].
  destruct (storedDate_date today now q sq Hsq) as [Hdq Hrq].
  assert (sp ∈ storedDates l) as Hip by (apply list_elem_of_omap; by exists p).
  assert (sq ∈ storedDates l) as Hiq by (apply list_elem_of_omap; by exists q).
  destruct (Hord sp sq Hip Hiq) as (tp & tq & Htp & Htq & Hlt).
  unfold byDateDesc, descending. rewrite Hrp, Hrq, Htp, Htq, Hdp, Hdq. simpl.
  clear Hrp Hrq.
  destruct (compareString sq sp =? 0)%Z eqn:Hz.
  - apply Z.eqb_eq, compareString_zero in Hz. subst sq.
    rewrite (storedDates_inj l p q sp Hnd Hp Hq Hsp Hsq).
    rewrite compareString_refl. rewrite Htp in Htq. injection Htq as ->.
    by rewrite Z.sub_diag.
  - rewrite compareString_pos.
    destruct (String.ltb sp sq) eqn:Hs.
    + apply Z.ltb_lt. destruct Hlt as [Hlt _]. specialize (Hlt eq_refl). lia.
    + apply Z.ltb_ge. destruct Hlt as [_ Hlt].
      destruct (decide (tp < tq)%Z) as [Hl|Hl]; [|lia].
      apply Hlt in Hl. congruence.
Qed.

(** What the two paths of [getTransactions] return. *)
Lemma getTransactions_indexed getTime investorId w :
  (getTransactions getTime investorId (scripted [] w)).1
  = Ok (processTransactionDocs (today w) (clientNow w)
          (orderByDesc Tx.date (matching investorId w))).
Proof.
  destruct w as [st t now td sc]. unfold getTransactions, matching. run_worlds.
  by destruct (given investorId).
Qed.

Lemma getTransactions_fallback getTime investorId w e :
  isIndexError e = true →
  (getTransactions getTime investorId (scripted [Some e] w)).1
  = Ok (arraySort (byDateDesc getTime Transaction.date)
          (processTransactionDocs (today w) (clientNow w) (matching investorId w))).
Proof.
  intros He. destruct w as [st t now td sc]. unfold getTransactions, matching.
  run_worlds. destruct (given investorId); simpl; by rewrite ?He.
Qed.

(** Documents that all hold a date are all in the index. *)
Lemma orderByDesc_dated (l : Snapshot Tx.doc) :
  Forall (λ p, is_Some (storedDate p.2)) l →
  orderByDesc Tx.date l = arraySort (descending Tx.date) l.
Proof.
  intros Hall. unfold orderByDesc. f_equal. apply List_filter_all.
  eapply Forall_impl; [exact Hall|].
  intros p [s Hs]. unfold storedDate in Hs. by destruct (Tx.date p.2).
Qed.

(** Sorted in memory or by the index, the rows are the same rows. *)
Lemma sorted_rows_Permutation getTime today now (l : Snapshot Tx.doc) :
  Forall (λ p, is_Some (storedDate p.2)) l →
  arraySort (byDateDesc getTime Transaction.date) (processTransactionDocs today now l)
  ≡ₚ processTransactionDocs today now (orderByDesc Tx.date l).
Proof.
  intros Hall. rewrite (orderByDesc_dated l Hall). unfold processTransactionDocs.
  by rewrite !arraySort_Permutation.
Qed.

(** They come in the same order when the dates are pairwise distinct and
    ordered as strings the way they are in time. *)
Lemma sorted_rows_agree getTime today now (l : Snapshot Tx.doc) :
  Forall (λ p, is_Some (storedDate p.2)) l →
  NoDup (storedDates l) →
  (∀ s1 s2, s1 ∈ storedDates l → s2 ∈ storedDates l → timeOrdered getTime s1 s2) →
  arraySort (byDateDesc getTime Transaction.date) (processTransactionDocs today now l)
  = processTransactionDocs today now (orderByDesc Tx.date l).
Proof.
  intros Hall Hnd Hord. rewrite (orderByDesc_dated l Hall).
  unfold processTransactionDocs. rewrite arraySort_map. f_equal.
  apply arraySort_ext. intros p q Hp Hq. by eapply comparators_agree.
Qed.

(** C4, as the code has it: when the store rejects the ordered query for a
    missing index and serves the unordered one, and every document asked
    for holds a non-empty date, the fallback returns the rows of the
    indexed query, possibly in another order. It returns them in the same
    order when no two of the documents share a date and the dates, compared
    as strings, are ordered as the host's date parser orders them in time
    (as dates written YYYY-MM-DD are). *)
Theorem fallback_agrees_with_index getTime investorId w e :
  isIndexError e = true →
  Forall (λ p, is_Some (storedDate p.2)) (matching investorId w) →
  ∃ indexed fallback,
    (getTransactions getTime investorId (scripted [] w)).1 = Ok indexed ∧
    (getTransactions getTime investorId (scripted [Some e] w)).1 = Ok fallback ∧
    fallback ≡ₚ indexed ∧
    (NoDup (storedDates (matching investorId w)) →
     (∀ s1 s2, s1 ∈ storedDates (matching investorId w) →
               s2 ∈ storedDates (matching investorId w) →
               timeOrdered getTime s1 s2) →
     fallback = indexed).
Proof.
  intros He Hall. eexists _, _.
  split; [apply getTransactions_indexed|].
  split; [by apply getTransactions_fallback|].
  split; [by apply sorted_rows_Permutation|].
  intros Hnd Hord. by apply sorted_rows_agree.
Qed.

Lemma timeOrderedb_spec getTime (l : list string) :
  forallb (λ s1, forallb (timeOrderedb getTime s1) l) l = true →
  ∀ s1 s2, s1 ∈ l → s2 ∈ l → timeOrdered getTime s1 s2.
Proof.
  intros Hall s1 s2 H1%list_elem_of_In H2%list_elem_of_In.
  rewrite forallb_forall in Hall. specialize (Hall s1 H1).
  rewrite forallb_forall in Hall. specialize (Hall s2 H2).
  unfold timeOrderedb in Hall. unfold timeOrdered.
  destruct (getTime s1) as [t1|]; [|done]. destruct (getTime s2) as [t2|]; [|done].
  exists t1, t2. split_and!; try done.
  apply Bool.eqb_prop in Hall. rewrite Hall. apply Z.ltb_lt.
Qed.

Lemma fallback_agrees_with_index_witness :
  (getTransactions isoGetTime (Some "alice") (scripted [Some missingIndex] history)).1
  = (getTransactions isoGetTime (Some "alice") (scripted [] history)).1.
Proof.
  destruct (fallback_agrees_with_index isoGetTime (Some "alice") history missingIndex)
    as (indexed & fallback & Hi & Hf & _ & Heq).
  - reflexivity.
  - apply (bool_decide_unpack _). vm_compute. exact I.
  - rewrite Hi, Hf. f_equal. apply Heq.
    + apply (bool_decide_unpack _). vm_compute. exact I.
    + apply timeOrderedb_spec. vm_compute. reflexivity.
Defined.

(** Dates 2024-01-01, 2024-03-01, 2024-02-01 fall back to the order
    03-01, 02-01, 01-01, with or without an investor filter. *)
Example fallback_of_history :
  shownTransactions isoGetTime (Some "alice") (scripted [Some missingIndex] history)
  = [("t2", "2024-03-01"); ("t3", "2024-02-01"); ("t1", "2024-01-01")] ∧
  shownTransactions isoGetTime None (scripted [Some unavailable] history)
  = [("t2", "2024-03-01"); ("t3", "2024-02-01"); ("t1", "2024-01-01")].
Proof. vm_compute. split; reflexivity. Qed.

(** C4 as stated fails: of two transactions of the same day the index
    returns the one with the greater id first, the fallback the one with
    the smaller id. *)
Lemma fallback_reverses_same_day :
  shownTransactions isoGetTime (Some "alice") (scripted [] sameDay)
  = [("1", "2024-03-01"); ("0", "2024-03-01")] ∧
  shownTransactions isoGetTime (Some "alice") (scripted [Some missingIndex] sameDay)
  = [("0", "2024-03-01"); ("1", "2024-03-01")].
Proof. vm_compute. split; reflexivity. Qed.

(** The two paths differ in content as well when a document has no date:
    it is not in the index, and the fallback reports it under the date of
    the day of the call. *)
Example fallback_adds_undated :
  shownTransactions isoGetTime (Some "alice") (scripted [] withUndated)
  = [("t2", "2024-03-01"); ("t3", "2024-02-01"); ("t1", "2024-01-01")] ∧
  shownTransactions isoGetTime (Some "alice") (scripted [Some missingIndex] withUndated)
  = [("t4", "2024-03-02"); ("t2", "2024-03-01"); ("t3", "2024-02-01");
     ("t1", "2024-01-01")].
Proof. vm_compute. split; reflexivity. Qed.

(** ** Dates written YYYY-MM-DD are ordered as strings the way they are in time *)

Section calendar.
Local Open Scope Z_scope.

Lemma month_cases m : 1 ≤ m ≤ 12 →
  m = 1 ∨ m = 2 ∨ m = 3 ∨ m = 4 ∨ m = 5 ∨ m = 6 ∨ m = 7 ∨ m = 8 ∨ m = 9 ∨
  m = 10 ∨ m = 11 ∨ m = 12.
Proof. lia. Qed.

(** A later day has a greater day number: by cases on the two months. *)
Lemma daysFromCivil_mono y1 m1 d1 y2 m2 d2 :
  validDate y1 m1 d1 → validDate y2 m2 d2 →
  before y1 m1 d1 y2 m2 d2 →
  daysFromCivil y1 m1 d1 < daysFromCivil y2 m2 d2.
Proof.
  intros (Hy1 & Hm1 & Hd1) (Hy2 & Hm2 & Hd2) Hlt. unfold before in Hlt.
  apply month_cases in Hm1, Hm2.
  unfold daysFromCivil, daysInMonth, isLeap in *.
  destruct Hm1 as [->|[->|[->|[->|[->|[->|[->|[->|[->|[->|[->| ->]]]]]]]]]]];
  destruct Hm2 as [->|[->|[->|[->|[->|[->|[->|[->|[->|[->|[->| ->]]]]]]]]]]];
  cbn -[Z.div Z.modulo Z.mul Z.add Z.sub] in *.
  all: try (exfalso; lia).
  all: repeat match goal with
       | H : context [if ?b then _ else _] |- _ => destruct b eqn:?
       end.
  all: rewrite ?Bool.orb_true_iff, ?Bool.orb_false_iff, ?Bool.andb_true_iff,
         ?Bool.andb_false_iff, ?Bool.negb_true_iff, ?Bool.negb_false_iff,
         ?Z.eqb_eq, ?Z.eqb_neq in *.
  all: Z.div_mod_to_equations; lia.
Qed.

Lemma digit_range c a : digit c = Some a → 0 ≤ a ≤ 9.
Proof.
  unfold digit. destruct (_ && _)%bool eqn:H; [|done].
  intros [= <-]. apply Bool.andb_true_iff in H as [H1 H2]. lia.
Qed.

(** Digit characters compare as the digits they write. *)
Lemma digit_compare c1 c2 a1 a2 :
  digit c1 = Some a1 → digit c2 = Some a2 →
  Ascii.compare c1 c2 = (a1 ?= a2).
Proof.
  unfold digit. destruct (_ && _)%bool; [|done]. destruct (_ && _)%bool; [|done].
  intros [= <-] [= <-]. unfold Ascii.compare, nat_of_ascii.
  rewrite !N_nat_Z, <- N2Z.inj_compare.
  destruct (Z.compare_spec (Z.of_N (N_of_ascii c1)) (Z.of_N (N_of_ascii c2)));
    destruct (Z.compare_spec (Z.of_N (N_of_ascii c1) - 48) (Z.of_N (N_of_ascii c2) - 48));
    try done; lia.
Qed.

(** The digits of a string the parser accepts, and the day it denotes. *)
Lemma isoGetTime_inv s t :
  isoGetTime s = Some t →
  ∃ y1 y2 y3 y4 m1 m2 d1 d2 a b c d e f g h,
    s = String y1 (String y2 (String y3 (String y4 (String "-"
          (String m1 (String m2 (String "-" (String d1 (String d2 EmptyString))))))))) ∧
    digit y1 = Some a ∧ digit y2 = Some b ∧ digit y3 = Some c ∧ digit y4 = Some d ∧
    digit m1 = Some e ∧ digit m2 = Some f ∧ digit d1 = Some g ∧ digit d2 = Some h ∧
    1 ≤ e * 10 + f ≤ 12 ∧
    1 ≤ g * 10 + h ≤ daysInMonth (a * 1000 + b * 100 + c * 10 + d) (e * 10 + f) ∧
    t = daysFromCivil (a * 1000 + b * 100 + c * 10 + d) (e * 10 + f) (g * 10 + h)
        * msPerDay.
Proof.
  unfold isoGetTime.
  destruct s as [|y1 [|y2 [|y3 [|y4 [|c1 [|m1 [|m2 [|c2 [|d1 [|d2 [|? ?]]]]]]]]]]];
    try done.
  destruct (digit y1) as [a|] eqn:?; [|done].
  destruct (digit y2) as [b|] eqn:?; [|done].
  destruct (digit y3) as [c|] eqn:?; [|done].
  destruct (digit y4) as [d|] eqn:?; [|done].
  destruct (digit m1) as [e|] eqn:?; [|done].
  destruct (digit m2) as [f|] eqn:?; [|done].
  destruct (digit d1) as [g|] eqn:?; [|done].
  destruct (digit d2) as [h|] eqn:?; [|done].
  cbv zeta. destruct (_ && _)%bool eqn:Hv; [|done]. intros [= <-].
  repeat (apply Bool.andb_true_iff in Hv as [Hv ?]).
  apply Ascii.eqb_eq in Hv as ->.
  match goal with H : Ascii.eqb c2 _ = true |- _ => apply Ascii.eqb_eq in H as -> end.
  exists y1, y2, y3, y4, m1, m2, d1, d2, a, b, c, d, e, f, g, h.
  repeat split; try done; lia.
Qed.

(** Two such strings compare, byte by byte, as the days they write. *)
Lemma iso_compare y1 y2 y3 y4 m1 m2 d1 d2 a b c d e f g h
    y1' y2' y3' y4' m1' m2' d1' d2' a' b' c' d' e' f' g' h' :
  digit y1 = Some a → digit y2 = Some b → digit y3 = Some c → digit y4 = Some d →
  digit m1 = Some e → digit m2 = Some f → digit d1 = Some g → digit d2 = Some h →
  digit y1' = Some a' → digit y2' = Some b' → digit y3' = Some c' →
  digit y4' = Some d' → digit m1' = Some e' → digit m2' = Some f' →
  digit d1' = Some g' → digit d2' = Some h' →
  String.ltb
    (String y1 (String y2 (String y3 (String y4 (String "-"
       (String m1 (String m2 (String "-" (String d1 (String d2 EmptyString))))))))))
    (String y1' (String y2' (String y3' (String y4' (String "-"
       (String m1' (String m2' (String "-" (String d1' (String d2' EmptyString))))))))))
  = true ↔
  before (a * 1000 + b * 100 + c * 10 + d) (e * 10 + f) (g * 10 + h)
         (a' * 1000 + b' * 100 + c' * 10 + d') (e' * 10 + f') (g' * 10 + h').
Proof.
  intros Ha Hb Hc Hd He Hf Hg Hh Ha' Hb' Hc' Hd' He' Hf' Hg' Hh'.
  unfold String.ltb. cbn [String.compare].
  rewrite (digit_compare _ _ _ _ Ha Ha'), (digit_compare _ _ _ _ Hb Hb'),
    (digit_compare _ _ _ _ Hc Hc'), (digit_compare _ _ _ _ Hd Hd'),
    (digit_compare _ _ _ _ He He'), (digit_compare _ _ _ _ Hf Hf'),
    (digit_compare _ _ _ _ Hg Hg'), (digit_compare _ _ _ _ Hh Hh').
  change (Ascii.compare "-" "-") with Eq. cbv iota.
  apply digit_range in Ha, Hb, Hc, Hd, He, Hf, Hg, Hh,
    Ha', Hb', Hc', Hd', He', Hf', Hg', Hh'.
  unfold before.
  destruct (Z.compare_spec a a'); [|split; [lia|done]|split; [done|lia]].
  destruct (Z.compare_spec b b'); [|split; [lia|done]|split; [done|lia]].
  destruct (Z.compare_spec c c'); [|split; [lia|done]|split; [done|lia]].
  destruct (Z.compare_spec d d'); [|split; [lia|done]|split; [done|lia]].
  destruct (Z.compare_spec e e'); [|split; [lia|done]|split; [done|lia]].
  destruct (Z.compare_spec f f'); [|split; [lia|done]|split; [done|lia]].
  destruct (Z.compare_spec g g'); [|split; [lia|done]|split; [done|lia]].
  destruct (Z.compare_spec h h'); [|split; [lia|done]|split; [done|lia]].
  split; [done|lia].
Qed.

(** Dates the parser accepts are ordered as strings the way they are
    ordered in time. *)
Lemma isoGetTime_timeOrdered s1 s2 :
  is_Some (isoGetTime s1) → is_Some (isoGetTime s2) →
  timeOrdered isoGetTime s1 s2.
Proof.
  intros [t1 H1] [t2 H2]. exists t1, t2. split; [done|]. split; [done|].
  apply isoGetTime_inv in H1
    as (y1 & y2 & y3 & y4 & m1 & m2 & d1 & d2 & a & b & c & d & e & f & g & h
        & -> & Ha & Hb & Hc & Hd & He & Hf & Hg & Hh & Hm & Hday & ->).
  apply isoGetTime_inv in H2
    as (y1' & y2' & y3' & y4' & m1' & m2' & d1' & d2' & a' & b' & c' & d' & e' & f'
        & g' & h' & -> & Ha' & Hb' & Hc' & Hd' & He' & Hf' & Hg' & Hh' & Hm' & Hday'
        & ->).
  rewrite (iso_compare _ _ _ _ _ _ _ _ _ _ _ _ _ _ _ _ _ _ _ _ _ _ _ _ _ _ _ _ _ _ _ _
             Ha Hb Hc Hd He Hf Hg Hh Ha' Hb' Hc' Hd' He' Hf' Hg' Hh').
  set (y := a * 1000 + b * 100 + c * 10 + d) in *.
  set (y' := a' * 1000 + b' * 100 + c' * 10 + d') in *.
  set (m := e * 10 + f) in *. set (m' := e' * 10 + f') in *.
  set (dd := g * 10 + h) in *. set (dd' := g' * 10 + h') in *.
  assert (0 ≤ y ≤ 9999 ∧ 0 ≤ y' ≤ 9999) as [Hy Hy'].
  { apply digit_range in Ha, Hb, Hc, Hd, Ha', Hb', Hc', Hd'. unfold y, y'. lia. }
  clearbody y y' m m' dd dd'. unfold msPerDay.
  assert (validDate y m dd) as Hv by (unfold validDate; lia).
  assert (validDate y' m' dd') as Hv' by (unfold validDate; lia).
  split.
  - intros Hlt%(daysFromCivil_mono _ _ _ _ _ _ Hv Hv'). lia.
  - intros Hlt.
    assert (before y m dd y' m' dd' ∨ (y = y' ∧ m = m' ∧ dd = dd')
            ∨ before y' m' dd' y m dd) as [Hb0|[(-> & -> & ->)|Hb0]]
      by (unfold before; lia).
    + done.
    + lia.
    + apply (daysFromCivil_mono _ _ _ _ _ _ Hv' Hv) in Hb0. lia.
Qed.
End calendar.

(** On transactions dated YYYY-MM-DD, no two of the same date, the fallback
    returns what the indexed query returns. *)
Corollary fallback_agrees_on_iso_dates investorId w e :
  isIndexError e = true →
  Forall (λ p, is_Some (storedDate p.2 ≫= isoGetTime)) (matching investorId w) →
  NoDup (storedDates (matching investorId w)) →
  (getTransactions isoGetTime investorId (scripted [Some e] w)).1
  = (getTransactions isoGetTime investorId (scripted [] w)).1.
Proof.
  intros He Hall Hnd.
  rewrite getTransactions_indexed, (getTransactions_fallback _ _ _ e He). f_equal.
  assert (∀ p, p ∈ matching investorId w →
               ∃ s, storedDate p.2 = Some s ∧ is_Some (isoGetTime s)) as Hiso.
  { rewrite Forall_forall in Hall. intros p [t Ht]%Hall.
    destruct (storedDate p.2) as [s|]; [|done]. by exists s. }
  apply sorted_rows_agree; [|done|].
  - apply Forall_forall. intros p (s & Hs & _)%Hiso. by exists s.
  - intros s1 s2 (p1 & Hp1 & Hs1)%list_elem_of_omap (p2 & Hp2 & Hs2)%list_elem_of_omap.
    destruct (Hiso p1 Hp1) as (s1' & Hs1' & Hok1).
    destruct (Hiso p2 Hp2) as (s2' & Hs2' & Hok2).
    apply isoGetTime_timeOrdered; congruence.
Qed.

Lemma fallback_agrees_on_iso_dates_witness :
  (getTransactions isoGetTime None (scripted [Some missingIndex] history)).1
  = (getTransactions isoGetTime None (scripted [] history)).1.
Proof.
  apply (fallback_agrees_on_iso_dates None history missingIndex).
  - reflexivity.
  - apply (bool_decide_unpack _). vm_compute. exact I.
  - apply (bool_decide_unpack _). vm_compute. exact I.
Defined.

(** * Properties of the other methods *)

(** ** Reads *)

(** No one-shot read writes. Whether it returns or throws, each of the
    thirteen read methods of the two services leaves every collection and
    the server time as they were, and makes at most two requests. *)
Theorem reads_write_nothing q w :
  store (ask q w) = store w ∧
  serverTime (ask q w) = serverTime w ∧
  ∃ k, k ≤ 2 ∧ script (ask q w) = drop k (script w).
Proof.
  destruct w as [st t now td sc].
  destruct q; simpl.
  all: unfold getInvestors, getInvestorById, getInvestorsByStatus, searchInvestors,
    getTotalInvestorBalance, verifyUserByEmail, getTransactions,
    getRecentTransactions, getWithdrawalRequests, getCommissions,
    getDocumentCount, countDocs, getMessages, getConversations, getInvestors.
  all: run_worlds.
  all: repeat split_run.
  all: split_and!; try done.
  all: first [ by exists 0; split; [lia|] | by exists 1; split; [lia|]
             | by exists 2; split; [lia|] ].
Qed.

Lemma length_listing {D} (m : gmap string D) : length (listing m) = size m.
Proof. by rewrite listing_Permutation, length_map_to_list. Qed.

(** ** Updates of documents that are not there *)

(** An update addressed to a document that is not there creates nothing.
    [updateInvestor], [updateInvestorBalance], [deleteInvestor],
    [updateTransaction], [updateWithdrawalRequest] and [updateW8BenStatus]
    throw and leave the store as it was; [updateConversationLastMessage]
    returns normally, the store unchanged. *)
Theorem updates_never_create w id :
  (users (store w) !! id = None →
   (∀ data, refused w (updateInvestor id data w)) ∧
   (∀ newBalance, refused w (updateInvestorBalance id newBalance w)) ∧
   (∀ reason adminId, refused w (deleteInvestor id reason adminId w))) ∧
  (transactions (store w) !! id = None →
   ∀ updates, refused w (updateTransaction id updates w)) ∧
  (withdrawalRequests (store w) !! id = None →
   (∀ status processedBy reason,
      refused w (updateWithdrawalRequest id status processedBy reason w)) ∧
   (∀ status processedBy reason,
      refused w (updateW8BenStatus id status processedBy reason w))) ∧
  (conversations (store w) !! id = None →
   ∀ lastMessage,
     updateConversationLastMessage id lastMessage w
     = (Ok tt, pop w)).
Proof.
  destruct w as [st t now td sc]. unfold refused. simpl.
  split_and!; intros Hid; split_and?; intros.
  all: unfold updateInvestor, updateInvestorBalance, deleteInvestor,
    updateTransaction,
    updateWithdrawalRequest, updateW8BenStatus, updateConversationLastMessage.
  all: run_worlds; rewrite ?Hid; simpl.
  all: destruct sc as [|[e|] sc]; simpl; rewrite ?Hid; simpl.
  all: try (split; [by eexists|done]).
  all: done.
Qed.

Lemma updates_never_create_witness :
  refused ledger (updateInvestor "bob" bobData ledger) ∧
  refused ledger (updateWithdrawalRequest "w9" "Approved" "admin1" None ledger).
Proof.
  destruct (updates_never_create ledger "bob") as (Hu & _).
  destruct (updates_never_create ledger "w9") as (_ & _ & Hw & _).
  split.
  - by apply Hu.
  - by apply Hw.
Defined.

(** ** Creating, updating and closing an investor *)

Lemma getInvestors_served w :
  answer w = None →
  getInvestors w
  = (Ok (processUserDocsAsInvestors (today w) (clientNow w)
           (whereEq User.role "investor" (listing (users (store w))))), pop w).
Proof.
  intros Ha. unfold getInvestors, rethrowAs, tryCatch, bind, getDocs, request,
    getToday, getNow, ret.
  rewrite Ha. simpl.
  by destruct (whereEq User.role "investor" (listing (users (store w)))).
Qed.

(** A default applied twice is the default applied once. *)
Lemma orElse_idem {A} `{Truthy A} (f : field A) (d : A) :
  orElse (Has (orElse f d)) d = orElse f d.
Proof.
  unfold orElse. destruct f as [| |a]; try by destruct (truthy d).
  destruct (truthy a) eqn:Ha; [by rewrite Ha|by destruct (truthy d)].
Qed.

(** An investor created with [createInvestor] is found by [getInvestorById]
    and listed by [getInvestors] right after (the store serving the read),
    with the name, balance and status given, or with their defaults
    'Unknown Investor', 0 and 'Active'; the account is active, and both its
    dates are the time of the write. *)
Theorem createInvestor_then_read w id data w' :
  createInvestor id data w = (Ok tt, w') →
  answer w' = None →
  ∃ investor rows row,
    getInvestorById id w' = (Ok (Some investor), pop w') ∧
    getInvestors w' = (Ok rows, pop w') ∧
    row ∈ rows ∧ Investor.id row = id ∧
    Investor.name investor = orElse (User.name data) "Unknown Investor" ∧
    Investor.name row = Investor.name investor ∧
    Investor.currentBalance investor = orElse (User.currentBalance data) 0%float ∧
    Investor.currentBalance row = Investor.currentBalance investor ∧
    Investor.accountStatus investor = orElse (User.accountStatus data) "Active" ∧
    Investor.accountStatus row = Investor.accountStatus investor ∧
    Investor.isActive investor = true ∧
    Investor.isActive row = true ∧
    Investor.createdAt investor = commitTime w ∧
    Investor.updatedAt investor = commitTime w.
Proof.
  intros Hrun Ha.
  assert (users (store w') !! id = Some (investorData data (commitTime w)) ∧
          today w' = today w ∧ clientNow w' = clientNow w) as (Hd & Htd & Hnow).
  { revert Hrun. destruct w as [st t now td sc]. unfold createInvestor. run_worlds.
    destruct sc as [|[e|] sc]; simpl; try (by intros [=]).
    all: intros [= <-]; simpl; by rewrite lookup_insert_eq. }
  eexists _, _, _. split; [by apply getInvestorById_found|].
  split; [by apply getInvestors_served|].
  split.
  { apply (list_elem_of_fmap_2 _ _ (id, investorData data (commitTime w))).
    apply elem_of_whereEq. split; [by apply elem_of_listing|done]. }
  simpl. unfold toDateOr, notFalse. simpl. split_and!; try done.
  apply (orElse_idem (User.accountStatus data) "Active").
Qed.

Lemma createInvestor_then_read_witness :
  let w' := (createInvestor "bob" bobData ledger).2 in
  ∃ investor rows row,
    getInvestorById "bob" w' = (Ok (Some investor), pop w') ∧
    getInvestors w' = (Ok rows, pop w') ∧
    row ∈ rows ∧ Investor.id row = "bob" ∧
    Investor.name investor = "Bob" ∧
    Investor.currentBalance investor = 0%float ∧
    Investor.accountStatus investor = "Active" ∧
    Investor.isActive investor = true.
Proof.
  intros w'.
  assert (createInvestor "bob" bobData ledger = (Ok tt, w')) as Hrun
    by (vm_compute; reflexivity).
  destruct (createInvestor_then_read ledger "bob" bobData w' Hrun eq_refl)
    as (investor & rows & row & H1 & H2 & H3 & H4 & H5 & _ & H7 & _ & H9 & _ & H11 & _).
  exists investor, rows, row. split_and!; try done.
Defined.

(** [updateInvestorBalance id b] is [updateInvestor id { currentBalance: b }]:
    the two end in the same world, both returning, or both throwing the same
    error of the store under their own prefixes. The update sets the balance
    and [updatedAt] and keeps the name, the role and the status. *)
Theorem updateInvestorBalance_is_updateInvestor w id newBalance :
  alike "Failed to update account balance" "Failed to update investor profile"
    (updateInvestorBalance id newBalance w)
    (updateInvestor id (balanceUpdate newBalance) w) ∧
  ∀ w', updateInvestor id (balanceUpdate newBalance) w = (Ok tt, w') →
    ∃ d d', users (store w) !! id = Some d ∧ users (store w') !! id = Some d' ∧
      User.currentBalance d' = Has newBalance ∧
      User.updatedAt d' = Has (commitTime w) ∧
      User.name d' = User.name d ∧ User.role d' = User.role d ∧
      User.accountStatus d' = User.accountStatus d.
Proof.
  destruct w as [st t now td sc]. unfold alike, updateInvestorBalance, updateInvestor.
  run_worlds.
  assert (∀ t d, mergeInvestor (balanceUpdate newBalance) t d
                 = mergeBalance newBalance t d) as Hm by (by intros ? []).
  destruct sc as [|[e|] sc]; simpl.
  all: destruct (users st !! id) as [d|] eqn:Hd; simpl; rewrite ?Hm.
  all: split; [split; [done|]; try done; by eexists|].
  all: intros w'; try (by intros [=]).
  all: intros [= <-]; simpl; rewrite lookup_insert_eq.
  all: by eexists _, _.
Qed.

(** [deleteInvestor] deletes nothing. A call that returns leaves the user
    document in place, marked 'Deletion Request Under Review' and inactive,
    with its balance and role; the other users, the transactions and the
    withdrawal requests are as they were; [reason] and [adminId] are not
    stored. An investor is still returned by [getInvestorById] afterwards,
    inactive, with the same balance. *)
Theorem deleteInvestor_keeps_document w id reason adminId w' :
  deleteInvestor id reason adminId w = (Ok tt, w') →
  ∃ d d',
    users (store w) !! id = Some d ∧ users (store w') !! id = Some d' ∧
    User.accountStatus d' = Has "Deletion Request Under Review" ∧
    User.isActive d' = Has false ∧
    User.currentBalance d' = User.currentBalance d ∧
    User.role d' = User.role d ∧
    (∀ j, j ≠ id → users (store w') !! j = users (store w) !! j) ∧
    transactions (store w') = transactions (store w) ∧
    withdrawalRequests (store w') = withdrawalRequests (store w) ∧
    (∀ reason' adminId', deleteInvestor id reason' adminId' w = (Ok tt, w')) ∧
    (roleIs "investor" d = true → answer w' = None →
     ∃ investor,
       getInvestorById id w' = (Ok (Some investor), pop w') ∧
       Investor.isActive investor = false ∧
       Investor.accountStatus investor = "Deletion Request Under Review" ∧
       Investor.currentBalance investor = balanceOf d).
Proof.
  intros Hrun.
  assert (∃ d, users (store w) !! id = Some d ∧
               users (store w') = <[id := mergeClosure (commitTime w) d]> (users (store w)) ∧
               transactions (store w') = transactions (store w) ∧
               withdrawalRequests (store w') = withdrawalRequests (store w))
    as (d & Hd & Hu & Ht & Hw).
  { revert Hrun. destruct w as [st t now td sc]. unfold deleteInvestor. run_worlds.
    repeat step.
    all: intros [= <-]; simpl; by eexists. }
  exists d, (mergeClosure (commitTime w) d).
  rewrite Hu, lookup_insert_eq. split_and!; try done.
  - intros j Hj. by rewrite lookup_insert_ne.
  - intros Hrole Ha. eexists. split.
    + apply (getInvestorById_found w' id (mergeClosure (commitTime w) d));
        [done| |exact Hrole].
      by rewrite Hu, lookup_insert_eq.
    + done.
Qed.

Lemma deleteInvestor_keeps_document_witness :
  let w' := (deleteInvestor "alice" "requested" "admin1" ledger).2 in
  ∃ investor,
    getInvestorById "alice" w' = (Ok (Some investor), pop w') ∧
    Investor.isActive investor = false ∧
    Investor.accountStatus investor = "Deletion Request Under Review".
Proof.
  intros w'.
  assert (deleteInvestor "alice" "requested" "admin1" ledger = (Ok tt, w')) as Hrun
    by (vm_compute; reflexivity).
  destruct (deleteInvestor_keeps_document ledger "alice" "requested" "admin1" w' Hrun)
    as (d & d' & Hd & _ & _ & _ & _ & _ & _ & _ & _ & _ & Hread).
  assert (d = alice) as -> by (vm_compute in Hd; by injection Hd as <-).
  destruct (Hread eq_refl eq_refl) as (investor & Hget & Ha & Hs & _).
  by exists investor.
Defined.

(** ** Decisions on withdrawal requests *)

Lemma updateW8BenStatus_stores w id status processedBy reason w' :
  updateW8BenStatus id status processedBy reason w = (Ok tt, w') →
  ∃ d, withdrawalRequests (store w) !! id = Some d ∧
       store w' = setWithdrawalRequests
                    (<[id := mergeW8Ben status reason (commitTime w) d]>
                       (withdrawalRequests (store w))) (store w) ∧
       commitTime w' = (commitTime w + 1)%Z.
Proof.
  destruct w as [st t now td sc]. unfold updateW8BenStatus. run_worlds.
  repeat step.
  all: intros [= <-]; simpl; by eexists.
Qed.

(** A W-8 BEN form that is rejected and then approved is stored as approved,
    with the time of the approval, and still carries the rejection reason of
    the earlier decision. Neither decision changes the request's status,
    amount or [processedBy], the commissions or the users; the [processedBy]
    given is not stored. *)
Theorem w8ben_approval_keeps_rejection w id processedBy processedBy' reason w1 w2 :
  updateW8BenStatus id W8Rejected processedBy reason w = (Ok tt, w1) →
  updateW8BenStatus id W8Approved processedBy' None w1 = (Ok tt, w2) →
  ∃ d d2,
    withdrawalRequests (store w) !! id = Some d ∧
    withdrawalRequests (store w2) !! id = Some d2 ∧
    Wd.w8benStatus d2 = Has "approved" ∧
    Wd.w8benApprovedAt d2 = Has (commitTime w1) ∧
    Wd.w8benRejectionReason d2
    = Has (orDefault reason "Form rejected by compliance team") ∧
    Wd.status d2 = Wd.status d ∧
    Wd.amount d2 = Wd.amount d ∧
    Wd.processedBy d2 = Wd.processedBy d ∧
    commissions (store w2) = commissions (store w) ∧
    users (store w2) = users (store w) ∧
    ∀ other, updateW8BenStatus id W8Rejected other reason w = (Ok tt, w1).
Proof.
  intros H1 H2.
  destruct (updateW8BenStatus_stores _ _ _ _ _ _ H1) as (d & Hd & Hs1 & _).
  destruct (updateW8BenStatus_stores _ _ _ _ _ _ H2) as (d1 & Hd1 & Hs2 & _).
  rewrite Hs1 in Hd1. simpl in Hd1. rewrite lookup_insert_eq in Hd1.
  injection Hd1 as <-.
  eexists d, _. rewrite Hs2, Hs1. simpl. rewrite lookup_insert_eq.
  split_and!; try done.
Qed.

Lemma w8ben_approval_keeps_rejection_witness :
  let w1 := (updateW8BenStatus "w1" W8Rejected "admin1" (Some "unsigned") ledger).2 in
  let w2 := (updateW8BenStatus "w1" W8Approved "admin2" None w1).2 in
  ∃ d2, withdrawalRequests (store w2) !! "w1" = Some d2 ∧
        Wd.w8benStatus d2 = Has "approved" ∧
        Wd.w8benRejectionReason d2 = Has "unsigned".
Proof.
  intros w1 w2.
  assert (updateW8BenStatus "w1" W8Rejected "admin1" (Some "unsigned") ledger
          = (Ok tt, w1)) as H1 by (vm_compute; reflexivity).
  assert (updateW8BenStatus "w1" W8Approved "admin2" None w1 = (Ok tt, w2)) as H2
    by (vm_compute; reflexivity).
  destruct (w8ben_approval_keeps_rejection ledger "w1" "admin1" "admin2"
              (Some "unsigned") w1 w2 H1 H2)
    as (d & d2 & _ & Hd2 & Hs & _ & Hr & _).
  by exists d2.
Defined.

(** An approval is not atomic: when the store accepts the update of the
    request and the call then throws, the request is left Approved and no
    commission is recorded. *)
Theorem approval_not_atomic w id processedBy reason d e w' :
  answer w = None →
  withdrawalRequests (store w) !! id = Some d →
  updateWithdrawalRequest id "Approved" processedBy reason w = (Throw e, w') →
  withdrawalRequests (store w') !! id
  = Some (mergeProcessed "Approved" processedBy reason (commitTime w) d) ∧
  Wd.status <$> withdrawalRequests (store w') !! id = Some (Has "Approved") ∧
  commissions (store w') = commissions (store w).
Proof.
  destruct w as [st t now td sc]. simpl. intros Ha Hd.
  unfold updateWithdrawalRequest, addCommission. run_worlds.
  assert (match sc with Some e :: _ => Some e | _ => None end = None) as Ha'
    by exact Ha.
  clear Ha. rewrite Ha'. simpl. rewrite Hd. simpl.
  repeat split_run.
  all: rewrite ?lookup_insert_eq in *; simplify_eq.
  all: intros [= <- <-]; simpl; by rewrite lookup_insert_eq.
Qed.

Lemma approval_not_atomic_witness :
  let run := updateWithdrawalRequest "w1" "Approved" "admin1" None
               (scripted [None; None; Some unavailable] ledger) in
  Wd.status <$> withdrawalRequests (store run.2) !! "w1" = Some (Has "Approved") ∧
  commissions (store run.2) = commissions (store ledger).
Proof.
  intros run.
  assert (run = (Throw (wrapped "Failed to process withdrawal request"
                          (wrapped "Failed to record commission" unavailable)), run.2))
    as Hrun by (vm_compute; reflexivity).
  destruct (approval_not_atomic (scripted [None; None; Some unavailable] ledger)
              "w1" "admin1" None request1 _ run.2 eq_refl eq_refl Hrun)
    as (_ & Hs & Hc).
  by split.
Defined.

(** ** Commissions *)

(** Both paths of [getCommissions] return rows of stored commissions, and
    every commission that has a date is among them. *)
Lemma getCommissions_rows getTime w rows w' :
  getCommissions getTime w = (Ok rows, w') →
  (∀ row, row ∈ rows →
     ∃ i c, commissions (store w) !! i = Some c ∧
            row = processCommissionDoc (clientNow w) (i, c)) ∧
  (∀ i c, commissions (store w) !! i = Some c → Com.date c ≠ Absent →
          processCommissionDoc (clientNow w) (i, c) ∈ rows).
Proof.
  destruct w as [st t now td sc]. unfold getCommissions. run.
  assert (∀ s : Snapshot Com.doc,
    (∀ p, p ∈ s → p ∈ listing (commissions st)) →
    ∀ row, row ∈ processCommissionDocs now s →
      ∃ i c, commissions st !! i = Some c ∧ row = processCommissionDoc now (i, c))
    as Hsub.
  { intros s Hs row [[i c] [-> Hp]]%list_elem_of_fmap.
    exists i, c. split; [|done]. by apply elem_of_listing, Hs. }
  repeat step.
  all: intros [= Hr Hw]; subst rows; clear Hw; split.
  all: try (intros row; rewrite ?elem_of_arraySort; apply Hsub; intros p;
            rewrite ?elem_of_orderByDesc; tauto).
  all: intros i c Hc Hdate; rewrite ?elem_of_arraySort;
    apply (list_elem_of_fmap_2 (processCommissionDoc now) _ (i, c));
    rewrite ?elem_of_orderByDesc, elem_of_listing; simpl; auto.
Qed.

Lemma approve_stores_commission w id processedBy reason w' :
  updateWithdrawalRequest id "Approved" processedBy reason w = (Ok tt, w') →
  ∃ d cid, withdrawalRequests (store w) !! id = Some d ∧
    commissions (store w') !! cid
    = Some (commissionDoc
              (commissionOf id (mergeProcessed "Approved" processedBy reason
                                  (commitTime w) d) (today w))
              (commitTime w + 1)%Z) ∧
    clientNow w' = clientNow w.
Proof.
  destruct w as [st t now td sc]. unfold updateWithdrawalRequest, addCommission.
  run_worlds. repeat step.
  all: intros [= <-]; simpl.
  all: eexists _, _; split; [done|]; by rewrite lookup_insert_eq.
Qed.

(** After an approval that returns, [getCommissions], on either of its
    paths, returns a row for the request: rate 15, the amount and the
    investor of the request, 15 % of the amount (0 when that is not a number), status Earned, dated
    today. *)
Theorem approved_commission_is_listed w id processedBy reason w' getTime rows w'' :
  updateWithdrawalRequest id "Approved" processedBy reason w = (Ok tt, w') →
  getCommissions getTime w' = (Ok rows, w'') →
  ∃ d row,
    withdrawalRequests (store w) !! id = Some d ∧
    row ∈ rows ∧
    Commission.withdrawalId row = Has id ∧
    Commission.commissionRate row = 15%float ∧
    Commission.withdrawalAmount row = Wd.amount d ∧
    Commission.commissionAmount row
    = orElse (Has (toNumber (Wd.amount d) * 0.15)%float) 0%float ∧
    Commission.investorId row = Wd.investorId d ∧
    Commission.status row = "Earned" ∧
    Commission.date row = Has (today w) ∧
    Commission.createdAt row = (commitTime w + 1)%Z.
Proof.
  intros (d & cid & Hd & Hc & Hnow)%approve_stores_commission
         [_ Hsup]%getCommissions_rows.
  eexists d, _. split; [done|]. split; [by apply (Hsup cid _ Hc)|].
  simpl. split_and!; done.
Qed.

Lemma approved_commission_is_listed_witness :
  ∃ rows row,
    (getCommissions isoGetTime approvedOnce).1 = Ok rows ∧ row ∈ rows ∧
    Commission.withdrawalId row = Has "w1" ∧
    Commission.commissionRate row = 15%float.
Proof.
  assert (updateWithdrawalRequest "w1" "Approved" "admin1" None ledger
          = (Ok tt, approvedOnce)) as Hrun by (vm_compute; reflexivity).
  destruct (getCommissions isoGetTime approvedOnce) as [[rows|e] w''] eqn:Hget;
    [|by vm_compute in Hget].
  destruct (approved_commission_is_listed ledger "w1" "admin1" None approvedOnce
              isoGetTime rows w'' Hrun Hget)
    as (d & row & _ & Hin & Hid & Hrate & _).
  by exists rows, row.
Defined.

(** ** Recent transactions and counts *)

Lemma map_take {A B} (f : A → B) (n : nat) (l : list A) :
  map f (take n l) = take n (map f l).
Proof.
  revert n. induction l as [|x l IH]; intros [|n]; simpl; try done.
  by rewrite IH.
Qed.

(** For a positive limit [n] (10 when none is given),
    [getRecentTransactions] returns the first [n] rows of what
    [getTransactions] returns for all investors under the same answers of the
    store, on the indexed path and on the fallback path alike. The two throw
    together, the same error of the store under their own prefixes, and
    leave the same world. *)
Theorem recent_is_prefix_of_history getTime limitCount w :
  let n := default 10%Z limitCount in
  (0 < n)%Z →
  let all := getTransactions getTime None w in
  let recent := getRecentTransactions getTime limitCount w in
  recent.2 = all.2 ∧
  match all.1, recent.1 with
  | Ok rows, Ok firstRows =>
      firstRows = take (Z.to_nat n) rows ∧ length firstRows ≤ Z.to_nat n
  | Throw e1, Throw e2 =>
      ∃ e, e1 = wrapped "Failed to load transaction history" e ∧
           e2 = wrapped "Failed to load recent transactions" e
  | _, _ => False
  end.
Proof.
  intros n Hn. destruct w as [st t now td sc].
  unfold getTransactions, getRecentTransactions, slice0. fold n. simpl.
  assert ((0 <? n)%Z = true) as -> by lia.
  assert ((0 <=? n)%Z = true) as -> by lia.
  run_worlds.
  destruct sc as [|[e|] [|[e'|] sc]]; simpl.
  all: split; [done|].
  all: try (by eexists).
  all: unfold processTransactionDocs.
  all: split; [first [done|apply map_take]|].
  all: rewrite ?length_map, length_take; lia.
Qed.

Lemma recent_is_prefix_of_history_witness :
  let all := getTransactions isoGetTime None history in
  let recent := getRecentTransactions isoGetTime (Some 2%Z) history in
  match all.1, recent.1 with
  | Ok rows, Ok firstRows => firstRows = take 2 rows ∧ length firstRows ≤ 2
  | _, _ => False
  end.
Proof.
  intros all recent.
  destruct (recent_is_prefix_of_history isoGetTime (Some 2%Z) history) as [_ H];
    [done|].
  fold all recent in H.
  destruct (all.1) as [rows|e] eqn:Ha; [|by vm_compute in Ha].
  destruct (recent.1) as [firstRows|e]; [|done].
  exact H.
Defined.

Lemma getDocumentCount_size others w n w' :
  getDocumentCount others "transactions" w = (Ok n, w') →
  n = size (transactions (store w)) ∧ store w' = store w.
Proof.
  destruct w as [st t now td sc]. unfold getDocumentCount, countDocs. run_worlds.
  repeat step.
  all: intros [= <- <-]; simpl; by rewrite length_listing.
Qed.

(** The count of transactions follows the writes: between two counts that
    return, [addTransaction] adds one, [updateTransaction] leaves the count,
    and [deleteDocument] takes one off when the id was stored and none
    otherwise. *)
Theorem count_follows_writes others w n0 w1 w2 n1 w3 :
  getDocumentCount others "transactions" w = (Ok n0, w1) →
  getDocumentCount others "transactions" w2 = (Ok n1, w3) →
  (∀ transaction, addTransaction transaction w1 = (Ok tt, w2) → n1 = S n0) ∧
  (∀ id updates, updateTransaction id updates w1 = (Ok tt, w2) → n1 = n0) ∧
  (∀ id, deleteDocument "transactions" id w1 = (Ok tt, w2) →
     n1 = if transactions (store w) !! id is Some _ then n0 - 1 else n0).
Proof.
  intros [-> Hs]%getDocumentCount_size [-> _]%getDocumentCount_size. simpl.
  destruct w1 as [st t now td sc]. simpl in Hs. subst st.
  unfold addTransaction, updateTransaction, deleteDocument.
  run_worlds.
  split_and!; intros *.
  all: repeat step.
  all: intros [= <-]; simpl.
  all: first
    [ rewrite map_size_insert_None by apply fresh_id_unused; done
    | rewrite map_size_insert_Some by (by eexists); done
    | rewrite map_size_delete_Some by (by eexists); lia
    | rewrite map_size_delete_None by done; done ].
Qed.

Lemma count_follows_writes_witness :
  let w1 := (getDocumentCount (λ _, 0) "transactions" history).2 in
  let w2 := (deleteDocument "transactions" "t2" w1).2 in
  (getDocumentCount (λ _, 0) "transactions" history).1 = Ok 3 ∧
  (getDocumentCount (λ _, 0) "transactions" w2).1 = Ok 2.
Proof.
  intros w1 w2.
  destruct (getDocumentCount (λ _, 0) "transactions" w2) as [[n1|e] w3] eqn:H2;
    [|by vm_compute in H2].
  assert (getDocumentCount (λ _, 0) "transactions" history = (Ok 3, w1)) as H1
    by (vm_compute; reflexivity).
  destruct (count_follows_writes (λ _, 0) history 3 w1 w2 n1 w3 H1 H2) as (_ & _ & Hdel).
  rewrite H1. split; [done|]. simpl. f_equal.
  apply (Hdel "t2"). vm_compute. reflexivity.
Defined.

(** ** Looking a user up by email *)

(** [verifyUserByEmail] returns a stored user that has the email, the one of
    least id when several have it, and [null] only when no stored user has
    it. *)
Theorem verifyUserByEmail_finds email w r w' :
  verifyUserByEmail email w = (Ok r, w') →
  match r with
  | Some user =>
      users (store w) !! UserRecord.id user = Some (UserRecord.data user) ∧
      User.email (UserRecord.data user) = Has email ∧
      ∀ id d, users (store w) !! id = Some d → User.email d = Has email →
              (compareString (UserRecord.id user) id ≤ 0)%Z
  | None =>
      ∀ id d, users (store w) !! id = Some d → User.email d ≠ Has email
  end.
Proof.
  destruct w as [st t now td sc]. unfold verifyUserByEmail. run_worlds.
  destruct (whereEq User.email email (listing (users st))) as [|p rest] eqn:Hq.
  - repeat step.
    all: intros [= <- <-] id d Hd He.
    all: assert ((id, d) ∈ whereEq User.email email (listing (users st))) as Hin
        by (apply elem_of_whereEq; split; [by apply elem_of_listing|done]).
    all: rewrite Hq in Hin; by apply elem_of_nil in Hin.
  - repeat step.
    all: intros [= <- <-]; simpl.
    all: destruct (first_of_listing _ _ _ _ Hq) as (Hp & Hf & Hmin).
    all: split; [done|].
    all: assert (User.email p.2 = Has email) as He
        by (destruct (User.email p.2) as [| |x]; try done;
            by apply String.eqb_eq in Hf as ->).
    all: split; [done|].
    all: intros id d Hd Hde; apply (Hmin id d Hd); simpl; by rewrite Hde, String.eqb_refl.
Qed.

Lemma verifyUserByEmail_finds_witness :
  ∃ user, (verifyUserByEmail "crisdoraodxb@gmail.com" office).1 = Ok (Some user) ∧
          UserRecord.id user = "cris" ∧
          User.email (UserRecord.data user) = Has "crisdoraodxb@gmail.com".
Proof.
  destruct (verifyUserByEmail "crisdoraodxb@gmail.com" office) as [[[user|]|e] w']
    eqn:Hrun; [|vm_compute in Hrun; discriminate|vm_compute in Hrun; discriminate].
  pose proof (verifyUserByEmail_finds _ _ _ _ Hrun) as (_ & He & _).
  exists user. split; [reflexivity|]. split; [|exact He].
  vm_compute in Hrun. injection Hrun as <- _. reflexivity.
Defined.

(** ** Searching and filtering the directory *)

Lemma List_filter_sublist {A} (f : A → bool) l : List.filter f l `sublist_of` l.
Proof.
  induction l as [|x l IH]; simpl; [constructor|].
  destruct (f x); by constructor.
Qed.

Lemma includes_empty s : includes "" s = true.
Proof. unfold includes. by destruct s. Qed.

(** [searchInvestors] returns the rows of [getInvestors], in their order,
    whose name, email or country contains the term, letter case folded: all
    of them for an empty term. It throws when [getInvestors] throws, wrapping
    its error, and two terms with the same folding give the same result. *)
Theorem searchInvestors_filters toLowerCase searchTerm w :
  match getInvestors w, searchInvestors toLowerCase searchTerm w with
  | (Ok investors, w1), (Ok rows, w2) =>
      w2 = w1 ∧
      rows `sublist_of` investors ∧
      (∀ investor, investor ∈ rows ↔
         investor ∈ investors ∧
         (includes (toLowerCase searchTerm) (toLowerCase (Investor.name investor)) = true ∨
          includes (toLowerCase searchTerm) (toLowerCase (Investor.email investor)) = true ∨
          includes (toLowerCase searchTerm) (toLowerCase (Investor.country investor)) = true)) ∧
      (toLowerCase searchTerm = "" → rows = investors) ∧
      (∀ other, toLowerCase other = toLowerCase searchTerm →
         searchInvestors toLowerCase other w = (Ok rows, w2))
  | (Throw e, w1), (Throw e', w2) =>
      w2 = w1 ∧ e' = wrapped "Search failed" e
  | _, _ => False
  end.
Proof.
  unfold searchInvestors, rethrowAs, tryCatch, bind, ret, throw.
  destruct (getInvestors w) as [[investors|e] w1] eqn:Hget; simpl; [|done].
  split_and!; try done.
  - apply List_filter_sublist.
  - intros investor. rewrite elem_of_List_filter, !orb_true_iff. tauto.
  - intros ->. apply List_filter_all, Forall_forall. intros investor _.
    by rewrite includes_empty.
  - intros other Ho. by rewrite Ho.
Qed.

(** [getInvestorsByStatus] returns exactly the investors whose stored
    [accountStatus] is the status asked for. An investor stored without a
    status is reported as 'Active' by every read and yet is returned for no
    status, 'Active' included. *)
Theorem getInvestorsByStatus_rows status w rows w' :
  getInvestorsByStatus status w = (Ok rows, w') →
  (∀ row, row ∈ rows →
     ∃ d, users (store w) !! Investor.id row = Some d ∧
          roleIs "investor" d = true ∧
          User.accountStatus d = Has status ∧
          row = processUserDocAsInvestor (today w) (clientNow w) (Investor.id row, d) ∧
          (status ≠ "" → Investor.accountStatus row = status)) ∧
  (∀ id d, users (store w) !! id = Some d → roleIs "investor" d = true →
     User.accountStatus d = Has status →
     processUserDocAsInvestor (today w) (clientNow w) (id, d) ∈ rows) ∧
  (∀ id d, users (store w) !! id = Some d → User.accountStatus d = Absent →
     Investor.accountStatus (processUserDocAsInvestor (today w) (clientNow w) (id, d))
     = "Active" ∧
     ∀ row, row ∈ rows → Investor.id row ≠ id).
Proof.
  destruct w as [st t now td sc]. unfold getInvestorsByStatus. run_worlds.
  repeat step.
  all: intros [= <- <-].
  all: assert (∀ i d, (i, d) ∈ whereEq User.accountStatus status
                         (whereEq User.role "investor" (listing (users st))) ↔
                 users st !! i = Some d ∧ roleIs "investor" d = true ∧
                 User.accountStatus d = Has status) as Hq.
  1,3: intros i d; rewrite !elem_of_whereEq, elem_of_listing; simpl;
    unfold roleIs; destruct (User.role d) as [| |r]; try (by intuition);
    split; [intros [[? [= ->]] ?]; by rewrite String.eqb_refl
           |intros (? & ->%String.eqb_eq & ?); done].
  all: split_and!.
  - intros row [[i d] [-> (Hd & Hr & Hs)%Hq]]%list_elem_of_fmap. simpl.
    exists d. split_and!; try done.
    intros Hne. rewrite Hs. unfold orElse, truthy, truthy_string.
    destruct (String.eqb status "") eqn:He; [|done].
    by apply String.eqb_eq in He.
  - intros id d Hd Hr Hs.
    apply (list_elem_of_fmap_2 (processUserDocAsInvestor td now) _ (id, d)).
    by apply Hq.
  - intros id d Hd Hs. simpl. rewrite Hs. split; [done|].
    intros row [[i d'] [-> (Hd' & _ & Hs')%Hq]]%list_elem_of_fmap. simpl.
    intros ->. congruence.
  - intros row [[i d] [-> (Hd & Hr & Hs)%Hq]]%list_elem_of_fmap. simpl.
    exists d. split_and!; try done.
    intros Hne. rewrite Hs. unfold orElse, truthy, truthy_string.
    destruct (String.eqb status "") eqn:He; [|done].
    by apply String.eqb_eq in He.
  - intros id d Hd Hr Hs.
    apply (list_elem_of_fmap_2 (processUserDocAsInvestor td now) _ (id, d)).
    by apply Hq.
  - intros id d Hd Hs. simpl. rewrite Hs. split; [done|].
    intros row [[i d'] [-> (Hd' & _ & Hs')%Hq]]%list_elem_of_fmap. simpl.
    intros ->. congruence.
Qed.

Lemma getInvestorsByStatus_rows_witness :
  ∃ rows, (getInvestorsByStatus "Active" ledger).1 = Ok rows ∧
          processUserDocAsInvestor (today ledger) (clientNow ledger) ("alice", alice)
          ∈ rows.
Proof.
  destruct (getInvestorsByStatus "Active" ledger) as [[rows|e] w'] eqn:Hrun;
    [|vm_compute in Hrun; discriminate].
  destruct (getInvestorsByStatus_rows "Active" ledger rows w' Hrun) as (_ & Hin & _).
  exists rows. split; [reflexivity|]. apply Hin; reflexivity.
Defined.

(** ** Ordered queries on timestamps *)

Lemma noLater_trans a b c : noLater a b → noLater b c → noLater a c.
Proof. unfold noLater. destruct a, b, c; simpl; lia. Qed.

Lemma compareTime_swap a b : (0 < compareTime a b)%Z → (compareTime b a < 0)%Z.
Proof. destruct a, b; simpl; lia. Qed.

Lemma compareTime_zero a b : compareTime a b = 0%Z → compareTime b a = 0%Z.
Proof. destruct a, b; simpl; lia. Qed.

Lemma orderByTime_byTime {D} desc (key : D → field Timestamp) s :
  orderByTime desc key s = arraySort (byTime desc key) (List.filter (λ p, inIndex (key p.2)) s).
Proof. done. Qed.

Lemma elem_of_orderByTime {D} desc (key : D → field Timestamp) (s : Snapshot D) p :
  p ∈ orderByTime desc key s ↔ p ∈ s ∧ key p.2 ≠ Absent.
Proof.
  unfold orderByTime. rewrite elem_of_arraySort, elem_of_List_filter.
  unfold inIndex, defined.
  split; intros [Hp Hk]; (split; [done|]); by destruct (key p.2).
Qed.

(** Ascending: every document is no later than those after it. *)
Lemma orderByTime_asc_StronglySorted {D} (key : D → field Timestamp) s :
  StronglySorted (λ a b, noLater (key a.2) (key b.2)) (orderByTime false key s).
Proof.
  apply arraySort_StronglySorted.
  - intros a b c. apply noLater_trans.
  - intros a b. unfold noLater. simpl.
    destruct (compareTime (key a.2) (key b.2) =? 0)%Z eqn:Hc.
    + intros _. apply Z.eqb_eq in Hc. rewrite (compareTime_zero _ _ Hc). lia.
    + intros H%Z.ltb_lt%compareTime_swap. lia.
  - intros a b. unfold noLater. simpl.
    destruct (compareTime (key a.2) (key b.2) =? 0)%Z eqn:Hc.
    + intros _. apply Z.eqb_eq in Hc. lia.
    + intros H%Z.ltb_ge. done.
Qed.

(** Descending: every document is no earlier than those after it. *)
Lemma orderByTime_desc_StronglySorted {D} (key : D → field Timestamp) s :
  StronglySorted (λ a b, noLater (key b.2) (key a.2)) (orderByTime true key s).
Proof.
  apply arraySort_StronglySorted.
  - intros a b c ??. by eapply noLater_trans.
  - intros a b. unfold noLater. simpl.
    destruct (compareTime (key b.2) (key a.2) =? 0)%Z eqn:Hc.
    + intros _. apply Z.eqb_eq in Hc. rewrite (compareTime_zero _ _ Hc). lia.
    + intros H%Z.ltb_lt%compareTime_swap. lia.
  - intros a b. unfold noLater. simpl.
    destruct (compareTime (key b.2) (key a.2) =? 0)%Z eqn:Hc.
    + intros _. apply Z.eqb_eq in Hc. lia.
    + intros H%Z.ltb_ge. done.
Qed.

Section extremes.
Context {A : Type} (cmp : A → A → Z).

(** An element that moves after every other one, and that no other one
    moves after, ends last. *)
Lemma insertSorted_last x y l :
  last l = Some x → (0 <? cmp y x)%Z = false → last (insertSorted cmp y l) = Some x.
Proof.
  induction l as [|z l IH]; simpl; [done|]. intros Hl Hyx.
  destruct l as [|z' l].
  - injection Hl as ->. simpl. by rewrite Hyx.
  - rewrite last_cons_cons in Hl. specialize (IH Hl Hyx).
    destruct (0 <? cmp y z)%Z.
    + rewrite last_cons. by rewrite IH.
    + by rewrite !last_cons_cons.
Qed.

Lemma insertSorted_snoc x l :
  (∀ y, y ∈ l → (0 <? cmp x y)%Z = true) → insertSorted cmp x l = l ++ [x].
Proof.
  induction l as [|z l IH]; simpl; [done|]. intros Hall.
  rewrite (Hall z) by left. f_equal. apply IH. intros y Hy. apply Hall. by right.
Qed.

Lemma one_or_all (P : A → Prop) (x : A) (l : list A) :
  (∀ y, y ∈ l → y = x ∨ P y) → x ∈ l ∨ ∀ y, y ∈ l → P y.
Proof.
  induction l as [|a l IH]; intros Hall; [right; by intros ? ?%elem_of_nil|].
  destruct (Hall a) as [->|Ha]; [by left|by left; left|].
  destruct IH as [Hx|Hl]; [intros y Hy; apply Hall; by right|by left; right|].
  right. intros y [->|Hy]%elem_of_cons; auto.
Qed.

Lemma arraySort_last x l :
  x ∈ l →
  (∀ y, y ∈ l → (0 <? cmp y x)%Z = false) →
  (∀ y, y ∈ l → y = x ∨ (0 <? cmp x y)%Z = true) →
  last (arraySort cmp l) = Some x.
Proof.
  intros Hx Hno. pose proof (Hno x Hx) as Hxx. revert Hx Hno.
  induction l as [|a l IH]; [by intros ?%elem_of_nil|].
  intros Hx Hno Hall. simpl.
  assert (∀ y, y ∈ l → (0 <? cmp y x)%Z = false) as Hno'
    by (intros y Hy; apply Hno; by right).
  assert (∀ y, y ∈ l → y = x ∨ (0 <? cmp x y)%Z = true) as Hall'
    by (intros y Hy; apply Hall; by right).
  destruct (Hall a) as [->|Hxa]; [by left| |].
  - destruct (one_or_all _ _ _ Hall') as [Hin|Hl].
    + apply insertSorted_last; [by apply IH|done].
    + rewrite insertSorted_snoc; [by rewrite last_snoc|].
      intros y Hy%elem_of_arraySort. by apply Hl.
  - apply elem_of_cons in Hx as [->|Hx]; [congruence|].
    apply insertSorted_last; [by apply IH|]. apply Hno. by left.
Qed.

(** An element that never moves after another one, and that every other
    one moves after, comes first. *)
Lemma arraySort_head x l :
  x ∈ l →
  (∀ y, y ∈ l → (0 <? cmp x y)%Z = false) →
  (∀ y, y ∈ l → y = x ∨ (0 <? cmp y x)%Z = true) →
  head (arraySort cmp l) = Some x.
Proof.
  intros Hx Hno. pose proof (Hno x Hx) as Hxx. revert Hx Hno.
  induction l as [|a l IH]; [by intros ?%elem_of_nil|].
  intros Hx Hno Hall. simpl.
  assert (∀ y, y ∈ l → (0 <? cmp x y)%Z = false) as Hno'
    by (intros y Hy; apply Hno; by right).
  assert (∀ y, y ∈ l → y = x ∨ (0 <? cmp y x)%Z = true) as Hall'
    by (intros y Hy; apply Hall; by right).
  destruct (Hall a) as [->|Hax]; [by left| |].
  - destruct (arraySort cmp l) as [|z S] eqn:HS; simpl; [done|].
    rewrite Hno'; [done|]. apply (elem_of_arraySort cmp). rewrite HS. by left.
  - apply elem_of_cons in Hx as [->|Hx]; [congruence|].
    specialize (IH Hx Hno' Hall').
    destruct (arraySort cmp l) as [|z S]; [done|]. injection IH as ->.
    simpl. by rewrite Hax.
Qed.
End extremes.

(** ** Reading messages and conversations *)

Lemma getMessages_returned conversationId w rows w' :
  getMessages conversationId w = (Ok rows, w') →
  rows = map (messageRow (clientNow w))
           (orderByTime false Msg.timestamp
              (whereEq Msg.conversationId conversationId
                 (listing (affiliateMessages (store w))))) ∧
  w' = pop w.
Proof.
  destruct w as [st t now td sc]. unfold getMessages. run_worlds.
  repeat step.
  all: by intros [= <- <-].
Qed.

Lemma getConversations_served userId w :
  answer w = None →
  getConversations userId w
  = (Ok (map (conversationRow (clientNow w))
           (orderByTime true Conv.lastMessageTime
              (whereContains Conv.participants userId
                 (listing (conversations (store w)))))), pop w).
Proof.
  intros Ha. unfold getConversations, rethrowAs, tryCatch, bind, getDocs, request,
    getNow, ret.
  by rewrite Ha.
Qed.

Lemma getConversations_returned userId w rows w' :
  getConversations userId w = (Ok rows, w') →
  rows = map (conversationRow (clientNow w))
           (orderByTime true Conv.lastMessageTime
              (whereContains Conv.participants userId
                 (listing (conversations (store w))))) ∧
  w' = pop w.
Proof.
  destruct w as [st t now td sc]. unfold getConversations. run_worlds.
  repeat step.
  all: by intros [= <- <-].
Qed.

Lemma elem_of_whereContains userId (s : Snapshot Conv.doc) p :
  p ∈ whereContains Conv.participants userId s ↔ p ∈ s ∧ takesPart userId p.2 = true.
Proof. unfold whereContains. by rewrite elem_of_List_filter. Qed.

Lemma getMessages_rows conversationId w rows w' :
  getMessages conversationId w = (Ok rows, w') →
  ∀ row, row ∈ rows →
    affiliateMessages (store w) !! AffiliateMessage.id row
    = Some (AffiliateMessage.data row) ∧
    Msg.conversationId (AffiliateMessage.data row) = Has conversationId.
Proof.
  intros [-> _]%getMessages_returned.
  intros row [[i m] [-> Hp]]%list_elem_of_fmap. simpl.
  apply elem_of_orderByTime in Hp as [[Hp Hc]%elem_of_whereEq _].
  by apply elem_of_listing in Hp.
Qed.

(** [getMessages] returns stored messages of the conversation, every one of
    them that has a timestamp, by ascending timestamp; the live listener
    delivers the same list for the same store. *)
Theorem getMessages_in_order conversationId w rows w' :
  getMessages conversationId w = (Ok rows, w') →
  (∀ row, row ∈ rows →
     affiliateMessages (store w) !! AffiliateMessage.id row
     = Some (AffiliateMessage.data row) ∧
     Msg.conversationId (AffiliateMessage.data row) = Has conversationId) ∧
  (∀ id m, affiliateMessages (store w) !! id = Some m →
     Msg.conversationId m = Has conversationId → Msg.timestamp m ≠ Absent →
     messageRow (clientNow w) (id, m) ∈ rows) ∧
  StronglySorted
    (λ a b, noLater (Msg.timestamp (AffiliateMessage.data a))
              (Msg.timestamp (AffiliateMessage.data b))) rows ∧
  let listener := subscribeToMessages (clientNow w) conversationId in
  onNext listener (source listener (listing (affiliateMessages (store w)))) = [rows].
Proof.
  intros Hrun. pose proof (getMessages_rows _ _ _ _ Hrun) as Hrows.
  apply getMessages_returned in Hrun as [-> _]. split_and!.
  - done.
  - intros id m Hm Hc Ht.
    apply (list_elem_of_fmap_2 (messageRow (clientNow w)) _ (id, m)).
    apply elem_of_orderByTime. split; [|done].
    apply elem_of_whereEq. split; [by apply elem_of_listing|done].
  - apply (StronglySorted_fmap (messageRow (clientNow w))
             (λ a b, noLater (Msg.timestamp a.2) (Msg.timestamp b.2))); [done|].
    apply orderByTime_asc_StronglySorted.
  - done.
Qed.

Lemma getMessages_in_order_witness :
  ∃ rows, (getMessages "c1" office).1 = Ok rows ∧
          messageRow (clientNow office) ("m1", hello) ∈ rows.
Proof.
  destruct (getMessages "c1" office) as [[rows|e] w'] eqn:Hrun;
    [|vm_compute in Hrun; discriminate].
  destruct (getMessages_in_order "c1" office rows w' Hrun) as (_ & Hin & _).
  exists rows. split; [reflexivity|]. apply Hin; [reflexivity|reflexivity|discriminate].
Defined.

Lemma sendMessage_stores w senderId senderName senderRole content conversationId
    replyTo priority messageId w' :
  sendMessage senderId senderName senderRole content conversationId replyTo
    priority w = (Ok messageId, w') →
  ∃ cid t,
    affiliateMessages (store w) !! messageId = None ∧
    affiliateMessages (store w')
    = <[messageId := messageData senderId senderName senderRole content cid replyTo
                       priority t]> (affiliateMessages (store w)) ∧
    (serverTime w < t)%Z ∧ clientNow w' = clientNow w ∧
    (∀ c, given conversationId = Some c →
          cid = c ∧
          (conversations (store w) !! c = None →
           conversations (store w') = conversations (store w))).
Proof.
  destruct w as [st t now td sc].
  unfold sendMessage, updateConversationLastMessage, getOrCreateConversation.
  run_worlds.
  repeat split_run.
  all: try (by intros [=]).
  all: intros [= <- <-]; simpl.
  all: eexists _, _; split; [apply fresh_id_unused|].
  all: split; [reflexivity|].
  all: split; [lia|]; split; [done|].
  all: intros c [= <-]; try done.
  all: split; [done|]; try done.
  all: simpl in *; congruence.
Qed.

(** When no stored message is stamped later than the server's present time,
    a message just sent is the last row [getMessages] returns for its
    conversation. *)
Theorem sent_message_is_last w senderId senderName senderRole content conversationId
    replyTo priority messageId w' :
  sendMessage senderId senderName senderRole content conversationId replyTo
    priority w = (Ok messageId, w') →
  (∀ id m t, affiliateMessages (store w) !! id = Some m →
             Msg.timestamp m = Has t → (t ≤ serverTime w)%Z) →
  ∃ cid,
    Msg.conversationId <$> affiliateMessages (store w') !! messageId = Some (Has cid) ∧
    ∀ rows w'', getMessages cid w' = (Ok rows, w'') →
      ∃ row, last rows = Some row ∧
             AffiliateMessage.id row = messageId ∧
             Msg.content (AffiliateMessage.data row) = Has content ∧
             Msg.senderId (AffiliateMessage.data row) = Has senderId ∧
             (serverTime w < AffiliateMessage.timestamp row)%Z.
Proof.
  intros (cid & t & Hfresh & Hms & Ht & Hnow & _)%sendMessage_stores Hpast.
  set (m := messageData senderId senderName senderRole content cid replyTo priority t)
    in Hms.
  exists cid. rewrite Hms, lookup_insert_eq. split; [done|].
  intros rows w'' [-> _]%getMessages_returned.
  exists (messageRow (clientNow w') (messageId, m)). split; [|done].
  rewrite orderByTime_byTime, Hms.
  change (last (map ?f ?l)) with (last (f <$> l)). rewrite fmap_last.
  erewrite arraySort_last; [done| | |].
  - apply elem_of_List_filter. split; [|done].
    apply elem_of_whereEq. split; [|done].
    apply elem_of_listing. by rewrite lookup_insert_eq.
  - intros [i d] [[Hi _]%elem_of_whereEq _]%elem_of_List_filter.
    apply elem_of_listing in Hi. unfold byTime. simpl.
    destruct (decide (i = messageId)) as [->|Hne].
    + rewrite lookup_insert_eq in Hi. injection Hi as <-. simpl.
      rewrite Z.sub_diag. simpl. rewrite compareString_refl. done.
    + rewrite lookup_insert_ne in Hi by done.
      destruct (Msg.timestamp d) as [| |t0] eqn:Hd; simpl; try done.
      specialize (Hpast i d t0 Hi Hd).
      destruct (t0 - t =? 0)%Z eqn:Hz; [lia|]. apply Z.ltb_ge. lia.
  - intros [i d] [[Hi _]%elem_of_whereEq _]%elem_of_List_filter.
    apply elem_of_listing in Hi. unfold byTime. simpl.
    destruct (decide (i = messageId)) as [->|Hne].
    + rewrite lookup_insert_eq in Hi. injection Hi as <-. by left.
    + right. rewrite lookup_insert_ne in Hi by done.
      destruct (Msg.timestamp d) as [| |t0] eqn:Hd; simpl; try done.
      specialize (Hpast i d t0 Hi Hd).
      destruct (t - t0 =? 0)%Z eqn:Hz; [lia|]. apply Z.ltb_lt. lia.
Qed.

(** Every message of the office was stamped by the server at or before its
    present time. *)
Lemma office_messages_past id m t :
  affiliateMessages (store office) !! id = Some m →
  Msg.timestamp m = Has t → (t ≤ serverTime office)%Z.
Proof.
  unfold office. simpl.
  intros [<- <-]%lookup_singleton_Some. simpl. by intros [= <-].
Qed.

Lemma sent_message_is_last_witness :
  let run := sendMessage "alice" "Alice" affiliate "See you at noon" None None
               medium office in
  ∃ rows row,
    (getMessages "c1" run.2).1 = Ok rows ∧ last rows = Some row ∧
    Some (AffiliateMessage.id row) = (match run.1 with Ok id => Some id | _ => None end) ∧
    Msg.content (AffiliateMessage.data row) = Has "See you at noon".
Proof.
  intros run.
  assert (run = (Ok (fresh (dom (affiliateMessages (store office)))), run.2)) as Hrun
    by (vm_compute; reflexivity).
  destruct (sent_message_is_last office "alice" "Alice" affiliate "See you at noon"
              None None medium _ run.2 Hrun office_messages_past)
    as (cid & Hcid & Hlast).
  assert (cid = "c1") as ->.
  { vm_compute in Hcid. injection Hcid as <-. reflexivity. }
  assert (∃ rows w'', getMessages "c1" run.2 = (Ok rows, w'')) as (rows & w'' & Hget)
    by (eexists _, _; vm_compute; reflexivity).
  destruct (Hlast rows w'' Hget) as (row & Hrow & Hid & Hcontent & _).
  exists rows, row. split; [exact (f_equal fst Hget)|]. split; [exact Hrow|].
  split; [|exact Hcontent]. rewrite Hid. vm_compute. reflexivity.
Defined.

Lemma getOrCreateConversation_resolves w userId userName userRole id w' :
  getOrCreateConversation userId userName userRole w = (Ok id, w') →
  clientNow w' = clientNow w ∧
  ∃ d, conversations (store w') !! id = Some d ∧ takesPart userId d = true ∧
       (conversations (store w) !! id = Some d ∨
        ∃ t, Conv.lastMessageTime d = Has t).
Proof.
  destruct w as [st t now td sc]. unfold getOrCreateConversation. run_worlds.
  destruct (whereContains Conv.participants userId (listing (conversations st)))
    as [|[i d] l] eqn:Hq; simpl.
  - repeat first
      [ step
      | match goal with
        | |- context [adminOf ?s] => destruct (adminOf s) as [adminId adminName]
        end; simpl ].
    all: intros [= <- <-]; simpl; split; [done|].
    all: eexists; rewrite lookup_insert_eq; split; [done|].
    all: split; [unfold takesPart; apply conversationData_contains|right; by eexists].
  - assert ((i, d) ∈ whereContains Conv.participants userId (listing (conversations st)))
      as [Hi Hp]%elem_of_whereContains by (rewrite Hq; left).
    apply elem_of_listing in Hi.
    repeat step.
    all: intros [= <- <-]; simpl; split; [done|].
    all: exists d; split_and!; auto.
Qed.

(** A conversation resolved for a user is among the rows [getConversations]
    returns for that user right after; a conversation that was found, not
    created, must have a [lastMessageTime] to be in the ordered query. *)
Theorem resolved_conversation_is_listed w userId userName userRole id w1 rows w2 :
  getOrCreateConversation userId userName userRole w = (Ok id, w1) →
  getConversations userId w1 = (Ok rows, w2) →
  (∀ d, conversations (store w) !! id = Some d → Conv.lastMessageTime d ≠ Absent) →
  ∃ d, conversations (store w1) !! id = Some d ∧
       conversationRow (clientNow w) (id, d) ∈ rows.
Proof.
  intros (Hnow & d & Hd & Hp & Hold)%getOrCreateConversation_resolves
         [-> _]%getConversations_returned Htime.
  exists d. split; [done|]. rewrite Hnow.
  apply (list_elem_of_fmap_2 (conversationRow (clientNow w)) _ (id, d)).
  apply elem_of_orderByTime. split.
  - apply elem_of_whereContains. split; [by apply elem_of_listing|done].
  - destruct Hold as [Hold|[t Ht]]; [by apply Htime|]. simpl. by rewrite Ht.
Qed.

Lemma resolved_conversation_is_listed_witness :
  let run := getOrCreateConversation "bob" "Bob" affiliate office in
  ∃ rows row,
    (getConversations "bob" run.2).1 = Ok rows ∧ row ∈ rows ∧
    Some (Conversation.id row) = (match run.1 with Ok id => Some id | _ => None end).
Proof.
  intros run.
  assert (run = (Ok (fresh (dom (conversations (store office)))), run.2)) as Hrun
    by (vm_compute; reflexivity).
  destruct (getConversations "bob" run.2) as [[rows|e] w2] eqn:Hget;
    [|vm_compute in Hget; discriminate].
  destruct (resolved_conversation_is_listed office "bob" "Bob" affiliate _ run.2
              rows w2 Hrun Hget) as (d & Hd & Hin).
  { intros d Hd. vm_compute in Hd. discriminate. }
  eexists rows, _. split; [reflexivity|]. split; [exact Hin|].
  vm_compute. reflexivity.
Defined.

Lemma sendMessage_projects w senderId senderName senderRole content conversationId
    replyTo priority messageId w' :
  script w = [] →
  sendMessage senderId senderName senderRole content conversationId replyTo
    priority w = (Ok messageId, w') →
  script w' = [] ∧ clientNow w' = clientNow w ∧
  ∃ cid,
    Msg.conversationId <$> affiliateMessages (store w') !! messageId = Some (Has cid) ∧
    (∀ j, j ≠ cid → conversations (store w') !! j = conversations (store w) !! j) ∧
    (∀ d, conversations (store w') !! cid = Some d →
          Conv.lastMessage d = Has (substring0 100 content) ∧
          ∃ t, Conv.lastMessageTime d = Has t ∧ (serverTime w < t)%Z).
Proof.
  destruct w as [st t now td sc]. simpl. intros ->.
  unfold sendMessage, updateConversationLastMessage, getOrCreateConversation.
  run_worlds.
  repeat split_run.
  all: try match goal with
           | H : <[_:=_]> _ !! _ = None |- _ => by rewrite lookup_insert_eq in H
           end.
  all: intros [= <- <-]; simpl; split; [done|]; split; [done|].
  all: eexists; rewrite lookup_insert_eq; split; [reflexivity|].
  all: split; [intros j Hj; by rewrite ?lookup_insert_ne|].
  all: rewrite ?lookup_insert_eq; intros d' Hd'; simplify_eq; simpl.
  all: split; [done|]; eexists; split; [done|lia].
Qed.

Lemma head_map {A B} (f : A → B) (l : list A) : head (map f l) = f <$> head l.
Proof. by destruct l. Qed.

(** When the store serves every request and no conversation is stamped
    later than the server's present time, the conversation of a message just
    sent is the first row [getConversations] returns for each of its
    participants, with the preview of the message. *)
Theorem message_brings_conversation_first w senderId senderName senderRole content
    conversationId replyTo priority messageId w' :
  script w = [] →
  sendMessage senderId senderName senderRole content conversationId replyTo
    priority w = (Ok messageId, w') →
  (∀ id d t, conversations (store w) !! id = Some d →
             Conv.lastMessageTime d = Has t → (t ≤ serverTime w)%Z) →
  ∃ cid,
    Msg.conversationId <$> affiliateMessages (store w') !! messageId = Some (Has cid) ∧
    ∀ d userId,
      conversations (store w') !! cid = Some d → takesPart userId d = true →
      ∃ rows,
        getConversations userId w' = (Ok rows, pop w') ∧
        head rows = Some (conversationRow (clientNow w) (cid, d)) ∧
        Conv.lastMessage d = Has (substring0 100 content).
Proof.
  intros Hsc Hrun Hpast.
  destruct (sendMessage_projects _ _ _ _ _ _ _ _ _ _ Hsc Hrun)
    as (Hsc' & Hnow & cid & Hm & Hothers & Hcid).
  exists cid. split; [done|]. intros d userId Hd Hp.
  destruct (Hcid d Hd) as (Hlast & t & Ht & Hlt).
  eexists. split.
  { apply getConversations_served. unfold answer. by rewrite Hsc'. }
  rewrite Hnow. split.
  - rewrite head_map, orderByTime_byTime. erewrite arraySort_head; [done| | |].
    + apply elem_of_List_filter. split; [|simpl; by rewrite Ht].
      apply elem_of_whereContains. split; [by apply elem_of_listing|done].
    + intros [i di] [[Hi _]%elem_of_whereContains _]%elem_of_List_filter.
      apply elem_of_listing in Hi. unfold byTime. simpl. rewrite Ht.
      destruct (decide (i = cid)) as [->|Hne].
      * rewrite Hd in Hi. injection Hi as <-. rewrite Ht. simpl.
        rewrite Z.sub_diag. simpl. by rewrite compareString_refl.
      * rewrite Hothers in Hi by done.
        destruct (Conv.lastMessageTime di) as [| |t0] eqn:Hdi; simpl; try done.
        specialize (Hpast i di t0 Hi Hdi).
        destruct (t0 - t =? 0)%Z eqn:Hz; [lia|]. apply Z.ltb_ge. lia.
    + intros [i di] [[Hi _]%elem_of_whereContains _]%elem_of_List_filter.
      apply elem_of_listing in Hi. unfold byTime. simpl. rewrite Ht.
      destruct (decide (i = cid)) as [->|Hne].
      * rewrite Hd in Hi. injection Hi as <-. by left.
      * right. rewrite Hothers in Hi by done.
        destruct (Conv.lastMessageTime di) as [| |t0] eqn:Hdi; simpl; try done.
        specialize (Hpast i di t0 Hi Hdi).
        destruct (t - t0 =? 0)%Z eqn:Hz; [lia|]. apply Z.ltb_lt. lia.
  - done.
Qed.

(** Every conversation of the office was stamped at or before its present
    time. *)
Lemma office_conversations_past id d t :
  conversations (store office) !! id = Some d →
  Conv.lastMessageTime d = Has t → (t ≤ serverTime office)%Z.
Proof.
  unfold office, chat. simpl.
  intros [<- <-]%lookup_singleton_Some. simpl. by intros [= <-].
Qed.

Lemma message_brings_conversation_first_witness :
  let run := sendMessage "alice" "Alice" affiliate "See you at noon" None None
               medium office in
  ∃ rows row,
    (getConversations "alice" run.2).1 = Ok rows ∧ head rows = Some row ∧
    Conversation.id row = "c1" ∧
    Conv.lastMessage (Conversation.data row) = Has "See you at noon".
Proof.
  intros run.
  assert (run = (Ok (fresh (dom (affiliateMessages (store office)))), run.2)) as Hrun
    by (vm_compute; reflexivity).
  destruct (message_brings_conversation_first office "alice" "Alice" affiliate
              "See you at noon" None None medium _ run.2 eq_refl Hrun
              office_conversations_past)
    as (cid & Hcid & Hfirst).
  assert (cid = "c1") as ->.
  { vm_compute in Hcid. injection Hcid as <-. reflexivity. }
  assert (∃ d, conversations (store run.2) !! "c1" = Some d) as [d Hd]
    by (eexists; vm_compute; reflexivity).
  destruct (Hfirst d "alice" Hd) as (rows & Hget & Hhead & Hmsg).
  { vm_compute in Hd. injection Hd as <-. reflexivity. }
  exists rows, (conversationRow (clientNow office) ("c1", d)).
  split; [exact (f_equal fst Hget)|]. split; [exact Hhead|].
  split; [reflexivity|exact Hmsg].
Defined.

(** A message sent under a conversation id that names no conversation is
    stored under that id all the same; no conversation is created for it,
    and no listing of conversations shows one. *)
Theorem message_for_unknown_conversation w senderId senderName senderRole content
    conversationId replyTo priority c messageId w' :
  given conversationId = Some c →
  conversations (store w) !! c = None →
  sendMessage senderId senderName senderRole content conversationId replyTo
    priority w = (Ok messageId, w') →
  conversations (store w') = conversations (store w) ∧
  (∃ m, affiliateMessages (store w') !! messageId = Some m ∧
        Msg.conversationId m = Has c ∧ Msg.content m = Has content) ∧
  ∀ userId rows w'',
    getConversations userId w' = (Ok rows, w'') →
    ∀ row, row ∈ rows → Conversation.id row ≠ c.
Proof.
  intros Hg Hc (cid & t & Hfresh & Hms & _ & _ & Hgiven)%sendMessage_stores.
  destruct (Hgiven c Hg) as [-> Hconv]. specialize (Hconv Hc).
  split; [done|]. split.
  - eexists. rewrite Hms, lookup_insert_eq. done.
  - intros userId rows w'' [-> _]%getConversations_returned.
    intros row [[i d] [-> Hp]]%list_elem_of_fmap. simpl. intros ->.
    apply elem_of_orderByTime in Hp as [[Hp _]%elem_of_whereContains _].
    apply elem_of_listing in Hp. congruence.
Qed.

Lemma message_for_unknown_conversation_witness :
  let run := sendMessage "alice" "Alice" affiliate "hello?" (Some "c9") None
               medium office in
  conversations (store run.2) = conversations (store office) ∧
  ∃ m, affiliateMessages (store run.2) !! "0" = Some m ∧
       Msg.conversationId m = Has "c9".
Proof.
  intros run.
  assert (run = (Ok "0", run.2)) as Hrun by (vm_compute; reflexivity).
  destruct (message_for_unknown_conversation office "alice" "Alice" affiliate
              "hello?" (Some "c9") None medium "c9" "0" run.2 eq_refl eq_refl Hrun)
    as (Hc & (m & Hm & Hcid & _) & _).
  split; [exact Hc|]. exists m. split; [exact Hm|exact Hcid].
Defined.

(** ** Credit *)

(** A credit to an id that is no investor (no document, or a document with
    another role) throws and changes nothing; when the store serves the read
    the message is 'Failed to add credit: Investor profile not found'. *)
Theorem credit_needs_investor w id amount adminId :
  (∀ d, users (store w) !! id = Some d → roleIs "investor" d = false) →
  refused w (addCreditToInvestor id amount adminId w) ∧
  (answer w = None →
   (addCreditToInvestor id amount adminId w).1
   = Throw (wrapped "Failed to add credit" (newError "Investor profile not found"))).
Proof.
  destruct w as [st t now td sc]. unfold refused, addCreditToInvestor, getInvestorById.
  simpl. intros Hrole. run_worlds.
  destruct sc as [|[e|] sc]; simpl.
  all: destruct (users st !! id) as [d|] eqn:Hd; simpl;
    rewrite ?(Hrole d eq_refl); simpl.
  all: split; [split; [by eexists|done]|]; by intros.
Qed.

Lemma credit_needs_investor_witness :
  (addCreditToInvestor "cris" 100%float "admin1" office).1
  = Throw (wrapped "Failed to add credit" (newError "Investor profile not found")) ∧
  refused office (addCreditToInvestor "cris" 100%float "admin1" office).
Proof.
  destruct (credit_needs_investor office "cris" 100%float "admin1") as [Hr Hm].
  { intros d Hd. vm_compute in Hd. injection Hd as <-. reflexivity. }
  split; [apply Hm; reflexivity|exact Hr].
Defined.

(** ** Numbers in the rows *)

Lemma orElse_not_nan (f : field float) (d : float) :
  is_nan d = false → is_nan (orElse f d) = false.
Proof.
  intros Hd. unfold orElse. destruct f as [| |x]; try done.
  unfold truthy, truthy_number.
  destruct (is_nan x) eqn:Hx; [by rewrite orb_true_r|].
  by destruct (x =? 0)%float.
Qed.

Lemma orElse_number (x : float) :
  is_nan x = false → (x =? 0)%float = false → orElse (Has x) 0%float = x.
Proof.
  intros Hn Hz. unfold orElse, truthy, truthy_number. by rewrite Hn, Hz.
Qed.

(** The amounts of the rows are never NaN: balance and deposit of an
    investor, amount of a transaction and of a withdrawal request, amount
    and rate of a commission. A stored balance that is a number other than
    zero is reported as it is. *)
Theorem rows_hold_numbers today now :
  (∀ d, is_nan (Investor.currentBalance (processUserDocAsInvestor today now d)) = false ∧
        is_nan (Investor.initialDeposit (processUserDocAsInvestor today now d)) = false) ∧
  (∀ id data,
     is_nan (Investor.currentBalance (investorById today now id data)) = false ∧
     is_nan (Investor.currentBalance (investorLive today now id data)) = false) ∧
  (∀ d, is_nan (Transaction.amount (processTransactionDoc today now d)) = false) ∧
  (∀ d, is_nan (WithdrawalRequest.amount (processWithdrawalDoc today now d)) = false) ∧
  (∀ d, is_nan (Commission.commissionAmount (processCommissionDoc now d)) = false ∧
        is_nan (Commission.commissionRate (processCommissionDoc now d)) = false) ∧
  (∀ id data x,
     User.currentBalance data = Has x → is_nan x = false → (x =? 0)%float = false →
     Investor.currentBalance (investorById today now id data) = x).
Proof.
  split_and!; intros; split_and?; simpl.
  all: try (by apply orElse_not_nan).
  match goal with H : User.currentBalance _ = _ |- _ => rewrite H end.
  by apply orElse_number.
Qed.

(** ** The directory and the lookup *)

(** [getInvestors] and [getInvestorById] agree. When the store serves the
    read, an id the lookup finds has a row in the directory with the same
    name, email, country, join date, balance, activity, status, trading data
    and update time; an id it does not find has no row. *)
Theorem directory_agrees_with_lookup w id :
  answer w = None →
  ∃ rows r,
    getInvestors w = (Ok rows, pop w) ∧
    getInvestorById id w = (Ok r, pop w) ∧
    match r with
    | Some investor =>
        ∃ row, row ∈ rows ∧ Investor.id row = id ∧
          Investor.name row = Investor.name investor ∧
          Investor.email row = Investor.email investor ∧
          Investor.country row = Investor.country investor ∧
          Investor.joinDate row = Investor.joinDate investor ∧
          Investor.currentBalance row = Investor.currentBalance investor ∧
          Investor.isActive row = Investor.isActive investor ∧
          Investor.accountStatus row = Investor.accountStatus investor ∧
          Investor.tradingData row = Investor.tradingData investor ∧
          Investor.updatedAt row = Investor.updatedAt investor
    | None => ∀ row, row ∈ rows → Investor.id row ≠ id
    end.
Proof.
  intros Ha. rewrite (getInvestors_served _ Ha).
  assert (getInvestorById id w
          = (Ok match users (store w) !! id with
                | Some data =>
                    if roleIs "investor" data
                    then Some (investorById (today w) (clientNow w) id data)
                    else None
                | None => None
                end, pop w)) as ->.
  { unfold getInvestorById, rethrowAs, tryCatch, bind, getDoc, request, getToday,
      getNow, ret.
    rewrite Ha. simpl.
    destruct (users (store w) !! id) as [data|]; [|done].
    by destruct (roleIs "investor" data). }
  eexists _, _. split; [done|]. split; [done|].
  destruct (users (store w) !! id) as [data|] eqn:Hd.
  - destruct (roleIs "investor" data) eqn:Hr.
    + exists (processUserDocAsInvestor (today w) (clientNow w) (id, data)).
      split; [|done].
      apply (list_elem_of_fmap_2 _ _ (id, data)).
      apply elem_of_whereEq. split; [by apply elem_of_listing|].
      simpl. unfold roleIs in Hr. destruct (User.role data); try done.
      by apply String.eqb_eq in Hr as ->.
    + intros row [[i d] [-> [Hp Hrole]%elem_of_whereEq]]%list_elem_of_fmap.
      simpl. intros ->. apply elem_of_listing in Hp. simpl in *.
      rewrite Hd in Hp. injection Hp as <-.
      unfold roleIs in Hr. by rewrite Hrole, String.eqb_refl in Hr.
  - intros row [[i d] [-> [Hp _]%elem_of_whereEq]]%list_elem_of_fmap.
    simpl. intros ->. apply elem_of_listing in Hp. simpl in *. congruence.
Qed.

Lemma directory_agrees_with_lookup_witness :
  ∃ rows investor row,
    getInvestors office = (Ok rows, pop office) ∧
    getInvestorById "alice" office = (Ok (Some investor), pop office) ∧
    row ∈ rows ∧ Investor.id row = "alice" ∧
    Investor.currentBalance row = Investor.currentBalance investor.
Proof.
  destruct (directory_agrees_with_lookup office "alice" eq_refl)
    as (rows & r & Hall & Hone & Hr).
  destruct r as [investor|]; [|vm_compute in Hone; discriminate].
  destruct Hr as (row & Hin & Hid & _ & _ & _ & _ & Hb & _).
  exists rows, investor, row.
  split; [exact Hall|]. split; [exact Hone|]. split; [exact Hin|].
  split; [exact Hid|exact Hb].
Defined.

(** ** The messages page *)

(** [handleNewConversation] of the messages page never throws. Signed out,
    it changes nothing. Signed in, it selects the conversation resolved for
    the user, which lists the user, and hides the form; when the resolution
    fails the state is kept. *)
Theorem handleNewConversation_selects user s w :
  ∃ s', (handleNewConversation user s w).1 = Ok s' ∧
    MessagesPage.newMessageContent s' = MessagesPage.newMessageContent s ∧
    MessagesPage.isLoading s' = MessagesPage.isLoading s ∧
    match user with
    | None => s' = s ∧ (handleNewConversation user s w).2 = w
    | Some u =>
        match getOrCreateConversation (MessagesPage.id u) (MessagesPage.name u)
                (pageRole u) w with
        | (Ok id, w') =>
            MessagesPage.selectedConversationId s' = Some id ∧
            MessagesPage.showNewMessageForm s' = false ∧
            ∃ d, conversations (store w') !! id = Some d ∧
                 takesPart (MessagesPage.id u) d = true
        | (Throw _, _) => s' = s
        end
    end.
Proof.
  destruct user as [u|]; simpl; [|by exists s].
  unfold tryCatch, bind, ret.
  destruct (getOrCreateConversation _ _ _ w) as [[id|e] w'] eqn:Hrun; simpl.
  - eexists. split; [done|]. simpl. split_and!; try done.
    apply getOrCreateConversation_resolves in Hrun as (_ & d & Hd & Hp & _).
    by exists d.
  - by exists s.
Qed.

(** [handleSendNewMessage] of the messages page selects what [sendMessage]
    returns as the conversation; that is the id of the new message, not of
    its conversation. Unless the two ids coincide, the thread read under the
    selected id does not hold the message just sent. *)
Theorem handleSendNewMessage_selects_message trim u s w messageId w' :
  truthy (trim (MessagesPage.newMessageContent s)) = true →
  sendMessage (MessagesPage.id u) (MessagesPage.name u) (pageRole u)
    (trim (MessagesPage.newMessageContent s)) None None medium w
  = (Ok messageId, w') →
  ∃ s' cid m,
    handleSendNewMessage trim (Some u) s w = (Ok s', w') ∧
    MessagesPage.selectedConversationId s' = Some messageId ∧
    MessagesPage.newMessageContent s' = "" ∧
    MessagesPage.showNewMessageForm s' = false ∧
    MessagesPage.isLoading s' = false ∧
    affiliateMessages (store w) !! messageId = None ∧
    affiliateMessages (store w') !! messageId = Some m ∧
    Msg.conversationId m = Has cid ∧
    (messageId ≠ cid →
     ∀ rows w'', getMessages messageId w' = (Ok rows, w'') →
       ∀ row, row ∈ rows → AffiliateMessage.id row ≠ messageId).
Proof.
  intros Htrim Hrun. unfold handleSendNewMessage. rewrite Htrim.
  unfold tryCatch, bind, ret. rewrite Hrun. simpl.
  apply sendMessage_stores in Hrun as (cid & t & Hfresh & Hms & _).
  eexists _, cid, _. split; [done|]. simpl. split_and!; try done.
  - by rewrite Hms, lookup_insert_eq.
  - done.
  - intros Hne rows w'' Hrows row Hin Hid.
    destruct (getMessages_rows _ _ _ _ Hrows row Hin) as [Hrow Hc].
    rewrite Hid, Hms, lookup_insert_eq in Hrow. injection Hrow as Hrow.
    rewrite <- Hrow in Hc. simpl in Hc. congruence.
Qed.

Example trimAscii_draft : trimAscii "  See you at noon  " = "See you at noon".
Proof. reflexivity. Qed.

Lemma handleSendNewMessage_selects_message_witness :
  let run := handleSendNewMessage trimAscii (Some aliceOnPage) draft office in
  ∃ s' m,
    run.1 = Ok s' ∧
    MessagesPage.selectedConversationId s' = Some "0" ∧
    affiliateMessages (store run.2) !! "0" = Some m ∧
    Msg.conversationId m = Has "c1".
Proof.
  intros run.
  assert (sendMessage "alice" "Alice" affiliate "See you at noon" None None medium
            office = (Ok "0", run.2)) as Hrun by (vm_compute; reflexivity).
  destruct (handleSendNewMessage_selects_message trimAscii aliceOnPage draft office
              "0" run.2 eq_refl Hrun)
    as (s' & cid & m & Hs & Hsel & _ & _ & _ & _ & Hm & Hc & _).
  exists s', m.
  split; [exact (f_equal fst Hs)|]. split; [exact Hsel|]. split; [exact Hm|].
  rewrite Hc. f_equal.
  assert (Msg.conversationId <$> affiliateMessages (store run.2) !! "0"
          = Some (Has "c1")) as Hstored by (vm_compute; reflexivity).
  rewrite Hm in Hstored. simpl in Hstored. rewrite Hc in Hstored.
  injection Hstored as ->. reflexivity.
Defined.

(** ** The collections a write can change *)

(** Each write method changes only the collections it addresses, whether it
    returns or throws: the investor methods only users, a credit users and
    transactions, a decision on a withdrawal the requests and the
    commissions, a message the messages and the conversations. *)
Theorem writes_stay_in_their_collections op w :
  let w' := effect op w in
  (path usersC ∉ addresses op → untouched usersC w w') ∧
  (path transactionsC ∉ addresses op → untouched transactionsC w w') ∧
  (path withdrawalRequestsC ∉ addresses op → untouched withdrawalRequestsC w w') ∧
  (path commissionsC ∉ addresses op → untouched commissionsC w w') ∧
  (path conversationsC ∉ addresses op → untouched conversationsC w w') ∧
  (path affiliateMessagesC ∉ addresses op → untouched affiliateMessagesC w w').
Proof.
  destruct w as [st t now td sc]. unfold untouched.
  destruct op; simpl.
  all: unfold createInvestor, updateInvestor, updateInvestorBalance, deleteInvestor,
    addCreditToInvestor, addTransaction, updateTransaction, addWithdrawalRequest,
    updateWithdrawalRequest, updateW8BenStatus, addCommission, deleteDocument,
    sendMessage, getOrCreateConversation, updateConversationLastMessage,
    updateInvestorBalance, addTransaction, getInvestorById, addCommission,
    getOrCreateConversation, updateConversationLastMessage.
  all: run_worlds.
  all: repeat split_run.
  all: split_and!; intros Hnot; try done.
  all: exfalso; apply Hnot; rewrite ?list_elem_of_singleton;
    repeat match goal with
           | H : (_ =? _)%string = true |- _ => apply String.eqb_eq in H as ->
           end.
  all: set_solver.
Qed.

(** ** Live feeds and the fallback path *)

(** What the live listeners of transactions and of withdrawal requests
    deliver for a store is what the one-shot reads return for it on their
    fallback path (unordered fetch, sort in memory). *)
Theorem live_feeds_follow_fallback getTime investorId w e :
  isIndexError e = true →
  let feed := subscribeToTransactions getTime (today w) (clientNow w) investorId in
  ∃ rows requests,
    (getTransactions getTime investorId (scripted [Some e] w)).1 = Ok rows ∧
    onNext feed (source feed (listing (transactions (store w)))) = [rows] ∧
    (getWithdrawalRequests getTime investorId (scripted [Some e] w)).1 = Ok requests ∧
    liveWithdrawalRequests getTime investorId w = [requests].
Proof.
  intros He feed. subst feed. rewrite (getTransactions_fallback _ _ _ _ He).
  destruct w as [st t now td sc].
  unfold getWithdrawalRequests, liveWithdrawalRequests, matching. run_worlds.
  eexists _, _. split; [reflexivity|].
  split; [by destruct (given investorId)|].
  split; [reflexivity|]. by destruct (given investorId).
Qed.

Lemma live_feeds_follow_fallback_witness :
  let feed := subscribeToTransactions isoGetTime (today history) (clientNow history)
                (Some "alice") in
  ∃ rows,
    (getTransactions isoGetTime (Some "alice") (scripted [Some missingIndex] history)).1
    = Ok rows ∧
    onNext feed (source feed (listing (transactions (store history)))) = [rows].
Proof.
  intros feed.
  destruct (live_feeds_follow_fallback isoGetTime (Some "alice") history missingIndex
              eq_refl) as (rows & requests & Hget & Hlive & _).
  exists rows. split; [exact Hget|exact Hlive].
Defined.

(** ** A processed request, read back *)

Lemma updateWithdrawalRequest_stores w id status processedBy reason w' :
  updateWithdrawalRequest id status processedBy reason w = (Ok tt, w') →
  ∃ d, withdrawalRequests (store w) !! id = Some d ∧
       withdrawalRequests (store w')
       = <[id := mergeProcessed status processedBy reason (commitTime w) d]>
           (withdrawalRequests (store w)) ∧
       today w' = today w ∧ clientNow w' = clientNow w.
Proof.
  destruct w as [st t now td sc]. unfold updateWithdrawalRequest, addCommission.
  run_worlds. repeat split_run.
  all: try (by intros [=]).
  all: intros [= <-]; simpl; by eexists.
Qed.

(** After [updateWithdrawalRequest] returns, a read of the requests reports
    the request with the status, [processedBy], reason and time of the
    decision, an approval date when it is approved, and its amount; the
    request is among the rows when it matches the filter and has a date. *)
Theorem processed_request_is_reported w id status processedBy reason w' getTime
    filter rows w'' :
  updateWithdrawalRequest id status processedBy reason w = (Ok tt, w') →
  getWithdrawalRequests getTime filter w' = (Ok rows, w'') →
  ∃ d, withdrawalRequests (store w) !! id = Some d ∧
    (∀ row, row ∈ rows → WithdrawalRequest.id row = id →
       WithdrawalRequest.status row = orElse (Has status) "Pending" ∧
       WithdrawalRequest.processedBy row = Has processedBy ∧
       WithdrawalRequest.processedAt row = Some (commitTime w) ∧
       WithdrawalRequest.reason row = orNull reason ∧
       WithdrawalRequest.approvalDate row
       = (if isApproved status then Some (commitTime w)
          else toDateOrNull (Wd.approvalDate d)) ∧
       WithdrawalRequest.amount row = orElse (Wd.amount d) 0%float) ∧
    (wanted filter d → Wd.date d ≠ Absent →
     ∃ row, row ∈ rows ∧ WithdrawalRequest.id row = id).
Proof.
  intros (d & Hd & Hw & Htd & Hnow)%updateWithdrawalRequest_stores
         [Hsub Hsup]%getWithdrawalRequests_rows.
  exists d. split; [done|]. split.
  - intros row (i & d' & Hi & ->)%Hsub. simpl. intros ->.
    rewrite Hw, lookup_insert_eq in Hi. injection Hi as <-. simpl.
    split_and!; try done. by destruct (isApproved status).
  - intros Hwanted Hdate.
    exists (processWithdrawalDoc (today w') (clientNow w')
              (id, mergeProcessed status processedBy reason (commitTime w) d)).
    split; [|reflexivity].
    apply (Hsup id (mergeProcessed status processedBy reason (commitTime w) d)).
    + by rewrite Hw, lookup_insert_eq.
    + exact Hwanted.
    + exact Hdate.
Qed.

Lemma processed_request_is_reported_witness :
  let w' := (updateWithdrawalRequest "w1" "Rejected" "admin1" (Some "limit") ledger).2 in
  ∃ rows row,
    (getWithdrawalRequests isoGetTime (Some "alice") w').1 = Ok rows ∧
    row ∈ rows ∧ WithdrawalRequest.id row = "w1" ∧
    WithdrawalRequest.status row = "Rejected" ∧
    WithdrawalRequest.reason row = Has "limit".
Proof.
  intros w'.
  assert (updateWithdrawalRequest "w1" "Rejected" "admin1" (Some "limit") ledger
          = (Ok tt, w')) as Hrun by (vm_compute; reflexivity).
  destruct (getWithdrawalRequests isoGetTime (Some "alice") w') as [[rows|e] w'']
    eqn:Hget; [|vm_compute in Hget; discriminate].
  destruct (processed_request_is_reported ledger "w1" "Rejected" "admin1"
              (Some "limit") w' isoGetTime (Some "alice") rows w'' Hrun Hget)
    as (d & Hd & Hrows & Hin).
  assert (d = request1) as ->.
  { vm_compute in Hd. injection Hd as <-. reflexivity. }
  destruct Hin as (row & Hin & Hid);
    [intros inv [= <-]; reflexivity|discriminate|].
  destruct (Hrows row Hin Hid) as (Hs & _ & _ & Hr & _).
  exists rows, row. split; [reflexivity|]. split; [exact Hin|].
  split; [exact Hid|]. split; [exact Hs|exact Hr].
Defined.

(** ** Submitting under an id in use *)

Lemma keeps_fresh_any {D} (m : gmap string D) d' id d :
  m !! id = Some d → <[fresh (dom m) := d']> m !! id = Some d.
Proof.
  intros Hd. rewrite lookup_insert_ne; [done|].
  intros <-. by rewrite fresh_id_unused in Hd.
Qed.

(** [addWithdrawalRequest] under an id in use replaces the stored request:
    it is Pending again, without processing data, whatever its status was,
    and the commissions recorded for it stay. Without an id, every stored
    request is kept. *)
Theorem resubmission_replaces_request w investorId investorName amount withdrawalId w' :
  addWithdrawalRequest investorId investorName amount withdrawalId w = (Ok tt, w') →
  commissions (store w') = commissions (store w) ∧
  match given withdrawalId with
  | Some id =>
      withdrawalRequests (store w')
      = <[id := withdrawalDocData investorId investorName amount (today w)
                  (commitTime w)]> (withdrawalRequests (store w)) ∧
      ∀ getTime rows w'',
        getWithdrawalRequests getTime None w' = (Ok rows, w'') →
        (∃ row, row ∈ rows ∧ WithdrawalRequest.id row = id) ∧
        ∀ row, row ∈ rows → WithdrawalRequest.id row = id →
          WithdrawalRequest.status row = "Pending" ∧
          WithdrawalRequest.processedBy row = Absent ∧
          WithdrawalRequest.processedAt row = None ∧
          WithdrawalRequest.approvalDate row = None ∧
          WithdrawalRequest.amount row = orElse (Has amount) 0%float
  | None =>
      ∀ j d, withdrawalRequests (store w) !! j = Some d →
             withdrawalRequests (store w') !! j = Some d
  end.
Proof.
  intros Hrun.
  assert (commissions (store w') = commissions (store w) ∧
          today w' = today w ∧ clientNow w' = clientNow w ∧
          withdrawalRequests (store w')
          = <[submittedId withdrawalId w :=
                withdrawalDocData investorId investorName amount (today w)
                  (commitTime w)]> (withdrawalRequests (store w)))
    as (Hc & Htd & Hnow & Hw).
  { revert Hrun. destruct w as [st t now td sc].
    unfold addWithdrawalRequest, submittedId. run_worlds.
    destruct (given withdrawalId); simpl.
    all: repeat step.
    all: by intros [= <-]. }
  split; [done|]. unfold submittedId in Hw.
  destruct (given withdrawalId) as [id|] eqn:Hg.
  - split; [done|]. intros getTime rows w'' [Hsub Hsup]%getWithdrawalRequests_rows.
    split.
    + exists (processWithdrawalDoc (today w') (clientNow w')
                (id, withdrawalDocData investorId investorName amount (today w)
                       (commitTime w))).
      split; [|reflexivity].
      apply (Hsup id (withdrawalDocData investorId investorName amount (today w)
                        (commitTime w))); [by rewrite Hw, lookup_insert_eq|done|done].
    + intros row (i & d' & Hi & ->)%Hsub. simpl. intros ->.
      rewrite Hw, lookup_insert_eq in Hi. by injection Hi as <-.
  - intros j d Hj. rewrite Hw. by apply keeps_fresh_any.
Qed.

Lemma resubmission_replaces_request_witness :
  let w' := (addWithdrawalRequest "alice" "Alice" 250%float (Some "w1") approvedOnce).2 in
  Wd.status <$> withdrawalRequests (store approvedOnce) !! "w1" = Some (Has "Approved") ∧
  Wd.status <$> withdrawalRequests (store w') !! "w1" = Some (Has "Pending") ∧
  commissions (store w') = commissions (store approvedOnce).
Proof.
  intros w'.
  assert (addWithdrawalRequest "alice" "Alice" 250%float (Some "w1") approvedOnce
          = (Ok tt, w')) as Hrun by (vm_compute; reflexivity).
  destruct (resubmission_replaces_request approvedOnce "alice" "Alice" 250%float
              (Some "w1") w' Hrun) as (Hc & Hw & _).
  split; [vm_compute; reflexivity|]. split; [|exact Hc].
  rewrite Hw, lookup_insert_eq. reflexivity.
Defined.
